(** * FPL combination analyser: cache store, batch fetch, coverage
      reconciliation and combination query

    A shallow embedding of [player_combination_analysis.py] (class
    [FPLCombinationAnalyzer]), of the parts of [webapp/app.py] that
    call it (the query loop, the load of a league, the in-memory
    standings cache) and of the removal block of [cache_manager.py].

    - Python values are a small universe [pyval] (None, bool, int, str,
      list, dict); dictionaries are insertion-ordered association lists,
      as Python's are.  JSON floats do not occur in the payloads the
      program inspects and are left out of the universe.
    - Python [float] arithmetic ([total_count * 0.95], [retry_delay * 0.5],
      the percentage) is IEEE-754 binary64, computed with the Standard
      Library's [SpecFloat].
    - The cache directory is a finite map from file names to file
      contents; a save is the sequence of writes the code performs.
    - An exception is a value of [result]; a [try/except Exception] turns
      it into the value the handler returns. *)

From Stdlib Require Import ZArith Ascii DecimalString DecimalPos DecimalZ.
From Stdlib Require Import SpecFloat Sorted.
From stdpp Require Import gmap strings list pretty.

Local Open Scope Z_scope.
Set Warnings "-register-all,-clear-no-such-hyp".

(** ** Python values *)

Inductive key :=
| KInt (z : Z)
| KStr (s : string).

Inductive pyval :=
| PNone
| PBool (b : bool)
| PInt (z : Z)
| PStr (s : string)
| PList (l : list pyval)
| PDict (d : list (key * pyval)).

Abbreviation dict := (list (key * pyval)).

#[global] Instance key_eq_dec : EqDecision key.
Proof. solve_decision. Defined.

Inductive exn :=
| KeyError
| TypeError
| ValueError
| ZeroDivisionError
| AttributeError
| ReError.

Inductive result (A : Type) :=
| Ok (a : A)
| Raise (e : exn).
Arguments Ok {A} a.
Arguments Raise {A} e.

#[global] Instance result_bind : MBind result := fun A B k r =>
  match r with
  | Ok a => k a
  | Raise e => Raise e
  end.

(** [bool(v)]. *)
Definition truthy (v : pyval) : bool :=
  match v with
  | PNone => false
  | PBool b => b
  | PInt z => negb (z =? 0)
  | PStr s => negb (bool_decide (s = ""))
  | PList l => negb (bool_decide (l = []))
  | PDict d => negb (bool_decide (length d = 0%nat))
  end.

(** [len(v)]. *)
Definition py_len (v : pyval) : result nat :=
  match v with
  | PStr s => Ok (String.length s)
  | PList l => Ok (length l)
  | PDict d => Ok (length d)
  | _ => Raise TypeError
  end.

(** [k in d] and [d[k]] on the association list. *)
Fixpoint dict_get (k : key) (d : dict) : option pyval :=
  match d with
  | [] => None
  | (k', v) :: d' => if decide (k = k') then Some v else dict_get k d'
  end.

(** [d[k] = v]: an existing key keeps its position, a new key goes last. *)
Fixpoint dict_set (k : key) (v : pyval) (d : dict) : dict :=
  match d with
  | [] => [(k, v)]
  | (k', v') :: d' =>
      if decide (k = k') then (k, v) :: d' else (k', v') :: dict_set k v d'
  end.

(** [d.update(new)]. *)
Definition dict_update (d new : dict) : dict :=
  fold_left (fun acc kv => dict_set kv.1 kv.2 acc) new d.

Definition dict_keys (d : dict) : list key := d.*1.

(** [v[k]] for a string subscript. *)
Definition getitem (v : pyval) (k : string) : result pyval :=
  match v with
  | PDict d =>
      match dict_get (KStr k) d with
      | Some x => Ok x
      | None => Raise KeyError
      end
  | _ => Raise TypeError
  end.

Definition key_val (k : key) : pyval :=
  match k with
  | KInt z => PInt z
  | KStr s => PStr s
  end.

Fixpoint chars (s : string) : list pyval :=
  match s with
  | EmptyString => []
  | String a s' => PStr (String a EmptyString) :: chars s'
  end.

(** [iter(v)]: what a [for] or a comprehension ranges over. *)
Definition py_iter (v : pyval) : result (list pyval) :=
  match v with
  | PList l => Ok l
  | PDict d => Ok (key_val <$> dict_keys d)
  | PStr s => Ok (chars s)
  | _ => Raise TypeError
  end.

(** [str.lower()] on ASCII input. *)
Definition lower_ascii (a : ascii) : ascii :=
  let n := N_of_ascii a in
  if ((65 <=? n) && (n <=? 90))%N then ascii_of_N (n + 32) else a.

Fixpoint lower (s : string) : string :=
  match s with
  | EmptyString => EmptyString
  | String a s' => String (lower_ascii a) (lower s')
  end.

(** ** IEEE-754 binary64 *)

Definition prec : Z := 53.
Definition emax : Z := 1024.

Definition float_of_int (n : Z) : spec_float :=
  binary_normalize prec emax n 0 false.

Definition fmul : spec_float -> spec_float -> spec_float := SFmul prec emax.
Definition fdiv : spec_float -> spec_float -> spec_float := SFdiv prec emax.

(** The doubles nearest to the decimal literals of the source. *)
Definition f0_95 : spec_float := S754_finite false 8556839292003942 (-53).
Definition f0_5 : spec_float := S754_finite false 4503599627370496 (-53).
Definition f1_0 : spec_float := S754_finite false 4503599627370496 (-52).
Definition f0_2 : spec_float := S754_finite false 7205759403792794 (-55).
Definition f0_1 : spec_float := S754_finite false 7205759403792794 (-56).
Definition f0_0 : spec_float := S754_zero false.

(** [n >= x] for an [int] and a [float]: Python compares the exact
    values. *)
Definition int_ge_float (n : Z) (x : spec_float) : bool :=
  match x with
  | S754_zero _ => 0 <=? n
  | S754_infinity s => s
  | S754_nan => false
  | S754_finite s m e =>
      let sm := if s then Z.neg m else Z.pos m in
      if 0 <=? e then sm * 2 ^ e <=? n else sm <=? n * 2 ^ (- e)
  end.

(** ** Analyzer state and the cache directory *)

Record gw_event := { ev_id : Z; is_current : bool }.

(** The attributes of [FPLCombinationAnalyzer] the embedded methods use.
    [bootstrap_data] is [None] or the events list of the bootstrap
    document. *)
Record analyzer := {
  bootstrap_data : option (list gw_event);
  league_data : pyval;
  manager_squads : pyval;
  current_league_id : option Z
}.

Definition set_manager_squads (v : pyval) (self : analyzer) : analyzer :=
  {| bootstrap_data := bootstrap_data self;
     league_data := league_data self;
     manager_squads := v;
     current_league_id := current_league_id self |}.

Definition set_league_data (v : pyval) (self : analyzer) : analyzer :=
  {| bootstrap_data := bootstrap_data self;
     league_data := v;
     manager_squads := manager_squads self;
     current_league_id := current_league_id self |}.

(** [__init__]. *)
Definition init : analyzer :=
  {| bootstrap_data := None;
     league_data := PNone;
     manager_squads := PDict [];
     current_league_id := None |}.

(** A file of the cache directory: just opened for writing (empty), a
    pickle, or a JSON document.  A pickle and a JSON document are held
    as the value they decode to. *)
Inductive file :=
| Truncated
| Pickled (v : pyval)
| JsonText (v : pyval).

Abbreviation store := (gmap string file).

Definition cache_dir : string := "fpl_cache".

(** [next((gw['id'] for gw in events if gw['is_current']), 1)]. *)
Fixpoint current_event (events : list gw_event) : Z :=
  match events with
  | [] => 1
  | gw :: rest => if is_current gw then ev_id gw else current_event rest
  end.

Definition resolve_gameweek (self : analyzer) (gameweek : option Z) : Z :=
  match gameweek with
  | Some g => g
  | None =>
      match bootstrap_data self with
      | Some events => current_event events
      | None => 1
      end
  end.

Definition get_cache_filename (self : analyzer) (league_id : Z)
    (gameweek : option Z) : string :=
  cache_dir +:+ "/" +:+ "league_" +:+ pretty league_id +:+ "_gw_"
    +:+ pretty (resolve_gameweek self gameweek) +:+ ".pkl".

Definition get_cache_info_filename (self : analyzer) (league_id : Z)
    (gameweek : option Z) : string :=
  cache_dir +:+ "/" +:+ "league_" +:+ pretty league_id +:+ "_gw_"
    +:+ pretty (resolve_gameweek self gameweek) +:+ "_info.json".

(** [os.path.exists]. *)
Definition path_exists (fs : store) (path : string) : bool :=
  bool_decide (is_Some (fs !! path)).

Definition cache_exists (self : analyzer) (fs : store) (league_id : Z)
    (gameweek : option Z) : bool :=
  path_exists fs (get_cache_filename self league_id gameweek)
  && path_exists fs (get_cache_info_filename self league_id gameweek).

(** [pickle.load] and [json.load]: anything but a complete document of
    the right kind raises, and both callers catch [Exception]. *)
Definition pickle_load (fs : store) (path : string) : option pyval :=
  match fs !! path with
  | Some (Pickled v) => Some v
  | _ => None
  end.

Definition json_load (fs : store) (path : string) : option pyval :=
  match fs !! path with
  | Some (JsonText v) => Some v
  | _ => None
  end.

Definition gameweek_val (gameweek : option Z) : pyval :=
  match gameweek with
  | Some g => PInt g
  | None => PNone
  end.

(** The league document [get_league_data] builds:
    [{'standings': {'results': results}}]. *)
Definition league_doc (results : list pyval) : pyval :=
  PDict [(KStr "standings", PDict [(KStr "results", PList results)])].

Definition run_writes (ws : list (string * file)) (fs : store) : store :=
  fold_left (fun acc w => <[w.1 := w.2]> acc) ws fs.

Section CacheStore.

(** Time is a count of microseconds.  [datetime.isoformat] and
    [datetime.fromisoformat] belong to the Python library and are
    parameters of the store. *)
Variable isoformat : Z -> string.
Variable fromisoformat : string -> option Z.

Definition one_hour : Z := 3600 * 1000000.

(** [len(self.league_data['standings']['results']) if self.league_data
    else 0]. *)
Definition total_managers_in_league (self : analyzer) : result nat :=
  if truthy (league_data self) then
    standings ← getitem (league_data self) "standings";
    results ← getitem standings "results";
    py_len results
  else Ok 0%nat.

(** The metadata document of [save_manager_squads_cache]. *)
Definition cache_info_doc (self : analyzer) (now : Z) (league_id : Z)
    (gameweek : option Z) : result pyval :=
  manager_count ← py_len (manager_squads self);
  total ← total_managers_in_league self;
  Ok (PDict [(KStr "league_id", PInt league_id);
             (KStr "gameweek", gameweek_val gameweek);
             (KStr "manager_count", PInt (Z.of_nat manager_count));
             (KStr "cached_at", PStr (isoformat now));
             (KStr "total_managers_in_league", PInt (Z.of_nat total))]).

Definition cache_data_doc (self : analyzer) : pyval :=
  PDict [(KStr "manager_squads", manager_squads self);
         (KStr "league_data", league_data self)].

(** [save_manager_squads_cache], as the writes it performs, in order,
    and the value it returns.  [open(path, 'w')] empties the file,
    the dump then fills it.  An exception while the metadata is built
    is caught after the payload file has been written. *)
Definition save_writes (self : analyzer) (now : Z) (league_id : Z)
    (gameweek : option Z) : list (string * file) * bool :=
  let cache_file := get_cache_filename self league_id gameweek in
  let info_file := get_cache_info_filename self league_id gameweek in
  let payload :=
    [(cache_file, Truncated); (cache_file, Pickled (cache_data_doc self))] in
  match cache_info_doc self now league_id gameweek with
  | Ok cache_info =>
      (payload ++ [(info_file, Truncated); (info_file, JsonText cache_info)],
       true)
  | Raise _ => (payload, false)
  end.

Definition save_manager_squads_cache (self : analyzer) (fs : store)
    (now : Z) (league_id : Z) (gameweek : option Z) : store * bool :=
  let '(ws, ok) := save_writes self now league_id gameweek in
  (run_writes ws fs, ok).

(** Whether the load gives up at the staleness prompt: the record is
    more than an hour old, the caller did not ask to skip the prompt,
    and the operator answers no. *)
Definition rejected_as_stale (now t : Z) (skip_prompt : bool)
    (answer : string) : bool :=
  (one_hour <? now - t) && negb skip_prompt
  && bool_decide (lower answer = "n").

(** [datetime.fromisoformat(cache_info['cached_at'])]. *)
Definition cached_time (cache_info : pyval) : result Z :=
  c ← getitem cache_info "cached_at";
  match c with
  | PStr s =>
      match fromisoformat s with
      | Some t => Ok t
      | None => Raise ValueError
      end
  | _ => Raise TypeError
  end.

(** The assignments of the format test of [load_manager_squads_cache]:
    a dict with a ['manager_squads'] key is the new format, anything
    else is taken as the bare squads mapping. *)
Definition adopt_cached_data (self : analyzer) (cached_data : pyval)
    : analyzer :=
  match cached_data with
  | PDict d =>
      match dict_get (KStr "manager_squads") d with
      | Some squads =>
          set_league_data (default PNone (dict_get (KStr "league_data") d))
            (set_manager_squads squads self)
      | None => set_league_data PNone (set_manager_squads cached_data self)
      end
  | _ => set_league_data PNone (set_manager_squads cached_data self)
  end.

(** [load_manager_squads_cache].  [answer] is what the operator types
    at the staleness prompt.  The attributes are assigned before the
    two report lines, so an exception there returns [False] with the
    loaded data already in place. *)
Definition load_manager_squads_cache (self : analyzer) (fs : store)
    (now : Z) (league_id : Z) (gameweek : option Z) (skip_prompt : bool)
    (answer : string) : analyzer * bool :=
  let cache_file := get_cache_filename self league_id gameweek in
  let info_file := get_cache_info_filename self league_id gameweek in
  if negb (path_exists fs cache_file) || negb (path_exists fs info_file)
  then (self, false)
  else
    match json_load fs info_file with
    | None => (self, false)
    | Some cache_info =>
        match cached_time cache_info with
        | Raise _ => (self, false)
        | Ok t =>
            if rejected_as_stale now t skip_prompt answer
            then (self, false)
            else
              match pickle_load fs cache_file with
              | None => (self, false)
              | Some cached_data =>
                  let self' := adopt_cached_data self cached_data in
                  match py_len (manager_squads self'),
                        getitem cache_info "total_managers_in_league" with
                  | Ok _, Ok _ => (self', true)
                  | _, _ => (self', false)
                  end
              end
        end
    end.

End CacheStore.

(** An instance of the two library parameters, to run the store on
    concrete inputs: the count of microseconds in decimal. *)
Definition decimal_isoformat (t : Z) : string :=
  NilZero.string_of_int (Z.to_int t).

Definition decimal_fromisoformat (s : string) : option Z :=
  Z.of_int <$> NilZero.int_of_string s.

(** What a reader of the cache directory finds for a league and a
    gameweek: the payload and the metadata, each if it decodes. *)
Definition visible_record (self : analyzer) (fs : store) (league_id : Z)
    (gameweek : option Z) : option pyval * option pyval :=
  (pickle_load fs (get_cache_filename self league_id gameweek),
   json_load fs (get_cache_info_filename self league_id gameweek)).

(** A payload without the league document: the bare squads mapping of
    the old format (its keys are member ids), or a keyed document that
    has no ['league_data'] entry. *)
Inductive lacks_snapshot (squads : dict) : pyval -> Prop :=
| lacks_bare :
    (forall k, k ∈ dict_keys squads -> exists z, k = KInt z) ->
    lacks_snapshot squads (PDict squads)
| lacks_keyed (d : dict) :
    dict_get (KStr "manager_squads") d = Some (PDict squads) ->
    dict_get (KStr "league_data") d = None ->
    lacks_snapshot squads (PDict d).

(** A squad document with the given picks, for the examples. *)
Definition squad_of (elements : list Z) : pyval :=
  PDict [(KStr "picks",
          PList ((fun e => PDict [(KStr "element", PInt e)]) <$> elements))].

(** ** Remote client and per-member fetch *)

(** What one request to the picks endpoint comes to: a 200 response and
    its decoded body, another status, or an exception of the transport
    (time-out, connection error, undecodable body). *)
Inductive http_outcome :=
| Http200 (body : pyval)
| HttpStatus (code : Z)
| HttpError.

(** The remote side: the outcome of each attempt of each submitted task
    for the manager it asks about. *)
Abbreviation network := (nat -> Z -> nat -> http_outcome).

(** [get_manager_squad]: its own [except Exception] turns every failure
    into [None], so it never raises. *)
Definition get_manager_squad (out : http_outcome) : result pyval :=
  match out with
  | Http200 body => Ok body
  | HttpStatus _ => Ok PNone
  | HttpError => Ok PNone
  end.

(** The loop of [get_manager_squad_safe] (the second definition of the
    class, which replaces the first): the squad it returns and the
    pauses it made, in order.  [fetch attempt] is the call of
    [get_manager_squad] at that attempt.  The delays the program passes
    are never negative, so [time.sleep] itself does not raise. *)
Fixpoint retry_loop (fetch : nat -> result pyval) (retry_delay : spec_float)
    (attempt remaining : nat) : pyval * list spec_float :=
  match remaining with
  | O => (PNone, [])
  | S remaining' =>
      match fetch attempt with
      | Ok squad =>
          if truthy squad then (squad, [])
          else
            let '(r, pauses) :=
              retry_loop fetch retry_delay (S attempt) remaining' in
            (r, fmul retry_delay f0_5 :: pauses)
      | Raise _ =>
          let '(r, pauses) :=
            retry_loop fetch retry_delay (S attempt) remaining' in
          (r, retry_delay :: pauses)
      end
  end.

Definition get_manager_squad_safe (net : network) (task : nat)
    (manager_id : Z) (retry_delay : spec_float) (max_retries : Z)
    : pyval * list spec_float :=
  retry_loop (fun attempt => get_manager_squad (net task manager_id attempt))
    retry_delay 0 (Z.to_nat max_retries).

(** The schedule of pauses as the specification words it, for three
    attempts: half the delay before the first retry, the full delay
    before the next. *)
Definition escalating_pauses (retry_delay : spec_float) : list spec_float :=
  [fmul retry_delay f0_5; retry_delay].

(** A remote side on which member 7 always fails in transport and every
    other member answers with a one-pick squad. *)
Definition net_7_down : network :=
  fun _ manager_id _ =>
    if manager_id =? 7 then HttpError else Http200 (squad_of [10]).

(** An attempt succeeds when it brings back a truthy body, and a task
    when one of its three attempts does. *)
Definition attempt_succeeds (out : http_outcome) : bool :=
  match get_manager_squad out with
  | Ok squad => truthy squad
  | Raise _ => false
  end.

Definition task_succeeds (net : network) (task : nat) (manager_id : Z)
    : bool :=
  existsb (fun attempt => attempt_succeeds (net task manager_id attempt))
    (seq 0 3).

(** ** Batch fetch *)

Record speed_config := {
  cfg_batch_size : Z;
  cfg_max_workers : Z;
  cfg_delay : spec_float;
  cfg_retry_delay : spec_float
}.

Definition speed_configs (speed_mode : string) : option speed_config :=
  if decide (speed_mode = "conservative") then
    Some {| cfg_batch_size := 200; cfg_max_workers := 3;
            cfg_delay := f1_0; cfg_retry_delay := f1_0 |}
  else if decide (speed_mode = "moderate") then
    Some {| cfg_batch_size := 500; cfg_max_workers := 8;
            cfg_delay := f0_5; cfg_retry_delay := f0_5 |}
  else if decide (speed_mode = "aggressive") then
    Some {| cfg_batch_size := 1000; cfg_max_workers := 15;
            cfg_delay := f0_1; cfg_retry_delay := f0_2 |}
  else if decide (speed_mode = "maximum") then
    Some {| cfg_batch_size := 2000; cfg_max_workers := 25;
            cfg_delay := f0_0; cfg_retry_delay := f0_1 |}
  else None.

(** The settings in force: a named mode overrides the arguments. *)
Definition settings (batch_size max_workers : Z) (speed_mode : string)
    : speed_config :=
  match speed_configs speed_mode with
  | Some config => config
  | None =>
      {| cfg_batch_size := batch_size; cfg_max_workers := max_workers;
         cfg_delay := f1_0; cfg_retry_delay := f1_0 |}
  end.

(** The settings let the batches run: a positive batch size and a
    positive worker count, as every named mode has. *)
Definition settings_ok (batch_size max_workers : Z) (speed_mode : string)
    : bool :=
  let config := settings batch_size max_workers speed_mode in
  (0 <? cfg_batch_size config) && (0 <? cfg_max_workers config).

(** [range(0, n, step)] for a non-zero step. *)
Definition range_starts (n : nat) (step : Z) : list nat :=
  if 0 <? step then
    (fun k => (k * Z.to_nat step)%nat)
      <$> seq 0 (Z.to_nat ((Z.of_nat n + step - 1) / step))
  else [].

(** The tasks of the batch that starts at [i]: the members of
    [manager_ids[i:i + batch_size]], each with its position. *)
Definition batch_tasks (manager_ids : list Z) (i : nat) (batch_size : Z)
    : list (nat * Z) :=
  imap (fun j manager_id => ((i + j)%nat, manager_id))
    (take (Z.to_nat batch_size) (drop i manager_ids)).

(** The [as_completed] loop over one batch.  [done] lists the tasks in
    the order their futures complete. *)
Definition collect_batch (net : network) (retry_delay : spec_float)
    (done : list (nat * Z)) (all_squads : dict) : dict :=
  fold_left
    (fun acc t =>
       let squad := (get_manager_squad_safe net t.1 t.2 retry_delay 3).1 in
       if truthy squad then dict_set (KInt t.2) squad acc else acc)
    done all_squads.

(** The loop over the batches.  [ThreadPoolExecutor] refuses a worker
    count that is not positive. *)
Fixpoint run_batches (net : network)
    (completion : list (nat * Z) -> list (nat * Z)) (config : speed_config)
    (manager_ids : list Z) (starts : list nat) (all_squads : dict)
    : result dict :=
  match starts with
  | [] => Ok all_squads
  | i :: starts' =>
      if cfg_max_workers config <=? 0 then Raise ValueError
      else
        run_batches net completion config manager_ids starts'
          (collect_batch net (cfg_retry_delay config)
             (completion (batch_tasks manager_ids i (cfg_batch_size config)))
             all_squads)
  end.

(** [fetch_manager_squads_batch].  [completion] is the order in which
    the futures of a batch complete.  The attribute is assigned before
    the closing report, whose percentage divides by the number of
    requested ids. *)
Definition fetch_manager_squads_batch (self : analyzer) (net : network)
    (completion : list (nat * Z) -> list (nat * Z)) (manager_ids : list Z)
    (batch_size max_workers : Z) (speed_mode : string)
    : analyzer * result dict :=
  let config := settings batch_size max_workers speed_mode in
  if cfg_batch_size config =? 0 then (self, Raise ZeroDivisionError)
  else
    match run_batches net completion config manager_ids
            (range_starts (length manager_ids) (cfg_batch_size config)) []
    with
    | Raise e => (self, Raise e)
    | Ok all_squads =>
        let self' := set_manager_squads (PDict all_squads) self in
        if bool_decide (length manager_ids = 0%nat)
        then (self', Raise ZeroDivisionError)
        else (self', Ok all_squads)
    end.

(** ** Coverage reconciliation and the fetch phase of
       [interactive_analysis] *)

(** [cached_count >= total_count * 0.95]. *)
Definition coverage_ok (cached_count total_count : nat) : bool :=
  int_ge_float (Z.of_nat cached_count)
    (fmul (float_of_int (Z.of_nat total_count)) f0_95).

Record fetch_plan := {
  skip_fetch : bool;
  plan_ids : list Z;
  missing_defined : bool
}.

(** [set(self.manager_squads.keys())]. *)
Definition py_keys (v : pyval) : result (list key) :=
  match v with
  | PDict d => Ok (dict_keys d)
  | _ => Raise AttributeError
  end.

(** The block "Determine if we need to fetch squads": the flag, the ids
    left in [manager_ids], and whether [missing_manager_ids] was bound.
    [extend_cache] is the operator's answer to "Fetch missing
    managers?".  The report of the first branch divides by
    [total_count]. *)
Definition coverage_reconciliation (squads : pyval) (manager_ids : list Z)
    (extend_cache : string) : result fetch_plan :=
  if truthy squads then
    cached_count ← py_len squads;
    let total_count := length manager_ids in
    if coverage_ok cached_count total_count then
      if bool_decide (total_count = 0%nat) then Raise ZeroDivisionError
      else Ok {| skip_fetch := true; plan_ids := manager_ids;
                 missing_defined := false |}
    else if bool_decide (lower extend_cache = "n") then
      Ok {| skip_fetch := true; plan_ids := manager_ids;
            missing_defined := false |}
    else
      cached_manager_ids ← py_keys squads;
      Ok {| skip_fetch := false;
            plan_ids :=
              filter (fun mid => KInt mid ∉ cached_manager_ids) manager_ids;
            missing_defined := true |}
  else
    Ok {| skip_fetch := false; plan_ids := manager_ids;
          missing_defined := false |}.

(** The reconciliation as the specification words it, on lists without
    repetition: the coverage is the share of the required ids that are
    cached, the fetch is skipped from 95% on, and the ids to fetch are
    otherwise the required ids that are not cached. *)
Definition spec_reconcile (cached_ids required_ids : list Z)
    : bool * list Z :=
  let covered := filter (fun mid => mid ∈ cached_ids) required_ids in
  if 19 * Z.of_nat (length required_ids) <=? 20 * Z.of_nat (length covered)
  then (true, [])
  else (false, filter (fun mid => mid ∉ cached_ids) required_ids).

(** The ids handed to the fetch: none when the fetch is skipped. *)
Definition ids_to_fetch (plan : fetch_plan) : list Z :=
  if skip_fetch plan then [] else plan_ids plan.

(** The outcome of the speed menu: one of the four named modes, or
    custom values. *)
Inductive speed_choice :=
| Preset (speed_mode : string)
| Custom (batch_size max_workers : Z).

Inductive phase_outcome :=
| Ready
| FetchFailed.

(** [self.manager_squads.update(new_squads)]. *)
Definition py_update (v : pyval) (new : dict) : result pyval :=
  match v with
  | PDict d => Ok (PDict (dict_update d new))
  | _ => Raise AttributeError
  end.

Section FetchPhase.

Variable isoformat : Z -> string.

(** The block "Fetch manager squads if needed" of
    [interactive_analysis]: fetch, give up when nothing came back,
    merge when a loaded cache was being extended, save. *)
Definition fetch_phase (self : analyzer) (fs : store) (now : Z)
    (net : network) (completion : list (nat * Z) -> list (nat * Z))
    (cache_loaded : bool) (plan : fetch_plan) (choice : speed_choice)
    (league_id : Z) (current_gw : option Z)
    : result (analyzer * store * phase_outcome) :=
  if skip_fetch plan then Ok (self, fs, Ready)
  else
    let '(self1, fetched) :=
      match choice with
      | Custom batch_size max_workers =>
          fetch_manager_squads_batch self net completion (plan_ids plan)
            batch_size max_workers "conservative"
      | Preset speed_mode =>
          fetch_manager_squads_batch self net completion (plan_ids plan)
            200 5 speed_mode
      end in
    new_squads ← fetched;
    if negb (truthy (PDict new_squads)) then Ok (self1, fs, FetchFailed)
    else
      self2 ←
        (if cache_loaded && missing_defined plan then
           merged ← py_update (manager_squads self1) new_squads;
           Ok (set_manager_squads merged self1)
         else Ok self1);
      Ok (self2,
          (save_manager_squads_cache isoformat self2 fs now league_id
             current_gw).1,
          Ready).

(** What [load_league] of the web application answers: success with the
    number of squads held, or an error status. *)
Inductive load_reply :=
| LoadSuccess (manager_count : nat) (from_cache : bool)
| LoadError (status : Z).

(** The last part of [load_league] ("Get manager IDs and fetch squads"),
    reached when no cache was loaded: fetch with the default arguments,
    save, answer success; any exception becomes a 500. *)
Definition load_league_fresh (self : analyzer) (fs : store) (now : Z)
    (net : network) (completion : list (nat * Z) -> list (nat * Z))
    (manager_ids : list Z) (league_id : Z) (current_gw : option Z)
    : analyzer * store * load_reply :=
  let '(self1, fetched) :=
    fetch_manager_squads_batch self net completion manager_ids 200 5
      "conservative" in
  match fetched with
  | Raise _ => (self1, fs, LoadError 500)
  | Ok _ =>
      let fs' :=
        (save_manager_squads_cache isoformat self1 fs now league_id
           current_gw).1 in
      match py_len (manager_squads self1) with
      | Ok manager_count => (self1, fs', LoadSuccess manager_count false)
      | Raise _ => (self1, fs', LoadError 500)
      end
  end.

End FetchPhase.

(** ** Combination query *)

(** [v == pid] for a Python [int] [pid], as in [analyze_combination],
    which converts the ids it looks for with [int()]. *)
Definition py_eq_int (pid : Z) (v : pyval) : bool :=
  match v with
  | PInt z => pid =? z
  | PBool b => pid =? (if b then 1 else 0)
  | _ => false
  end.

Fixpoint map_result {A B} (f : A -> result B) (l : list A)
    : result (list B) :=
  match l with
  | [] => Ok []
  | x :: l' =>
      y ← f x;
      ys ← map_result f l';
      Ok (y :: ys)
  end.

(** [[pick['element'] for pick in squad_data['picks']]]. *)
Definition squad_player_ids (squad_data : pyval) : result (list pyval) :=
  picks ← getitem squad_data "picks";
  picks_list ← py_iter picks;
  map_result (fun pick => getitem pick "element") picks_list.

(** [all(pid in squad_player_ids for pid in player_ids)] for Python
    ints. *)
Definition has_all (player_ids : list Z) (squad : list pyval) : bool :=
  forallb (fun pid => existsb (py_eq_int pid) squad) player_ids.

(** The scan of [analyze_combination], where the ids looked for are
    Python ints; [except (KeyError, TypeError): continue]. *)
Fixpoint scan_squads (player_ids : list Z) (items : dict)
    : result (list key) :=
  match items with
  | [] => Ok []
  | (manager_id, squad_data) :: rest =>
      match squad_player_ids squad_data with
      | Ok squad =>
          matching ← scan_squads player_ids rest;
          Ok (if has_all player_ids squad then manager_id :: matching
              else matching)
      | Raise KeyError => scan_squads player_ids rest
      | Raise TypeError => scan_squads player_ids rest
      | Raise e => Raise e
      end
  end.

(** Whether an entry ends up among the matches: its squad decodes and
    holds every player searched for. *)
Definition squad_matches (player_ids : list Z) (squad_data : pyval) : bool :=
  match squad_player_ids squad_data with
  | Ok squad => has_all player_ids squad
  | Raise _ => false
  end.












(** ** Sample data *)

(** Two analyzers for the examples: one squad cached, then two. *)
Definition entries_of (ids : list Z) : pyval :=
  league_doc ((fun i => PDict [(KStr "entry", PInt i)]) <$> ids).

Definition one_cached : analyzer :=
  set_league_data (entries_of [1])
    (set_manager_squads (PDict [(KInt 1, squad_of [10; 20])]) init).

Definition two_cached : analyzer :=
  set_league_data (entries_of [1; 2])
    (set_manager_squads
       (PDict [(KInt 1, squad_of [10; 20]); (KInt 2, squad_of [30])]) init).

(** A bare squads mapping next to metadata of the current shape, on a
    directory that holds nothing else. *)
Definition legacy_store : store :=
  <[get_cache_info_filename init 13907 (Some 3) :=
      JsonText (PDict [(KStr "cached_at", PStr (decimal_isoformat 0));
                       (KStr "total_managers_in_league", PInt 1)])]>
    (<[get_cache_filename init 13907 (Some 3) :=
         Pickled (PDict [(KInt 1, squad_of [10; 20])])]> ∅).










(** A remote side that answers every request with a one-pick squad. *)
Definition net_all_up : network :=
  fun _ _ _ => Http200 (squad_of [30]).

(** Nineteen cached squads for a league of twenty members. *)
Definition nineteen_squads : dict :=
  (fun i => (KInt (Z.of_nat i), squad_of [10])) <$> seq 1 19.

Definition twenty_ids : list Z := Z.of_nat <$> seq 1 20.

(** ** File names and removal of a record *)

(** Characters a printed integer is made of. *)
Definition numeric (a : ascii) : bool :=
  bool_decide (a = "-"%char)
  || ((48 <=? N_of_ascii a) && (N_of_ascii a <=? 57))%N.

Fixpoint all_numeric (s : string) : bool :=
  match s with
  | EmptyString => true
  | String a s' => numeric a && all_numeric s'
  end.

Definition starts_other (s : string) : bool :=
  match s with
  | EmptyString => true
  | String a _ => negb (numeric a)
  end.

(** The removal block of [delete_specific_cache] in [cache_manager.py],
    for the league and gameweek of the selected record.  [os.remove] is
    guarded by [os.path.exists]. *)
Definition delete_cache_files (self : analyzer) (fs : store) (league_id : Z)
    (gameweek : option Z) : store :=
  let cache_file := get_cache_filename self league_id gameweek in
  let info_file := get_cache_info_filename self league_id gameweek in
  let fs1 := if path_exists fs cache_file then delete cache_file fs else fs in
  if path_exists fs1 info_file then delete info_file fs1 else fs1.

(** An analyzer whose league document is not of the shape the metadata
    reads. *)
Definition odd_league : analyzer :=
  set_league_data (PDict [(KStr "name", PStr "Friends")]) two_cached.

(** ** League standings *)

(** [v.get(k, default)]. *)
Definition py_get (v : pyval) (k : string) (dflt : pyval) : result pyval :=
  match v with
  | PDict d => Ok (default dflt (dict_get (KStr k) d))
  | _ => Raise AttributeError
  end.

(** What one turn of the loop of [get_league_data] reads from the body
    of a 200 response: [None] when [results] is empty or missing, else
    the rows [extend] adds and the [has_next] field. *)
Definition read_page (data : pyval) : result (option (list pyval * pyval)) :=
  standings ← py_get data "standings" (PDict []);
  results ← py_get standings "results" (PList []);
  if truthy results then
    rows ← py_iter results;
    has_next ← py_get standings "has_next" (PBool false);
    Ok (Some (rows, has_next))
  else Ok None.

(** The [while has_next] loop of [get_league_data], from [page] on with
    [all_managers] collected so far.  [pages] is the standings endpoint:
    the outcome of the request for each page.  The loop goes on for as
    long as the remote announces a next page, so the embedding counts
    the requests it may make: [None] is "more than [fuel] pages".  An
    exception (the transport, [.get] on something that is not a dict,
    [extend] with something that cannot be iterated) reaches the
    handler of the function, which returns [None]. *)
Fixpoint league_pages (pages : nat -> http_outcome) (fuel page : nat)
    (all_managers : list pyval) : option pyval :=
  match fuel with
  | O => None
  | S fuel' =>
      match pages page with
      | Http200 data =>
          match read_page data with
          | Ok (Some (rows, has_next)) =>
              if truthy has_next
              then league_pages pages fuel' (S page) (all_managers ++ rows)
              else Some (league_doc (all_managers ++ rows))
          | Ok None => Some (league_doc all_managers)
          | Raise _ => Some PNone
          end
      | HttpStatus _ =>
          if decide (page = 1%nat) then Some PNone
          else Some (league_doc all_managers)
      | HttpError => Some PNone
      end
  end.

Definition get_league_data (pages : nat -> http_outcome) (fuel : nat)
    : option pyval :=
  league_pages pages fuel 1 [].

Definition set_current_league_id (v : option Z) (self : analyzer)
    : analyzer :=
  {| bootstrap_data := bootstrap_data self;
     league_data := league_data self;
     manager_squads := manager_squads self;
     current_league_id := v |}.

(** [get_league_info]: the attribute [league_data] is assigned before it
    is tested. *)
Definition get_league_info (self : analyzer) (pages : nat -> http_outcome)
    (fuel : nat) (league_id : Z) : option (analyzer * bool) :=
  data ← get_league_data pages fuel;
  let self1 := set_league_data data self in
  if negb (truthy data) then Some (self1, false)
  else
    match
      standings ← getitem data "standings";
      results ← getitem standings "results";
      py_len results
    with
    | Ok _ => Some (set_current_league_id (Some league_id) self1, true)
    | Raise _ => Some (self1, false)
    end.

(** [[entry['entry'] for entry in league_data['standings']['results']]]. *)
Definition manager_ids_of (league_data : pyval) : result (list pyval) :=
  standings ← getitem league_data "standings";
  results ← getitem standings "results";
  entries ← py_iter results;
  map_result (fun entry => getitem entry "entry") entries.

(** The league document [interactive_analysis] rebuilds from a loaded
    cache: one entry per key of [manager_squads]. *)
Definition league_from_cache (squads : pyval) : result pyval :=
  keys ← py_keys squads;
  Ok (league_doc ((fun k => PDict [(KStr "entry", key_val k)]) <$> keys)).

(** [current_gw] of [interactive_analysis] and [load_league]: the
    current event of the bootstrap document, when there is one. *)
Definition current_gw_of (self : analyzer) : option Z :=
  match bootstrap_data self with
  | Some events => Some (current_event events)
  | None => None
  end.

(** The [try] block "Try to load league info from cache metadata" of
    [interactive_analysis], run on the cache directory as it is when
    the block looks at it: the league document rebuilt from the keys of
    the cached mapping, [None] when the metadata file is not there, an
    exception when it cannot be read or is not a JSON object. *)
Definition rebuild_league (self : analyzer) (fs : store) (league_id : Z)
    (current_gw : option Z) : result (option pyval) :=
  let cache_info_file := get_cache_info_filename self league_id current_gw in
  if path_exists fs cache_info_file then
    match json_load fs cache_info_file with
    | None => Raise ValueError
    | Some cache_info =>
        loaded ← py_len (manager_squads self);
        _ ← py_get cache_info "manager_count" (PInt (Z.of_nat loaded));
        doc ← league_from_cache (manager_squads self);
        Ok (Some doc)
    end
  else Ok None.

(** One turn of the league loop of [interactive_analysis], from the
    load of the cache on: the analyzer, whether the load succeeded, and
    whether the loop is left.  [fs] is the cache directory when the
    record is loaded and [fs_later] when the metadata file is looked
    at again, after the operator has answered "Use cached data?": the
    directory is shared with the cache manager and the web
    application.  [stale_answer] answers the staleness prompt of the
    load and [use_cache] the prompt that follows it. *)
Definition choose_league (fromisoformat : string -> option Z)
    (self : analyzer) (fs fs_later : store) (now league_id : Z)
    (stale_answer use_cache : string) (pages : nat -> http_outcome)
    (fuel : nat) : option (analyzer * bool * bool) :=
  let current_gw := current_gw_of self in
  let '(self1, cache_loaded) :=
    load_manager_squads_cache fromisoformat self fs now league_id current_gw
      false stale_answer in
  let fetch_info (a : analyzer) :=
    info ← get_league_info a pages fuel league_id;
    Some (info.1, cache_loaded, info.2) in
  if cache_loaded then
    if bool_decide (lower use_cache <> "n") then
      let self2 := set_current_league_id (Some league_id) self1 in
      match rebuild_league self2 fs_later league_id current_gw with
      | Ok (Some doc) => Some (set_league_data doc self2, cache_loaded, true)
      | Ok None => fetch_info self2
      | Raise _ => fetch_info self2
      end
    else fetch_info (set_manager_squads (PDict []) self1)
  else fetch_info self1.

(** A page carries [rows] and tells whether another page follows. *)
Definition page_carries (out : http_outcome) (rows : list pyval)
    (more : bool) : Prop :=
  exists data standings has_next,
    out = Http200 data
    /\ getitem data "standings" = Ok standings
    /\ getitem standings "results" = Ok (PList rows)
    /\ rows <> []
    /\ py_get standings "has_next" (PBool false) = Ok has_next
    /\ truthy has_next = more.

(** A standings page as the remote sends it. *)
Definition standings_page (ids : list Z) (has_next : bool) : pyval :=
  PDict [(KStr "league", PDict [(KStr "name", PStr "Friends")]);
         (KStr "standings",
          PDict [(KStr "has_next", PBool has_next);
                 (KStr "page", PInt 1);
                 (KStr "results",
                  PList ((fun i => PDict [(KStr "entry", PInt i)]) <$> ids))])].

(** A league of three pages; every later request fails in transport. *)
Definition three_pages (page : nat) : http_outcome :=
  match page with
  | 1%nat => Http200 (standings_page [1; 2] true)
  | 2%nat => Http200 (standings_page [3; 4] true)
  | 3%nat => Http200 (standings_page [5] false)
  | _ => HttpError
  end.

(** A league whose third page is refused. *)
Definition third_page_refused (page : nat) : http_outcome :=
  match page with
  | 1%nat => Http200 (standings_page [1; 2] true)
  | 2%nat => Http200 (standings_page [3; 4] true)
  | _ => HttpStatus 503
  end.

(** An analyzer after [initialize_data], in gameweek 3, and a league
    of two members on one page. *)
Definition started : analyzer :=
  {| bootstrap_data := Some [{| ev_id := 3; is_current := true |}];
     league_data := PNone;
     manager_squads := PDict [];
     current_league_id := None |}.

Definition two_members (page : nat) : http_outcome :=
  Http200 (standings_page [1; 2] false).

(** A remote side on which member 7 answers at the third attempt. *)
Definition net_7_slow : network :=
  fun _ manager_id attempt =>
    if (manager_id =? 7) && (attempt <? 2)%nat then HttpStatus 429
    else Http200 (squad_of [10]).

(** ** Search loop of [interactive_analysis] *)



(** A record whose metadata has no ['total_managers_in_league']
    entry. *)
Definition short_metadata_store : store :=
  <[get_cache_info_filename init 13907 (Some 3) :=
      JsonText (PDict [(KStr "cached_at", PStr (decimal_isoformat 0))])]>
    (<[get_cache_filename init 13907 (Some 3) :=
         Pickled (PDict [(KInt 1, squad_of [10; 20])])]> ∅).

(** ** In-memory standings cache of the web application *)

(** The two module-level dicts of [webapp/app.py], keyed by
    ["{league_id}_{gameweek}"]; a timestamp is a count of
    microseconds. *)
Record web_cache := {
  league_standings_cache : list (string * pyval);
  cache_timestamps : list (string * Z)
}.

Definition CACHE_EXPIRY_MINUTES : Z := 1440.
Definition MAX_CACHED_LEAGUES : nat := 5.

(** [d[k] = v], [d.get(k)] and [d.pop(k, None)] on a dict with string
    keys. *)
Fixpoint entry_set {A} (k : string) (v : A) (d : list (string * A))
    : list (string * A) :=
  match d with
  | [] => [(k, v)]
  | (k', v') :: d' =>
      if decide (k = k') then (k, v) :: d' else (k', v') :: entry_set k v d'
  end.

Fixpoint entry_get {A} (k : string) (d : list (string * A)) : option A :=
  match d with
  | [] => None
  | (k', v) :: d' => if decide (k = k') then Some v else entry_get k d'
  end.

Definition entry_pop {A} (k : string) (d : list (string * A))
    : list (string * A) :=
  filter (fun kv => kv.1 <> k) d.

(** [timedelta.total_seconds()] of an interval of [us] microseconds:
    the quotient [us / 10**6], rounded once.  Both operands are exact
    doubles for an interval below [2**53] microseconds (285 years). *)
Definition total_seconds (us : Z) : spec_float :=
  fdiv (float_of_int us) (float_of_int 1000000).

(** [x > n] and [x <= n] for a [float] and an [int]. *)
Definition float_gt_int (x : spec_float) (n : Z) : bool :=
  match x with
  | S754_nan => false
  | _ => negb (int_ge_float n x)
  end.

Definition float_le_int (x : spec_float) (n : Z) : bool :=
  match x with
  | S754_nan => false
  | _ => int_ge_float n x
  end.

(** [(current_time - timestamp).total_seconds()
     > CACHE_EXPIRY_MINUTES * 60]. *)
Definition expired (current_time timestamp : Z) : bool :=
  float_gt_int (total_seconds (current_time - timestamp))
    (CACHE_EXPIRY_MINUTES * 60).

(** The two [pop] calls of the removal loops. *)
Definition pop_entry (key : string) (c : web_cache) : web_cache :=
  {| league_standings_cache := entry_pop key (league_standings_cache c);
     cache_timestamps := entry_pop key (cache_timestamps c) |}.

(** [sorted(cache_timestamps.items(), key=lambda x: x[1], reverse=True)]:
    newest first, entries of equal time in their original order. *)
Fixpoint insert_newest_first (x : string * Z) (l : list (string * Z))
    : list (string * Z) :=
  match l with
  | [] => [x]
  | y :: l' =>
      if x.2 <? y.2 then y :: insert_newest_first x l' else x :: y :: l'
  end.

Definition sorted_newest_first (items : list (string * Z))
    : list (string * Z) :=
  foldr insert_newest_first [] items.

(** [cleanup_expired_cache].  The second loop runs over a set; the pops
    it makes do not depend on the order. *)
Definition cleanup_expired_cache (current_time : Z) (c : web_cache)
    : web_cache :=
  let expired_keys :=
    (filter (fun kt => expired current_time kt.2 = true)
       (cache_timestamps c)).*1 in
  let c1 := foldl (fun acc key => pop_entry key acc) c expired_keys in
  if (MAX_CACHED_LEAGUES <? length (league_standings_cache c1))%nat then
    let sorted_items := sorted_newest_first (cache_timestamps c1) in
    let keys_to_keep := (take MAX_CACHED_LEAGUES sorted_items).*1 in
    let keys_to_remove :=
      filter (fun key => key ∉ keys_to_keep) (league_standings_cache c1).*1 in
    foldl (fun acc key => pop_entry key acc) c1 keys_to_remove
  else c1.

(** [is_cache_valid]. *)
Definition is_cache_valid (current_time : Z) (c : web_cache)
    (cache_key : string) : bool :=
  match entry_get cache_key (cache_timestamps c) with
  | None => false
  | Some cache_time =>
      float_le_int (total_seconds (current_time - cache_time))
        (CACHE_EXPIRY_MINUTES * 60)
  end.

(** The two assignments that follow every load of league standings:
    [league_standings_cache[cache_key] = league_standings] and
    [cache_timestamps[cache_key] = datetime.now()]. *)
Definition remember_standings (current_time : Z) (cache_key : string)
    (league_standings : pyval) (c : web_cache) : web_cache :=
  {| league_standings_cache :=
       entry_set cache_key league_standings (league_standings_cache c);
     cache_timestamps :=
       entry_set cache_key current_time (cache_timestamps c) |}.

Definition empty_web_cache : web_cache :=
  {| league_standings_cache := []; cache_timestamps := [] |}.

(** The two dicts hold the same keys in the same order. *)
Definition same_keys (c : web_cache) : Prop :=
  (league_standings_cache c).*1 = (cache_timestamps c).*1
  /\ NoDup (cache_timestamps c).*1.

(** Seven leagues loaded an hour apart, from the first hour on. *)
Definition seven_leagues : web_cache :=
  {| league_standings_cache :=
       (fun i => (pretty i +:+ "_3", PList [])) <$> [1; 2; 3; 4; 5; 6; 7];
     cache_timestamps :=
       (fun i => (pretty i +:+ "_3", i * one_hour))
         <$> [1; 2; 3; 4; 5; 6; 7] |}.

(** ** Loading a league from the cache in the web application *)







(** * Properties *)

(** ** Dictionaries *)

Lemma dict_get_None (k : key) (d : dict) :
  dict_get k d = None <-> k ∉ dict_keys d.
Proof.
  induction d as [|[k' v] d IH]; simpl.
  - split; [intros _; apply not_elem_of_nil | done].
  - rewrite not_elem_of_cons. destruct (decide (k = k')); naive_solver.
Qed.

Lemma dict_keys_set (k k' : key) (v : pyval) (d : dict) :
  k ∈ dict_keys (dict_set k' v d) <-> k = k' \/ k ∈ dict_keys d.
Proof.
  induction d as [|[k0 v0] d IH]; simpl.
  - rewrite list_elem_of_singleton. split; [auto | intros [|H]; [done|]].
    by apply not_elem_of_nil in H.
  - destruct (decide (k' = k0)) as [->|]; simpl; rewrite !elem_of_cons.
    + naive_solver.
    + rewrite IH. naive_solver.
Qed.

Lemma dict_get_set (k k' : key) (v : pyval) (d : dict) :
  dict_get k (dict_set k' v d) = if decide (k = k') then Some v else dict_get k d.
Proof.
  induction d as [|[k0 v0] d IH]; simpl.
  - by destruct (decide (k = k')).
  - destruct (decide (k' = k0)) as [->|]; simpl;
      repeat (case_decide; simplify_eq; try done).
Qed.

(** ** Cache store *)

Lemma cache_files_differ (self : analyzer) (league_id : Z)
    (gameweek : option Z) :
  get_cache_filename self league_id gameweek
  <> get_cache_info_filename self league_id gameweek.
Proof.
  unfold get_cache_filename, get_cache_info_filename. intros H.
  repeat apply (inj (String.append _)) in H. discriminate H.
Qed.

Lemma decimal_roundtrip (t : Z) :
  decimal_fromisoformat (decimal_isoformat t) = Some t.
Proof.
  unfold decimal_fromisoformat, decimal_isoformat.
  rewrite NilZero.isi; simpl.
  - by rewrite DecimalZ.of_to.
  - destruct t; simpl; try done.
    intros [= H]. by apply DecimalPos.Unsigned.to_uint_nonnil in H.
  - destruct t; simpl; try done.
    intros [= H]. by apply DecimalPos.Unsigned.to_uint_nonnil in H.
Qed.

Lemma path_exists_Some (fs : store) (path : string) (f : file) :
  fs !! path = Some f -> path_exists fs path = true.
Proof. intros H. unfold path_exists. rewrite H. by apply bool_decide_eq_true_2. Qed.

Section CacheStoreProperties.

Variable isoformat : Z -> string.
Variable fromisoformat : string -> option Z.
Hypothesis fromisoformat_isoformat :
  forall t, fromisoformat (isoformat t) = Some t.

(** A load that finds both files decodable and is not turned down at
    the prompt adopts the payload. *)
Lemma load_from_files (self : analyzer) (fs : store) (now league_id : Z)
    (gameweek : option Z) (skip_prompt : bool) (answer : string)
    (payload cache_info : pyval) (t : Z) :
  fs !! get_cache_filename self league_id gameweek = Some (Pickled payload) ->
  fs !! get_cache_info_filename self league_id gameweek
    = Some (JsonText cache_info) ->
  cached_time fromisoformat cache_info = Ok t ->
  rejected_as_stale now t skip_prompt answer = false ->
  load_manager_squads_cache fromisoformat self fs now league_id gameweek
    skip_prompt answer
  = (adopt_cached_data self payload,
     match py_len (manager_squads (adopt_cached_data self payload)),
           getitem cache_info "total_managers_in_league" with
     | Ok _, Ok _ => true
     | _, _ => false
     end).
Proof.
  intros Hc Hi Ht Hs. unfold load_manager_squads_cache.
  rewrite (path_exists_Some _ _ _ Hc), (path_exists_Some _ _ _ Hi). simpl.
  unfold json_load, pickle_load. rewrite Hi, Hc, Ht.
  rewrite Hs.
  destruct (py_len (manager_squads (adopt_cached_data self payload)));
    [|done].
  by destruct (getitem cache_info "total_managers_in_league").
Qed.

(** The store after the four writes of a save that built its
    metadata. *)
Lemma saved_files (self : analyzer) (fs : store) (now league_id : Z)
    (gameweek : option Z) (cache_info : pyval) :
  cache_info_doc isoformat self now league_id gameweek = Ok cache_info ->
  let saved :=
    save_manager_squads_cache isoformat self fs now league_id gameweek in
  saved.2 = true
  /\ saved.1 !! get_cache_filename self league_id gameweek
     = Some (Pickled (cache_data_doc self))
  /\ saved.1 !! get_cache_info_filename self league_id gameweek
     = Some (JsonText cache_info).
Proof.
  intros Hinfo. unfold save_manager_squads_cache, save_writes.
  rewrite Hinfo. simpl. split; [done|].
  pose proof (cache_files_differ self league_id gameweek) as Hne.
  split.
  - rewrite !lookup_insert_ne by done. by rewrite lookup_insert_eq.
  - by rewrite lookup_insert_eq.
Qed.

(** C4. Saving the squads mapping and the league document of an
    analyzer (the document of [get_league_data], or none) under a
    league and a gameweek, and then loading that league and gameweek
    with [skip_prompt=True], succeeds and leaves the reader with
    exactly the saved mapping (and the saved league document),
    whatever the reader held before, whenever the load happens and
    whatever else the directory contains. *)
Theorem save_load_roundtrip (self reader : analyzer) (fs : store)
    (now later league_id gameweek : Z) (squads : dict)
    (snapshot : option (list pyval)) (answer : string) :
  manager_squads self = PDict squads ->
  league_data self = from_option league_doc PNone snapshot ->
  let saved :=
    save_manager_squads_cache isoformat self fs now league_id
      (Some gameweek) in
  saved.2 = true
  /\ load_manager_squads_cache fromisoformat reader saved.1 later league_id
       (Some gameweek) true answer
     = (set_league_data (league_data self)
          (set_manager_squads (PDict squads) reader), true).
Proof.
  intros Hsq Hld.
  assert (exists total,
    cache_info_doc isoformat self now league_id (Some gameweek)
    = Ok (PDict [(KStr "league_id", PInt league_id);
                 (KStr "gameweek", PInt gameweek);
                 (KStr "manager_count", PInt (Z.of_nat (length squads)));
                 (KStr "cached_at", PStr (isoformat now));
                 (KStr "total_managers_in_league", PInt (Z.of_nat total))]))
    as [total Hinfo].
  { unfold cache_info_doc, total_managers_in_league. rewrite Hsq, Hld.
    destruct snapshot as [results|]; simpl; eauto. }
  destruct (saved_files self fs now league_id (Some gameweek) _ Hinfo)
    as (Hok & Hc & Hi).
  intros saved. split; [exact Hok|].
  erewrite load_from_files; [| exact Hc | exact Hi | | ].
  - unfold cache_data_doc. rewrite Hsq. reflexivity.
  - unfold cached_time. simpl. by rewrite fromisoformat_isoformat.
  - unfold rejected_as_stale. simpl. by rewrite andb_false_r.
Qed.

(** C9. A record whose payload has no league document (the bare
    squads mapping of the old format, or a keyed document without a
    ['league_data'] entry) and whose metadata carry the time stamp and
    the league total loads successfully unless the operator turns a
    stale record down at the prompt: the squads mapping is the stored
    one, in full, and the league document is [None]. *)
Theorem load_legacy_record (reader : analyzer) (fs : store)
    (now league_id : Z) (gameweek : option Z) (skip_prompt : bool)
    (answer : string) (squads : dict) (payload cache_info total : pyval)
    (t : Z) :
  lacks_snapshot squads payload ->
  fs !! get_cache_filename reader league_id gameweek
    = Some (Pickled payload) ->
  fs !! get_cache_info_filename reader league_id gameweek
    = Some (JsonText cache_info) ->
  getitem cache_info "cached_at" = Ok (PStr (isoformat t)) ->
  getitem cache_info "total_managers_in_league" = Ok total ->
  rejected_as_stale now t skip_prompt answer = false ->
  load_manager_squads_cache fromisoformat reader fs now league_id gameweek
    skip_prompt answer
  = (set_league_data PNone (set_manager_squads (PDict squads) reader), true).
Proof.
  intros Hlegacy Hc Hi Hat Htotal Hs.
  erewrite load_from_files; [| exact Hc | exact Hi | | exact Hs].
  - rewrite Htotal. destruct Hlegacy as [Hkeys | d Hsq Hld]; simpl.
    + assert (dict_get (KStr "manager_squads") squads = None) as ->; [|done].
      apply dict_get_None. intros Hin.
      by destruct (Hkeys _ Hin) as [z Hz].
    + by rewrite Hsq, Hld.
  - unfold cached_time. rewrite Hat. simpl.
    by rewrite fromisoformat_isoformat.
Qed.


End CacheStoreProperties.

Lemma save_load_roundtrip_witness :
  let saved :=
    save_manager_squads_cache decimal_isoformat two_cached ∅ 0 13907
      (Some 3) in
  saved.2 = true
  /\ load_manager_squads_cache decimal_fromisoformat init saved.1 7200000001
       13907 (Some 3) true "n"
     = (set_league_data (league_data two_cached)
          (set_manager_squads (manager_squads two_cached) init), true).
Proof.
  exact (save_load_roundtrip decimal_isoformat decimal_fromisoformat
           decimal_roundtrip two_cached init ∅ 0 7200000001 13907 3
           [(KInt 1, squad_of [10; 20]); (KInt 2, squad_of [30])]
           (Some ((fun i => PDict [(KStr "entry", PInt i)]) <$> [1; 2]))
           "n" eq_refl eq_refl).
Defined.

Lemma load_legacy_record_witness :
  load_manager_squads_cache decimal_fromisoformat init legacy_store 5 13907
    (Some 3) false "n"
  = (set_league_data PNone
       (set_manager_squads (PDict [(KInt 1, squad_of [10; 20])]) init), true).
Proof.
  apply (load_legacy_record decimal_isoformat decimal_fromisoformat
           decimal_roundtrip init legacy_store 5 13907 (Some 3) false "n"
           [(KInt 1, squad_of [10; 20])] (PDict [(KInt 1, squad_of [10; 20])])
           (PDict [(KStr "cached_at", PStr (decimal_isoformat 0));
                   (KStr "total_managers_in_league", PInt 1)])
           (PInt 1) 0).
  - apply lacks_bare. intros k Hk. exists 1.
    apply list_elem_of_singleton in Hk. exact Hk.
  - vm_compute. reflexivity.
  - vm_compute. reflexivity.
  - reflexivity.
  - reflexivity.
  - reflexivity.
Defined.


(** ** Per-member fetch *)

Lemma get_manager_squad_never_raises (out : http_outcome) :
  exists squad, get_manager_squad out = Ok squad.
Proof. destruct out; simpl; eauto. Qed.

(** A fetch that fails at every attempt is tried [remaining] times and
    pauses half the retry delay after each. *)
Lemma retry_loop_exhausted (net : network) (task : nat) (manager_id : Z)
    (retry_delay : spec_float) (remaining attempt : nat) :
  (forall a, attempt_succeeds (net task manager_id a) = false) ->
  retry_loop (fun a => get_manager_squad (net task manager_id a)) retry_delay
    attempt remaining
  = (PNone, replicate remaining (fmul retry_delay f0_5)).
Proof.
  intros Hfail. revert attempt.
  induction remaining as [|remaining IH]; intros attempt; simpl; [done|].
  specialize (Hfail attempt). unfold attempt_succeeds in Hfail.
  destruct (get_manager_squad_never_raises (net task manager_id attempt))
    as [squad Hsquad].
  rewrite Hsquad in Hfail |- *. rewrite Hfail. by rewrite IH.
Qed.

Lemma retry_loop_truthy (net : network) (task : nat) (manager_id : Z)
    (retry_delay : spec_float) (remaining attempt : nat) :
  truthy (retry_loop (fun a => get_manager_squad (net task manager_id a))
            retry_delay attempt remaining).1
  = existsb (fun a => attempt_succeeds (net task manager_id a))
      (seq attempt remaining).
Proof.
  revert attempt.
  induction remaining as [|remaining IH]; intros attempt; simpl; [done|].
  unfold attempt_succeeds at 1.
  destruct (get_manager_squad_never_raises (net task manager_id attempt))
    as [squad Hsquad].
  rewrite Hsquad. destruct (truthy squad) eqn:Hsq; simpl; [done|].
  rewrite <- IH.
  by destruct (retry_loop _ retry_delay (S attempt) remaining).
Qed.

Lemma safe_truthy (net : network) (task : nat) (manager_id : Z)
    (retry_delay : spec_float) :
  truthy (get_manager_squad_safe net task manager_id retry_delay 3).1
  = task_succeeds net task manager_id.
Proof. apply retry_loop_truthy. Qed.

(** ** Batch fetch *)

Lemma elem_of_batch_tasks (manager_ids : list Z) (i : nat) (batch_size : Z)
    (p : nat) (m : Z) :
  (p, m) ∈ batch_tasks manager_ids i batch_size
  <-> manager_ids !! p = Some m /\ (i <= p < i + Z.to_nat batch_size)%nat.
Proof.
  unfold batch_tasks. rewrite elem_of_lookup_imap. split.
  - intros (j & x & [= -> ->] & Hj).
    apply lookup_take_Some in Hj as [Hj Hlt]. rewrite lookup_drop in Hj.
    split; [done | lia].
  - intros [Hp [Hle Hlt]]. exists (p - i)%nat, m. split.
    + f_equal. lia.
    + apply lookup_take_Some. split; [|lia].
      rewrite lookup_drop. by replace (i + (p - i))%nat with p by lia.
Qed.

Lemma collect_batch_keys (net : network) (retry_delay : spec_float)
    (done : list (nat * Z)) (all_squads : dict) (k : key) :
  k ∈ dict_keys (collect_batch net retry_delay done all_squads)
  <-> k ∈ dict_keys all_squads
      \/ exists p m, (p, m) ∈ done /\ k = KInt m
                     /\ task_succeeds net p m = true.
Proof.
  unfold collect_batch. revert all_squads.
  induction done as [|[p m] done IH]; intros all_squads; simpl.
  - split; [auto | intros [H | (p & m & H & _)]; [done|]].
    by apply not_elem_of_nil in H.
  - rewrite IH. rewrite safe_truthy.
    destruct (task_succeeds net p m) eqn:Hs.
    + rewrite dict_keys_set. split.
      * intros [[-> | H] | (p' & m' & Hin & Hk & Hs')].
        -- right. exists p, m. split; [left | done].
        -- by left.
        -- right. exists p', m'. split; [by right | done].
      * intros [H | (p' & m' & Hin & Hk & Hs')]; [left; by right|].
        apply elem_of_cons in Hin as [[= -> ->] | Hin].
        -- left; by left.
        -- right. by exists p', m'.
    + split.
      * intros [H | (p' & m' & Hin & Hk & Hs')]; [by left|].
        right. exists p', m'. split; [by right | done].
      * intros [H | (p' & m' & Hin & Hk & Hs')]; [by left|].
        apply elem_of_cons in Hin as [[= -> ->] | Hin]; [congruence|].
        right. by exists p', m'.
Qed.

Lemma run_batches_keys (net : network)
    (completion : list (nat * Z) -> list (nat * Z)) (config : speed_config)
    (manager_ids : list Z) (starts : list nat) (all_squads : dict) :
  (forall l, completion l ≡ₚ l) ->
  0 < cfg_max_workers config ->
  exists result,
    run_batches net completion config manager_ids starts all_squads
    = Ok result
    /\ forall k,
         k ∈ dict_keys result
         <-> k ∈ dict_keys all_squads
             \/ exists i p m,
                  i ∈ starts
                  /\ (p, m) ∈ batch_tasks manager_ids i (cfg_batch_size config)
                  /\ k = KInt m /\ task_succeeds net p m = true.
Proof.
  intros Hperm Hworkers. revert all_squads.
  induction starts as [|i starts IH]; intros all_squads; simpl.
  - eexists; split; [done|]. intros k. split; [auto|].
    intros [H | (i & p & m & Hi & _)]; [done|]. by apply not_elem_of_nil in Hi.
  - replace (cfg_max_workers config <=? 0) with false by (symmetry; lia).
    destruct (IH (collect_batch net (cfg_retry_delay config)
                    (completion (batch_tasks manager_ids i
                                   (cfg_batch_size config))) all_squads))
      as (result & Hrun & Hkeys).
    exists result. split; [done|]. intros k. rewrite Hkeys, collect_batch_keys.
    split.
    + intros [[H | (p & m & Hin & Hk & Hs)] | (i' & p & m & Hi & Hin & Hk & Hs)].
      * by left.
      * right. exists i, p, m. rewrite Hperm in Hin. split; [left | done].
      * right. exists i', p, m. split; [by right | done].
    + intros [H | (i' & p & m & Hi & Hin & Hk & Hs)]; [left; by left|].
      apply elem_of_cons in Hi as [-> | Hi].
      * left; right. exists p, m. by rewrite Hperm.
      * right. by exists i', p, m.
Qed.

Lemma range_starts_covers (n : nat) (step : Z) (p : nat) :
  0 < step -> (p < n)%nat ->
  exists i, i ∈ range_starts n step /\ (i <= p < i + Z.to_nat step)%nat.
Proof.
  intros Hstep Hp. unfold range_starts.
  replace (0 <? step) with true by (symmetry; lia).
  set (s := Z.to_nat step). assert (0 < s)%nat as Hs by lia.
  exists ((p / s) * s)%nat. split.
  - apply list_elem_of_fmap. exists (p / s)%nat. split; [done|].
    apply elem_of_seq. split; [lia|]. simpl.
    assert (Z.of_nat (p / s) < (Z.of_nat n + step - 1) / step); [|lia].
    rewrite Nat2Z.inj_div. subst s. rewrite Z2Nat.id by lia.
    apply Z.div_lt_upper_bound; [lia|].
    pose proof (Z.mul_succ_div_gt (Z.of_nat n + step - 1) step Hstep).
    pose proof (Z.mul_div_le (Z.of_nat p) step Hstep).
    nia.
  - pose proof (Nat.div_mod_eq p s). pose proof (Nat.mod_upper_bound p s).
    lia.
Qed.

Lemma range_starts_empty (step : Z) : range_starts 0 step = [].
Proof.
  unfold range_starts. destruct (0 <? step) eqn:Hstep; [|done].
  rewrite Z.div_small by lia. done.
Qed.

(** With settings that let the batches run, a fetch of a non-empty list
    returns, and the members in the result are exactly those one of
    whose tasks succeeded. *)
Lemma fetch_returns (self : analyzer) (net : network)
    (completion : list (nat * Z) -> list (nat * Z)) (manager_ids : list Z)
    (batch_size max_workers : Z) (speed_mode : string) :
  (forall l, completion l ≡ₚ l) ->
  manager_ids <> [] ->
  settings_ok batch_size max_workers speed_mode = true ->
  exists all_squads,
    fetch_manager_squads_batch self net completion manager_ids batch_size
      max_workers speed_mode
    = (set_manager_squads (PDict all_squads) self, Ok all_squads)
    /\ forall k,
         k ∈ dict_keys all_squads
         <-> exists p m, manager_ids !! p = Some m /\ k = KInt m
                         /\ task_succeeds net p m = true.
Proof.
  intros Hperm Hne Hok. unfold settings_ok in Hok.
  apply andb_true_iff in Hok as [Hbs Hmw].
  apply Z.ltb_lt in Hbs, Hmw.
  unfold fetch_manager_squads_batch.
  set (config := settings batch_size max_workers speed_mode) in *.
  replace (cfg_batch_size config =? 0) with false by (symmetry; lia).
  destruct (run_batches_keys net completion config manager_ids
              (range_starts (length manager_ids) (cfg_batch_size config)) []
              Hperm Hmw) as (all_squads & -> & Hkeys).
  exists all_squads.
  rewrite bool_decide_eq_false_2 by (by destruct manager_ids).
  split; [done|]. intros k. rewrite Hkeys. split.
  - intros [H | (i & p & m & Hi & Hin & Hk & Hs)].
    + by apply not_elem_of_nil in H.
    + apply elem_of_batch_tasks in Hin as [Hp _]. by exists p, m.
  - intros (p & m & Hp & Hk & Hs). right.
    destruct (range_starts_covers (length manager_ids) (cfg_batch_size config)
                p Hbs) as (i & Hi & Hrange).
    { by eapply lookup_lt_Some. }
    exists i, p, m. split; [done|]. split; [|done].
    by apply elem_of_batch_tasks.
Qed.

Lemma run_batches_keys_requested (net : network)
    (completion : list (nat * Z) -> list (nat * Z)) (config : speed_config)
    (manager_ids : list Z) (starts : list nat) (all_squads result : dict) :
  (forall l, completion l ≡ₚ l) ->
  run_batches net completion config manager_ids starts all_squads = Ok result ->
  forall k, k ∈ dict_keys result ->
            k ∈ dict_keys all_squads \/ exists m, k = KInt m /\ m ∈ manager_ids.
Proof.
  intros Hperm. revert all_squads.
  induction starts as [|i starts IH]; intros all_squads; simpl.
  - intros [= <-] k Hk. by left.
  - destruct (cfg_max_workers config <=? 0); [done|].
    intros Hrun k Hk.
    destruct (IH _ Hrun k Hk) as [Hin | Hin]; [|by right].
    apply collect_batch_keys in Hin as [Hin | (p & m & Hin & -> & _)];
      [by left|].
    right. exists m. split; [done|].
    rewrite Hperm in Hin. apply elem_of_batch_tasks in Hin as [Hp _].
    by eapply list_elem_of_lookup_2.
Qed.

(** C3. For a non-empty list of member ids, in whatever order the
    futures complete, the batch fetch returns a mapping whenever its
    settings let the batches run (every named mode, or a positive custom
    batch size and worker count), and every key of a mapping it returns,
    under any settings, is one of the requested ids. *)
Theorem fetch_keys_requested (self : analyzer) (net : network)
    (completion : list (nat * Z) -> list (nat * Z)) (manager_ids : list Z)
    (batch_size max_workers : Z) (speed_mode : string) :
  (forall l, completion l ≡ₚ l) ->
  manager_ids <> [] ->
  (settings_ok batch_size max_workers speed_mode = true ->
   exists all_squads,
     (fetch_manager_squads_batch self net completion manager_ids batch_size
        max_workers speed_mode).2 = Ok all_squads)
  /\ (forall all_squads,
        (fetch_manager_squads_batch self net completion manager_ids
           batch_size max_workers speed_mode).2 = Ok all_squads ->
        forall k, k ∈ dict_keys all_squads ->
                  exists m, k = KInt m /\ m ∈ manager_ids).
Proof.
  intros Hperm Hne. split.
  - intros Hok.
    destruct (fetch_returns self net completion manager_ids batch_size
                max_workers speed_mode Hperm Hne Hok)
      as (all_squads & Hfetch & _).
    exists all_squads. by rewrite Hfetch.
  - intros all_squads. unfold fetch_manager_squads_batch.
    destruct (cfg_batch_size _ =? 0); [done|].
    destruct (run_batches _ _ _ _ _ _) as [result|e] eqn:Hrun; [|done].
    destruct (bool_decide _); [done|]. intros [= <-] k Hk.
    destruct (run_batches_keys_requested _ _ _ _ _ _ _ Hperm Hrun k Hk)
      as [Hin | Hin]; [|done].
    by apply not_elem_of_nil in Hin.
Qed.

(** The menu of [interactive_analysis] always ends in settings that let
    the batches run: a custom choice is passed together with the mode
    name 'conservative', which overrides it. *)
Lemma preset_settings_ok (speed_mode : string) :
  settings_ok 200 5 speed_mode = true.
Proof.
  unfold settings_ok, settings, speed_configs.
  repeat case_decide; reflexivity.
Qed.

Lemma custom_settings_ok (batch_size max_workers : Z) :
  settings_ok batch_size max_workers "conservative" = true.
Proof. reflexivity. Qed.

(** C7, as amended.  For a non-empty list of requested ids, the failure
    of a member neither raises nor stops the others.  The fetch itself
    does not fail: it returns the mapping of the members one of whose
    tasks succeeded, and that mapping is empty exactly when no task
    succeeded.  The fetch phase of the interactive run, which tests the
    mapping, ends in failure exactly in that case. *)
Theorem fetch_empty_iff_none_succeeds (self : analyzer) (net : network)
    (completion : list (nat * Z) -> list (nat * Z)) (manager_ids : list Z) :
  (forall l, completion l ≡ₚ l) ->
  manager_ids <> [] ->
  let none_succeeds :=
    forall p m, manager_ids !! p = Some m -> task_succeeds net p m = false in
  (forall batch_size max_workers speed_mode,
     settings_ok batch_size max_workers speed_mode = true ->
     exists all_squads,
       (fetch_manager_squads_batch self net completion manager_ids batch_size
          max_workers speed_mode).2 = Ok all_squads
       /\ (forall p m, manager_ids !! p = Some m ->
                       task_succeeds net p m = true ->
                       KInt m ∈ dict_keys all_squads)
       /\ (truthy (PDict all_squads) = false <-> none_succeeds))
  /\ (forall isoformat fs now cache_loaded plan choice league_id current_gw,
        skip_fetch plan = false ->
        plan_ids plan = manager_ids ->
        exists self' fs' outcome,
          fetch_phase isoformat self fs now net completion cache_loaded plan
            choice league_id current_gw = Ok (self', fs', outcome)
          /\ (outcome = FetchFailed <-> none_succeeds)).
Proof.
  intros Hperm Hne none_succeeds.
  assert (forall batch_size max_workers speed_mode,
    settings_ok batch_size max_workers speed_mode = true ->
    exists all_squads,
      fetch_manager_squads_batch self net completion manager_ids batch_size
        max_workers speed_mode
      = (set_manager_squads (PDict all_squads) self, Ok all_squads)
      /\ (forall p m, manager_ids !! p = Some m ->
                      task_succeeds net p m = true ->
                      KInt m ∈ dict_keys all_squads)
      /\ (truthy (PDict all_squads) = false <-> none_succeeds)) as Hfetch.
  { intros batch_size max_workers speed_mode Hok.
    destruct (fetch_returns self net completion manager_ids batch_size
                max_workers speed_mode Hperm Hne Hok)
      as (all_squads & Hfetch & Hkeys).
    exists all_squads. split; [done|]. split.
    - intros p m Hp Hs. apply Hkeys. by exists p, m.
    - unfold none_succeeds. simpl. rewrite negb_false_iff, bool_decide_eq_true.
      split.
      + intros Hempty p m Hp.
        destruct (task_succeeds net p m) eqn:Hs; [|done].
        assert (KInt m ∈ dict_keys all_squads) as Hin
          by (apply Hkeys; by exists p, m).
        destruct all_squads; [|done]. by apply not_elem_of_nil in Hin.
      + intros Hnone. destruct all_squads as [|[k v] rest]; [done|].
        assert (k ∈ dict_keys ((k, v) :: rest)) as Hin by (simpl; left).
        apply Hkeys in Hin as (p & m & Hp & _ & Hs).
        rewrite (Hnone p m Hp) in Hs. done. }
  split.
  - intros batch_size max_workers speed_mode Hok.
    destruct (Hfetch _ _ _ Hok) as (all_squads & Heq & H1 & H2).
    exists all_squads. by rewrite Heq.
  - intros isoformat fs now cache_loaded plan choice league_id current_gw
      Hskip Hids.
    unfold fetch_phase. rewrite Hskip, Hids.
    assert (exists all_squads,
      match choice with
      | Custom batch_size max_workers =>
          fetch_manager_squads_batch self net completion manager_ids
            batch_size max_workers "conservative"
      | Preset speed_mode =>
          fetch_manager_squads_batch self net completion manager_ids 200 5
            speed_mode
      end = (set_manager_squads (PDict all_squads) self, Ok all_squads)
      /\ (truthy (PDict all_squads) = false <-> none_succeeds))
      as (all_squads & -> & Hnone).
    { destruct choice as [speed_mode | batch_size max_workers].
      - destruct (Hfetch _ _ _ (preset_settings_ok speed_mode))
          as (d & Heq & _ & H2). by exists d.
      - destruct (Hfetch _ _ _ (custom_settings_ok batch_size max_workers))
          as (d & Heq & _ & H2). by exists d. }
    cbn [mbind result_bind].
    destruct (truthy (PDict all_squads)) eqn:Htruthy; cbn [negb].
    + destruct (cache_loaded && missing_defined plan);
        cbn [py_update manager_squads set_manager_squads mbind result_bind];
        do 3 eexists; (split; [reflexivity|]);
        (split; [done | intros H; apply Hnone in H; done]).
    + do 3 eexists. split; [reflexivity|]. split; [intros _; by apply Hnone|done].
Qed.

(** C10. With an empty list of ids the batch fetch raises
    [ZeroDivisionError] whatever its other arguments: the batch loop
    does not run and the closing report divides by the number of ids
    (a zero batch size divides by zero before that).  So a fetch that
    returns a mapping was given a non-empty list; and with a non-empty
    list and settings that let the batches run it does return one. *)
Theorem fetch_empty_raises :
  (forall self net completion batch_size max_workers speed_mode,
     (fetch_manager_squads_batch self net completion [] batch_size
        max_workers speed_mode).2 = Raise ZeroDivisionError)
  /\ (forall self net completion manager_ids batch_size max_workers
             speed_mode all_squads,
        (fetch_manager_squads_batch self net completion manager_ids
           batch_size max_workers speed_mode).2 = Ok all_squads ->
        manager_ids <> [])
  /\ (forall self net completion manager_ids batch_size max_workers
             speed_mode,
        (forall l, completion l ≡ₚ l) ->
        manager_ids <> [] ->
        settings_ok batch_size max_workers speed_mode = true ->
        exists all_squads,
          (fetch_manager_squads_batch self net completion manager_ids
             batch_size max_workers speed_mode).2 = Ok all_squads).
Proof.
  assert (forall self net completion batch_size max_workers speed_mode,
    (fetch_manager_squads_batch self net completion [] batch_size
       max_workers speed_mode).2 = Raise ZeroDivisionError) as Hempty.
  { intros. unfold fetch_manager_squads_batch.
    destruct (cfg_batch_size _ =? 0); [done|].
    simpl. by rewrite range_starts_empty. }
  split; [exact Hempty|]. split.
  - intros self net completion manager_ids batch_size max_workers speed_mode
      all_squads Hfetch ->.
    by rewrite Hempty in Hfetch.
  - intros self net completion manager_ids batch_size max_workers speed_mode
      Hperm Hne Hok.
    destruct (fetch_returns self net completion manager_ids batch_size
                max_workers speed_mode Hperm Hne Hok)
      as (all_squads & Hfetch & _).
    exists all_squads. by rewrite Hfetch.
Qed.

(** C2, counterexample.  For a member whose requests all fail (in
    transport, or with an empty body) under the conservative retry
    delay of one second, the pauses are three halves of a second, one
    after each attempt, and not the escalating schedule. *)
Lemma retry_pauses_not_escalating :
  get_manager_squad_safe net_7_down 0 7 f1_0 3 = (PNone, [f0_5; f0_5; f0_5])
  /\ get_manager_squad_safe (fun _ _ _ => Http200 (PDict [])) 0 7 f1_0 3
     = (PNone, [f0_5; f0_5; f0_5])
  /\ escalating_pauses f1_0 = [f0_5; f1_0]
  /\ (get_manager_squad_safe net_7_down 0 7 f1_0 3).2
     <> escalating_pauses f1_0.
Proof. vm_compute. repeat split. discriminate. Qed.

(** C2, as amended.  A member whose every attempt fails (transport
    failure, other status, or a falsy body) is tried three times, with a
    pause of half the retry delay after each attempt; the full retry
    delay is the pause of the exception handler, which
    [get_manager_squad] never reaches since it raises nothing.  The
    member is then missing from the result, nothing is raised, and the
    result is non-empty as soon as some other task succeeded. *)
Theorem retry_exhaustion (self : analyzer) (net : network)
    (completion : list (nat * Z) -> list (nat * Z)) (manager_ids : list Z)
    (batch_size max_workers : Z) (speed_mode : string) (m : Z) :
  (forall l, completion l ≡ₚ l) ->
  manager_ids <> [] ->
  settings_ok batch_size max_workers speed_mode = true ->
  (forall task attempt, attempt_succeeds (net task m attempt) = false) ->
  (forall task retry_delay,
     get_manager_squad_safe net task m retry_delay 3
     = (PNone, [fmul retry_delay f0_5; fmul retry_delay f0_5;
                fmul retry_delay f0_5]))
  /\ exists all_squads,
       (fetch_manager_squads_batch self net completion manager_ids batch_size
          max_workers speed_mode).2 = Ok all_squads
       /\ (KInt m ∉ dict_keys all_squads)
       /\ ((exists p m', manager_ids !! p = Some m'
                         /\ task_succeeds net p m' = true) ->
           truthy (PDict all_squads) = true).
Proof.
  intros Hperm Hne Hok Hfail. split.
  - intros task retry_delay. unfold get_manager_squad_safe.
    by rewrite retry_loop_exhausted.
  - destruct (fetch_returns self net completion manager_ids batch_size
                max_workers speed_mode Hperm Hne Hok)
      as (all_squads & Hfetch & Hkeys).
    exists all_squads. rewrite Hfetch. split; [done|]. split.
    + intros Hin. apply Hkeys in Hin as (p & m' & _ & [= <-] & Hs).
      unfold task_succeeds in Hs. apply existsb_exists in Hs as (a & _ & Ha).
      by rewrite Hfail in Ha.
    + intros (p & m' & Hp & Hs).
      assert (KInt m' ∈ dict_keys all_squads) as Hin
        by (apply Hkeys; by exists p, m').
      destruct all_squads; [|done]. by apply not_elem_of_nil in Hin.
Qed.

Lemma reverse_completion (l : list (nat * Z)) : reverse l ≡ₚ l.
Proof. apply reverse_Permutation. Qed.

Lemma retry_exhaustion_witness :
  (forall task retry_delay,
     get_manager_squad_safe net_7_down task 7 retry_delay 3
     = (PNone, [fmul retry_delay f0_5; fmul retry_delay f0_5;
                fmul retry_delay f0_5]))
  /\ exists all_squads,
       (fetch_manager_squads_batch init net_7_down reverse [7; 8] 200 5
          "moderate").2 = Ok all_squads
       /\ (KInt 7 ∉ dict_keys all_squads)
       /\ ((exists p m', [7; 8] !! p = Some m'
                         /\ task_succeeds net_7_down p m' = true) ->
           truthy (PDict all_squads) = true).
Proof.
  apply (retry_exhaustion init net_7_down reverse [7; 8] 200 5 "moderate" 7
           reverse_completion).
  - discriminate.
  - reflexivity.
  - reflexivity.
Defined.

Lemma fetch_keys_requested_witness :
  (settings_ok 2 1 "custom" = true ->
   exists all_squads,
     (fetch_manager_squads_batch init net_7_down reverse [7; 8; 9] 2 1
        "custom").2 = Ok all_squads)
  /\ (forall all_squads,
        (fetch_manager_squads_batch init net_7_down reverse [7; 8; 9] 2 1
           "custom").2 = Ok all_squads ->
        forall k, k ∈ dict_keys all_squads ->
                  exists m, k = KInt m /\ m ∈ [7; 8; 9]).
Proof.
  apply (fetch_keys_requested init net_7_down reverse [7; 8; 9] 2 1 "custom"
           reverse_completion).
  discriminate.
Defined.

Lemma fetch_empty_iff_none_succeeds_witness :
  let none_succeeds :=
    forall p m, [7; 8] !! p = Some m -> task_succeeds net_7_down p m = false in
  (forall batch_size max_workers speed_mode,
     settings_ok batch_size max_workers speed_mode = true ->
     exists all_squads,
       (fetch_manager_squads_batch init net_7_down reverse [7; 8] batch_size
          max_workers speed_mode).2 = Ok all_squads
       /\ (forall p m, [7; 8] !! p = Some m ->
                       task_succeeds net_7_down p m = true ->
                       KInt m ∈ dict_keys all_squads)
       /\ (truthy (PDict all_squads) = false <-> none_succeeds))
  /\ (forall isoformat fs now cache_loaded plan choice league_id current_gw,
        skip_fetch plan = false ->
        plan_ids plan = [7; 8] ->
        exists self' fs' outcome,
          fetch_phase isoformat init fs now net_7_down reverse cache_loaded
            plan choice league_id current_gw = Ok (self', fs', outcome)
          /\ (outcome = FetchFailed <-> none_succeeds)).
Proof.
  apply (fetch_empty_iff_none_succeeds init net_7_down reverse [7; 8]
           reverse_completion).
  discriminate.
Defined.

(** C7, counterexample.  When the only requested member fails at every
    attempt the fetch returns normally, with an empty mapping; it raises
    only on an empty list of ids.  The caller has to test the mapping:
    the interactive run does, [load_league] of the web application does
    not and answers success with no squad. *)
Lemma fetch_returns_when_none_succeeds :
  (fetch_manager_squads_batch init net_7_down id [7] 200 5 "conservative").2
  = Ok []
  /\ (fetch_manager_squads_batch init net_7_down id [] 200 5
        "conservative").2 = Raise ZeroDivisionError
  /\ (load_league_fresh decimal_isoformat init ∅ 0 net_7_down id [7] 13907
        (Some 3)).2 = LoadSuccess 0 false.
Proof. repeat split; vm_compute; reflexivity. Qed.

(** ** Combination query *)

Lemma getitem_exn (v : pyval) (k : string) (e : exn) :
  getitem v k = Raise e -> e = KeyError \/ e = TypeError.
Proof.
  destruct v; simpl; try (intros [= <-]; by right).
  destruct (dict_get (KStr k) d); [done|]. intros [= <-]. by left.
Qed.

Lemma map_getitem_exn (k : string) (l : list pyval) (e : exn) :
  map_result (fun v => getitem v k) l = Raise e ->
  e = KeyError \/ e = TypeError.
Proof.
  induction l as [|v l IH]; simpl; [done|].
  destruct (getitem v k) eqn:Hv; simpl.
  - destruct (map_result _ l); simpl; [done|]. intros [= <-]. by apply IH.
  - intros [= <-]. by eapply getitem_exn.
Qed.

(** Decoding a squad raises nothing but what the scan catches. *)
Lemma squad_player_ids_exn (squad_data : pyval) (e : exn) :
  squad_player_ids squad_data = Raise e -> e = KeyError \/ e = TypeError.
Proof.
  unfold squad_player_ids.
  destruct (getitem squad_data "picks") as [picks|e'] eqn:Hpicks; simpl.
  - destruct (py_iter picks) as [l|e'] eqn:Hiter; simpl.
    + apply map_getitem_exn.
    + destruct picks; simpl in Hiter; try done; injection Hiter as <-;
        intros [= <-]; by right.
  - intros [= <-]. by eapply getitem_exn.
Qed.

Lemma scan_squads_filter (player_ids : list Z) (items : dict) :
  scan_squads player_ids items
  = Ok (filter (fun kv => squad_matches player_ids kv.2 = true) items).*1.
Proof.
  induction items as [|[manager_id squad_data] items IH]; simpl; [done|].
  rewrite filter_cons. simpl.
  assert (squad_matches player_ids squad_data
          = match squad_player_ids squad_data with
            | Ok squad => has_all player_ids squad
            | Raise _ => false
            end) as Hm by done.
  destruct (squad_player_ids squad_data) as [squad|e] eqn:Hsquad.
  - rewrite IH. simpl. rewrite <- Hm.
    by destruct (decide (squad_matches player_ids squad_data = true))
      as [-> | ->%not_true_is_false].
  - rewrite decide_False by (by rewrite Hm).
    by destruct (squad_player_ids_exn _ _ Hsquad) as [-> | ->].
Qed.

Lemma has_all_spec (player_ids : list Z) (squad : list pyval) :
  has_all player_ids squad = true
  <-> forall pid, pid ∈ player_ids ->
                  exists e, e ∈ squad /\ py_eq_int pid e = true.
Proof.
  unfold has_all. rewrite forallb_forall. split.
  - intros H pid Hpid. apply list_elem_of_In in Hpid.
    apply H, existsb_exists in Hpid as (e & He & Heq).
    exists e. by rewrite list_elem_of_In.
  - intros H pid Hpid. apply list_elem_of_In, H in Hpid as (e & He & Heq).
    apply existsb_exists. exists e. by rewrite <- list_elem_of_In.
Qed.








(** ** Merge after a gap fetch *)

(** C5, on the code.  One squad is cached for league 13907, which has
    two members, and the operator keeps the cache.  As long as the
    metadata file is there, the league is rebuilt from the keys of the
    cache, the coverage is complete and nothing is fetched: the merge
    is not reached.  It is reached when the record is removed (here by
    the cache manager) between the load and the second look at the
    metadata file: the league is then fetched, member 2 is missing and
    the operator asks for it.  The fetch brings back member 2 and
    rebinds [self.manager_squads] to its own result before the merge,
    so the merge updates that result with itself: the squad of member
    1 that was loaded is gone from the analyzer and from the record
    saved afterwards, where the union would hold both. *)
Theorem gap_fetch_drops_cached :
  let cached := [(KInt 1, squad_of [10; 20])] in
  let fetched := [(KInt 2, squad_of [30])] in
  let fs0 :=
    (save_manager_squads_cache decimal_isoformat one_cached ∅ 0 13907
       (Some 3)).1 in
  let fs1 := delete_cache_files started fs0 13907 (Some 3) in
  let gap :=
    {| skip_fetch := false; plan_ids := [2]; missing_defined := true |} in
  match
    choose_league decimal_fromisoformat started fs0 fs0 1 13907 "" "y"
      two_members 5
  with
  | Some (self1, cache_loaded, chosen) =>
      cache_loaded = true /\ chosen = true
      /\ manager_squads self1 = PDict cached
      /\ manager_ids_of (league_data self1) = Ok [PInt 1]
      /\ coverage_reconciliation (manager_squads self1) [1] "y"
         = Ok {| skip_fetch := true; plan_ids := [1];
                 missing_defined := false |}
  | None => False
  end
  /\ match
       choose_league decimal_fromisoformat started fs0 fs1 1 13907 "" "y"
         two_members 5
     with
     | Some (self1, cache_loaded, chosen) =>
         cache_loaded = true /\ chosen = true
         /\ manager_squads self1 = PDict cached
         /\ manager_ids_of (league_data self1) = Ok [PInt 1; PInt 2]
         /\ coverage_reconciliation (manager_squads self1) [1; 2] "y"
            = Ok gap
         /\ dict_update cached fetched
            = [(KInt 1, squad_of [10; 20]); (KInt 2, squad_of [30])]
         /\ match
              fetch_phase decimal_isoformat self1 fs1 5 net_all_up id
                cache_loaded gap (Preset "conservative") 13907
                (current_gw_of self1)
            with
            | Ok (self', fs', outcome) =>
                outcome = Ready
                /\ manager_squads self' = PDict fetched
                /\ (visible_record started fs' 13907 (Some 3)).1
                   = Some (PDict [(KStr "manager_squads", PDict fetched);
                                  (KStr "league_data", league_data self1)])
            | Raise _ => False
            end
     | None => False
     end.
Proof.
  intros cached fetched fs0 fs1 gap.
  split; vm_compute; repeat split.
Qed.

Lemma dict_set_same (k : key) (v : pyval) (d : dict) :
  dict_get k d = Some v -> dict_set k v d = d.
Proof.
  induction d as [|[k' v'] d IH]; simpl; [done|].
  destruct (decide (k = k')) as [->|]; [by intros [= ->]|].
  intros H. by rewrite IH.
Qed.

Lemma dict_get_elem_of (k : key) (v : pyval) (d : dict) :
  NoDup (dict_keys d) -> (k, v) ∈ d -> dict_get k d = Some v.
Proof.
  induction d as [|[k' v'] d IH]; simpl; intros Hnd Hin.
  - by apply not_elem_of_nil in Hin.
  - apply NoDup_cons in Hnd as [Hk' Hnd].
    apply elem_of_cons in Hin as [[= -> ->] | Hin].
    + by rewrite decide_True.
    + rewrite decide_False; [by apply IH|].
      intros ->. apply Hk'. apply list_elem_of_fmap. by exists (k', v).
Qed.

Lemma dict_update_self (d : dict) :
  NoDup (dict_keys d) -> dict_update d d = d.
Proof.
  intros Hnd. unfold dict_update.
  assert (forall l : dict,
            (forall k v, (k, v) ∈ l -> dict_get k d = Some v) ->
            fold_left (fun acc kv => dict_set kv.1 kv.2 acc) l d = d) as H.
  { induction l as [|[k v] l IH]; simpl; intros Hl; [done|].
    rewrite dict_set_same by (apply Hl; left). apply IH.
    intros k' v' Hin. apply Hl. by right. }
  apply H. intros k v. by apply dict_get_elem_of.
Qed.

Lemma dict_set_NoDup (k : key) (v : pyval) (d : dict) :
  NoDup (dict_keys d) -> NoDup (dict_keys (dict_set k v d)).
Proof.
  induction d as [|[k' v'] d IH]; simpl; intros Hnd.
  - apply NoDup_singleton.
  - apply NoDup_cons in Hnd as [Hk' Hnd].
    destruct (decide (k = k')) as [->|Hne]; simpl.
    + by apply NoDup_cons.
    + apply NoDup_cons. split; [|by apply IH].
      rewrite dict_keys_set. intros [-> | H]; done.
Qed.

Lemma collect_batch_NoDup (net : network) (retry_delay : spec_float)
    (done : list (nat * Z)) (all_squads : dict) :
  NoDup (dict_keys all_squads) ->
  NoDup (dict_keys (collect_batch net retry_delay done all_squads)).
Proof.
  unfold collect_batch. revert all_squads.
  induction done as [|t done IH]; intros all_squads Hnd; simpl; [done|].
  apply IH. destruct (truthy _); [by apply dict_set_NoDup | done].
Qed.

Lemma run_batches_NoDup (net : network)
    (completion : list (nat * Z) -> list (nat * Z)) (config : speed_config)
    (manager_ids : list Z) (starts : list nat) (all_squads result : dict) :
  NoDup (dict_keys all_squads) ->
  run_batches net completion config manager_ids starts all_squads = Ok result ->
  NoDup (dict_keys result).
Proof.
  revert all_squads.
  induction starts as [|i starts IH]; intros all_squads Hnd; simpl.
  - by intros [= <-].
  - destruct (cfg_max_workers config <=? 0); [done|].
    apply IH. by apply collect_batch_NoDup.
Qed.

Lemma fetch_result_NoDup (self : analyzer) (net : network)
    (completion : list (nat * Z) -> list (nat * Z)) (manager_ids : list Z)
    (batch_size max_workers : Z) (speed_mode : string) (all_squads : dict) :
  (fetch_manager_squads_batch self net completion manager_ids batch_size
     max_workers speed_mode).2 = Ok all_squads ->
  NoDup (dict_keys all_squads).
Proof.
  unfold fetch_manager_squads_batch.
  destruct (cfg_batch_size _ =? 0); [done|].
  destruct (run_batches _ _ _ _ _ _) as [result|e] eqn:Hrun; [|done].
  destruct (bool_decide _); [done|]. intros [= <-].
  eapply run_batches_NoDup; [|exact Hrun]. apply NoDup_nil_2.
Qed.

Lemma gap_fetch_keeps_only_fetched (isoformat : Z -> string)
    (self : analyzer) (fs : store) (now : Z) (net : network)
    (completion : list (nat * Z) -> list (nat * Z)) (cache_loaded : bool)
    (plan : fetch_plan) (choice : speed_choice) (league_id : Z)
    (current_gw : option Z) :
  (forall l, completion l ≡ₚ l) ->
  skip_fetch plan = false ->
  plan_ids plan <> [] ->
  exists new_squads fs' outcome,
    fetch_phase isoformat self fs now net completion cache_loaded plan choice
      league_id current_gw
    = Ok (set_manager_squads (PDict new_squads) self, fs', outcome)
    /\ forall k, k ∈ dict_keys new_squads ->
                 exists m, k = KInt m /\ m ∈ plan_ids plan.
Proof.
  intros Hperm Hskip Hne. unfold fetch_phase. rewrite Hskip.
  set (fetch :=
         match choice with
         | Preset speed_mode =>
             fetch_manager_squads_batch self net completion (plan_ids plan)
               200 5 speed_mode
         | Custom batch_size max_workers =>
             fetch_manager_squads_batch self net completion (plan_ids plan)
               batch_size max_workers "conservative"
         end).
  assert (exists new_squads,
            fetch = (set_manager_squads (PDict new_squads) self, Ok new_squads)
            /\ NoDup (dict_keys new_squads)
            /\ forall k, k ∈ dict_keys new_squads ->
                         exists m, k = KInt m /\ m ∈ plan_ids plan)
    as (new_squads & -> & Hnd & Hkeys).
  { subst fetch. destruct choice as [speed_mode | batch_size max_workers].
    - destruct (fetch_returns self net completion (plan_ids plan) 200 5
                  speed_mode Hperm Hne (preset_settings_ok speed_mode))
        as (d & Heq & Hk).
      exists d. split; [done|]. split.
      + eapply fetch_result_NoDup. by rewrite Heq.
      + intros k Hin. apply Hk in Hin as (p & m & Hp & -> & _).
        exists m. split; [done|]. by eapply list_elem_of_lookup_2.
    - destruct (fetch_returns self net completion (plan_ids plan) batch_size
                  max_workers "conservative" Hperm Hne
                  (custom_settings_ok batch_size max_workers))
        as (d & Heq & Hk).
      exists d. split; [done|]. split.
      + eapply fetch_result_NoDup. by rewrite Heq.
      + intros k Hin. apply Hk in Hin as (p & m & Hp & -> & _).
        exists m. split; [done|]. by eapply list_elem_of_lookup_2. }
  exists new_squads. cbn [mbind result_bind].
  destruct (truthy (PDict new_squads)); cbn [negb].
  - destruct (cache_loaded && missing_defined plan);
      cbn [py_update manager_squads set_manager_squads mbind result_bind];
      rewrite ?dict_update_self by done; by do 2 eexists.
  - by do 2 eexists.
Qed.

(** ** Binary64 arithmetic *)

Lemma digits2_pos_bounds (p : positive) :
  2 ^ (Z.pos (digits2_pos p) - 1) <= Z.pos p < 2 ^ Z.pos (digits2_pos p).
Proof.
  induction p as [p IH|p IH|]; cbn [digits2_pos].
  - rewrite Pos2Z.inj_succ.
    replace (Z.succ (Z.pos (digits2_pos p)) - 1)
      with (Z.succ (Z.pos (digits2_pos p) - 1)) by lia.
    rewrite !Z.pow_succ_r by lia. lia.
  - rewrite Pos2Z.inj_succ.
    replace (Z.succ (Z.pos (digits2_pos p)) - 1)
      with (Z.succ (Z.pos (digits2_pos p) - 1)) by lia.
    rewrite !Z.pow_succ_r by lia. lia.
  - simpl. lia.
Qed.

Lemma shr_1_m (mrs : shr_record) :
  0 <= shr_m mrs -> shr_m (shr_1 mrs) = shr_m mrs / 2.
Proof.
  destruct mrs as [m r s]. simpl. intros Hm.
  destruct m as [|[p|p|]|p]; cbn [shr_m]; try lia.
  - reflexivity.
  - apply Z.div_unique with 1; lia.
  - apply Z.div_unique with 0; lia.
  - reflexivity.
Qed.

Lemma shr_1_nonneg (mrs : shr_record) :
  0 <= shr_m mrs -> 0 <= shr_m (shr_1 mrs).
Proof. intros H. rewrite shr_1_m by done. apply Z.div_pos; lia. Qed.

Lemma iter_shr_1_m (p : positive) (mrs : shr_record) :
  0 <= shr_m mrs ->
  0 <= shr_m (SpecFloat.iter_pos shr_1 p mrs)
  /\ shr_m (SpecFloat.iter_pos shr_1 p mrs) = shr_m mrs / 2 ^ Z.pos p.
Proof.
  revert mrs.
  induction p as [p IH|p IH|]; intros mrs Hm; cbn [SpecFloat.iter_pos].
  - assert (0 < 2 ^ Z.pos p) by (apply Z.pow_pos_nonneg; lia).
    destruct (IH (shr_1 mrs) (shr_1_nonneg _ Hm)) as [H1 E1].
    destruct (IH _ H1) as [H2 E2].
    split; [exact H2|]. rewrite E2, E1, shr_1_m by exact Hm.
    rewrite !Z.div_div by lia. f_equal.
    replace (Z.pos p~1) with (Z.pos p + Z.pos p + 1) by lia.
    rewrite !Z.pow_add_r by lia. lia.
  - assert (0 < 2 ^ Z.pos p) by (apply Z.pow_pos_nonneg; lia).
    destruct (IH mrs Hm) as [H1 E1].
    destruct (IH _ H1) as [H2 E2].
    split; [exact H2|]. rewrite E2, E1.
    rewrite !Z.div_div by lia. f_equal.
    replace (Z.pos p~0) with (Z.pos p + Z.pos p) by lia.
    rewrite !Z.pow_add_r by lia. lia.
  - split; [by apply shr_1_nonneg|]. rewrite shr_1_m by lia. reflexivity.
Qed.

Lemma digits2_pos_unique (p : positive) (k : Z) :
  2 ^ (k - 1) <= Z.pos p < 2 ^ k -> Z.pos (digits2_pos p) = k.
Proof.
  intros [Hlo Hhi]. pose proof (digits2_pos_bounds p) as [Dlo Dhi].
  assert (0 < k).
  { destruct (Z_lt_le_dec 0 k); [done|].
    assert (2 ^ k <= 2 ^ 0) by (apply Z.pow_le_mono_r; lia).
    change (2 ^ 0) with 1 in *. lia. }
  assert (k - 1 < Z.pos (digits2_pos p)).
  { apply (Z.pow_lt_mono_r_iff 2); lia. }
  assert (Z.pos (digits2_pos p) - 1 < k).
  { apply (Z.pow_lt_mono_r_iff 2); lia. }
  lia.
Qed.

Lemma fexp_normal (d : Z) : -1021 <= d -> fexp 53 1024 d = d - 53.
Proof. intros H. unfold fexp, emin. lia. Qed.

Lemma round_nearest_even_bounds (m : Z) (l : location) :
  m <= round_nearest_even m l <= m + 1.
Proof.
  unfold round_nearest_even. destruct l as [|[]]; try lia.
  destruct (Z.even m); lia.
Qed.

(** Rounding a mantissa of more than 53 digits: the result is finite, its
    exponent is that of the truncation or one more, and its mantissa,
    brought to the exponent of the truncation, is the truncated mantissa
    or its successor. *)
Lemma binary_round_aux_long (M : positive) (e : Z) :
  let D := Z.pos (digits2_pos M) in
  let s := D - 53 in
  let E := e + s in
  53 < D -> -1021 <= D + e -> E < 970 ->
  exists mf ef,
    binary_round_aux 53 1024 false (Z.pos M) e loc_Exact
    = S754_finite false mf ef
    /\ E <= ef <= E + 1
    /\ Z.pos M / 2 ^ s <= Z.pos mf * 2 ^ (ef - E) <= Z.pos M / 2 ^ s + 1.
Proof.
  intros D s E HD Hlo Hhi.
  unfold binary_round_aux, shr_fexp. cbn [Zdigits2 shr_record_of_loc].
  fold D. rewrite fexp_normal by lia.
  replace (D + e - 53 - e) with s by lia.
  destruct s as [|sp|sp] eqn:Hs; try lia. cbn [shr].
  set (mrs := SpecFloat.iter_pos shr_1 sp _).
  destruct (iter_shr_1_m sp
              {| shr_m := Z.pos M; shr_r := false; shr_s := false |})
    as [Hnn Hm']; [cbn; lia|]. fold mrs in Hnn, Hm'. cbn [shr_m] in Hm'.
  set (m' := Z.pos M / 2 ^ Z.pos sp) in *.
  pose proof (digits2_pos_bounds M) as [Mlo Mhi]. fold D in Mlo, Mhi.
  assert (0 < 2 ^ Z.pos sp) as Hpow by (apply Z.pow_pos_nonneg; lia).
  assert (2 ^ 52 <= m' < 2 ^ 53) as [Hm'lo Hm'hi].
  { subst m'. split.
    - apply Z.div_le_lower_bound; [lia|].
      rewrite <- Z.pow_add_r by lia. 
      replace (Z.pos sp + 52) with (D - 1) by lia. lia.
    - apply Z.div_lt_upper_bound; [lia|].
      rewrite <- Z.pow_add_r by lia.
      replace (Z.pos sp + 53) with D by lia. lia. }
  pose proof (round_nearest_even_bounds (shr_m mrs) (loc_of_shr_record mrs))
    as Hr.
  destruct (round_nearest_even (shr_m mrs) (loc_of_shr_record mrs))
    as [|q|q] eqn:Hq; try lia.
  cbn [Zdigits2].
  pose proof (digits2_pos_bounds q) as [qlo qhi].
  set (D2 := Z.pos (digits2_pos q)) in *.
  assert (52 < D2) by (apply (Z.pow_lt_mono_r_iff 2); lia).
  assert (D2 - 1 < 54).
  { apply (Z.pow_lt_mono_r_iff 2); change (2 ^ 54) with (2 * 2 ^ 53); lia. }
  rewrite fexp_normal by lia.
  assert (D2 = 53 \/ D2 = 54) as [HD2 | HD2] by lia.
  - replace (D2 + (e + Z.pos sp) - 53 - (e + Z.pos sp)) with 0 by lia.
    cbn [shr shr_m].
    replace (e + Z.pos sp <=? 1024 - 53) with true by (symmetry; lia).
    exists q, (e + Z.pos sp). split; [done|]. split; [lia|].
    replace (e + Z.pos sp - E) with 0 by lia. lia.
  - replace (D2 + (e + Z.pos sp) - 53 - (e + Z.pos sp)) with 1 by lia.
    cbn [shr SpecFloat.iter_pos].
    assert (Z.pos q = 2 ^ 53) as Hq53.
    { rewrite HD2 in qlo. change (2 ^ (54 - 1)) with (2 ^ 53) in qlo. lia. }
    injection Hq53 as ->. cbn [shr_1 shr_m].
    replace (e + Z.pos sp + 1 <=? 1024 - 53) with true by (symmetry; lia).
    eexists _, (e + Z.pos sp + 1). split; [done|]. split; [lia|].
    replace (e + Z.pos sp + 1 - E) with 1 by lia. 
    change (2 ^ 53) with 9007199254740992 in *. lia.
Qed.

Lemma iter_xO (p k : positive) :
  Z.pos (Pos.iter xO p k) = Z.pos p * 2 ^ Z.pos k.
Proof.
  pose proof (Zpower.shift_pos_correct k p) as H.
  unfold Zpower.shift_pos in H. rewrite H. 
  change (Z.pow_pos 2 k) with (2 ^ Z.pos k). lia.
Qed.

(** An integer below 2^53 converts exactly: the mantissa is the integer
    shifted up to 53 digits. *)
Lemma float_of_int_exact (n : positive) :
  let d := Z.pos (digits2_pos n) in
  d <= 53 ->
  exists mz,
    float_of_int (Z.pos n) = S754_finite false mz (d - 53)
    /\ Z.pos mz = Z.pos n * 2 ^ (53 - d)
    /\ Z.pos (digits2_pos mz) = 53.
Proof.
  intros d Hd. unfold float_of_int, binary_normalize, binary_round, shl_align.
  fold d. unfold prec, emax. rewrite fexp_normal by lia.
  pose proof (digits2_pos_bounds n) as [nlo nhi]. fold d in nlo, nhi.
  assert (exists mz, (match d + 0 - 53 - 0 with
                      | Z.neg k => (Pos.iter xO n k, d + 0 - 53)
                      | _ => (n, 0)
                      end) = (mz, d - 53)
                     /\ Z.pos mz = Z.pos n * 2 ^ (53 - d)) as (mz & -> & Hmz).
  { destruct (d + 0 - 53 - 0) as [|k|k] eqn:Hk; try lia.
    - exists n. replace (d - 53) with 0 by lia. split; [done|].
      replace (53 - d) with 0 by lia. lia.
    - exists (Pos.iter xO n k). replace (d + 0 - 53) with (d - 53) by lia.
      split; [done|]. rewrite iter_xO. f_equal. f_equal. lia. }
  exists mz.
  assert (Z.pos (digits2_pos mz) = 53) as Hdig.
  { apply digits2_pos_unique. rewrite Hmz.
    assert (0 < 2 ^ (53 - d)) by (apply Z.pow_pos_nonneg; lia).
    replace (2 ^ (53 - 1)) with (2 ^ (d - 1) * 2 ^ (53 - d))
      by (rewrite <- Z.pow_add_r by lia; f_equal; lia).
    replace (2 ^ 53) with (2 ^ d * 2 ^ (53 - d))
      by (rewrite <- Z.pow_add_r by lia; f_equal; lia).
    nia. }
  split; [|done].
  unfold binary_round_aux, shr_fexp. cbn [Zdigits2 shr_record_of_loc].
  rewrite Hdig, fexp_normal by lia.
  replace (53 + (d - 53) - 53 - (d - 53)) with 0 by lia.
  cbn [shr shr_m loc_of_shr_record round_nearest_even Zdigits2 shr_record_of_loc].
  rewrite Hdig, fexp_normal by lia.
  replace (53 + (d - 53) - 53 - (d - 53)) with 0 by lia.
  cbn [shr shr_m].
  replace (d - 53 <=? 1024 - 53) with true by (symmetry; lia). done.
Qed.

Lemma digits2_pos_le (n : positive) (k : Z) :
  Z.pos n < 2 ^ k -> 0 <= k -> Z.pos (digits2_pos n) <= k.
Proof.
  intros Hn Hk. pose proof (digits2_pos_bounds n) as [nlo _].
  assert (Z.pos (digits2_pos n) - 1 < k); [|lia].
  apply (Z.pow_lt_mono_r_iff 2); lia.
Qed.

(** The comparison [c >= n * 0.95] in doubles agrees with the exact
    one, [20 c >= 19 n], for every count below 2^47. *)
Lemma int_ge_float_095 (c n : Z) :
  0 <= n < 2 ^ 47 -> 0 <= c ->
  int_ge_float c (fmul (float_of_int n) f0_95) = (19 * n <=? 20 * c).
Proof.
  intros [Hn0 Hn] Hc. destruct n as [|n|n]; try lia.
  { cbn. destruct c; try lia; reflexivity. }
  pose proof (digits2_pos_le n 47 Hn ltac:(lia)) as Hd.
  destruct (float_of_int_exact n ltac:(lia)) as (mz & -> & Hmz & Hdig).
  set (d := Z.pos (digits2_pos n)) in *.
  unfold fmul, f0_95, SFmul. cbn [xorb].
  set (C := 8556839292003942%positive).
  pose proof (digits2_pos_bounds mz) as [zlo zhi]. rewrite Hdig in zlo, zhi.
  change (2 ^ (53 - 1)) with 4503599627370496 in zlo.
  change (2 ^ 53) with 9007199254740992 in zhi.
  pose proof (digits2_pos_bounds (mz * C)) as [Mlo Mhi].
  set (D := Z.pos (digits2_pos (mz * C))) in *.
  assert (Z.pos (mz * C) = Z.pos mz * 8556839292003942) as HM
    by (subst C; lia).
  assert (104 < D).
  { apply (Z.pow_lt_mono_r_iff 2); [lia| lia |].
    change (2 ^ 104) with 20282409603651670423947251286016. nia. }
  assert (D - 1 < 106).
  { apply (Z.pow_lt_mono_r_iff 2); [lia| lia |].
    change (2 ^ 106) with 81129638414606681695789005144064. nia. }
  destruct (binary_round_aux_long (mz * C) (d - 53 + -53))
    as (mf & ef & Hres & Hef & Hmr); fold D; try lia.
  unfold prec, emax. rewrite Hres. clear Hres. fold D in Hef, Hmr.
  set (s := D - 53) in *. set (E := d - 53 + -53 + s) in *.
  cbn [int_ge_float].
  replace (0 <=? ef) with false by (symmetry; lia).
  set (T := 2 ^ (53 - d)) in *.
  assert (64 <= T).
  { subst T. change 64 with (2 ^ 6). apply Z.pow_le_mono_r; lia. }
  set (P := 2 ^ (- E)).
  assert (0 < P) by (apply Z.pow_pos_nonneg; lia).
  assert (0 < 2 ^ s) as Hs by (apply Z.pow_pos_nonneg; lia).
  assert (2 ^ s * P = 9007199254740992 * T) as HQ.
  { subst P T. rewrite <- Z.pow_add_r by lia.
    change 9007199254740992 with (2 ^ 53).
    rewrite <- Z.pow_add_r by lia. f_equal. lia. }
  assert (2 ^ s <= 9007199254740992) as Hs53.
  { change 9007199254740992 with (2 ^ 53). apply Z.pow_le_mono_r; lia. }
  set (a := ef - E) in *.
  assert (0 < 2 ^ a) as Ha by (apply Z.pow_pos_nonneg; lia).
  assert (2 ^ (- ef) * 2 ^ a = P) as HP.
  { subst P a. rewrite <- Z.pow_add_r by lia. f_equal. lia. }
  set (mr := Z.pos mf * 2 ^ a) in *.
  set (m' := Z.pos (mz * C) / 2 ^ s) in *.
  assert ((Z.pos mf <=? c * 2 ^ (- ef)) = (mr <=? c * P)) as ->.
  { apply eq_true_iff_eq. rewrite !Z.leb_le. subst mr. rewrite <- HP.
    rewrite Z.mul_assoc. split.
    - intros Hle. by apply Z.mul_le_mono_nonneg_r; [lia|].
    - intros Hle. by apply Z.mul_le_mono_pos_r in Hle. }
  set (x := Z.pos n * T) in *. set (y := c * T).
  assert (0 < x) by (subst x; lia).
  assert (x <= 140737488355327 * T).
  { subst x. apply Z.mul_le_mono_nonneg_r; [lia|].
    change (2 ^ 47) with 140737488355328 in Hn. lia. }
  destruct (Z.leb_spec (19 * Z.pos n) (20 * c)) as [Hcov | Hcov].
  - apply Z.leb_le.
    assert (19 * x <= 20 * y).
    { subst x y. rewrite !Z.mul_assoc. apply Z.mul_le_mono_nonneg_r; lia. }
    assert (m' < c * P); [|lia].
    subst m'. apply Z.div_lt_upper_bound; [lia|].
    replace (2 ^ s * (c * P)) with (c * (2 ^ s * P)) by lia.
    rewrite HQ.
    replace (c * (9007199254740992 * T)) with (y * 9007199254740992)
      by (subst y; lia).
    rewrite HM, Hmz. fold T. fold x. lia.
  - apply Z.leb_gt.
    assert (20 * y + T <= 19 * x).
    { subst x y. rewrite !Z.mul_assoc.
      replace (20 * c * T + T) with ((20 * c + 1) * T) by lia.
      apply Z.mul_le_mono_nonneg_r; lia. }
    assert (c * P + 1 <= m'); [|lia].
    subst m'. apply Z.div_le_lower_bound; [lia|].
    replace (2 ^ s * (c * P + 1)) with (c * (2 ^ s * P) + 2 ^ s) by lia.
    rewrite HQ.
    replace (c * (9007199254740992 * T)) with (y * 9007199254740992)
      by (subst y; lia).
    rewrite HM, Hmz. fold T. fold x. lia.
Qed.

(** ** Coverage reconciliation *)

(** C1, counterexample.  A cached squad of a manager who is not in the
    league counts towards the coverage: with one such squad and one
    required id the fetch is skipped, where the share of required ids
    that are cached is zero.  And below the threshold the operator may
    decline: the fetch is skipped although two of three ids are
    missing. *)
Lemma reconciliation_counts_not_overlap :
  coverage_reconciliation (PDict [(KInt 7, squad_of [10])]) [1] "y"
  = Ok {| skip_fetch := true; plan_ids := [1]; missing_defined := false |}
  /\ spec_reconcile [7] [1] = (false, [1])
  /\ coverage_reconciliation (PDict [(KInt 1, squad_of [10])]) [1; 2; 3] "N"
     = Ok {| skip_fetch := true; plan_ids := [1; 2; 3];
             missing_defined := false |}
  /\ spec_reconcile [1] [1; 2; 3] = (false, [2; 3]).
Proof. vm_compute. repeat split. Qed.

Lemma coverage_ok_exact (cached_count total_count : nat) :
  Z.of_nat total_count < 2 ^ 47 ->
  coverage_ok cached_count total_count
  = (19 * Z.of_nat total_count <=? 20 * Z.of_nat cached_count).
Proof.
  intros H. unfold coverage_ok. apply int_ge_float_095; lia.
Qed.

(** C1, as amended.  For a non-empty cached mapping and a non-empty list
    of required ids (fewer than 2^47), the reconciliation compares the
    number of cached squads with the number of required ids, not their
    overlap.  When the cached count is at least 95% of the required
    count, exactly 95% included, the fetch is skipped and no id is
    fetched: the fetch phase leaves the analyzer and the cache as they
    are.  Otherwise the operator is asked: on the answer n the fetch is
    skipped as well; on any other answer the fetch is not skipped and
    the ids to fetch are the required ids that are not keys of the
    cached mapping, in their order. *)
Theorem coverage_reconciliation_counts (squads : dict) (manager_ids : list Z)
    (extend_cache : string) :
  squads <> [] ->
  manager_ids <> [] ->
  Z.of_nat (length manager_ids) < 2 ^ 47 ->
  let cached_count := Z.of_nat (length squads) in
  let total_count := Z.of_nat (length manager_ids) in
  let missing :=
    filter (fun mid => KInt mid ∉ dict_keys squads) manager_ids in
  let skipped plan :=
    skip_fetch plan = true /\ ids_to_fetch plan = []
    /\ forall isoformat self fs now net completion cache_loaded choice
              league_id current_gw,
         fetch_phase isoformat self fs now net completion cache_loaded plan
           choice league_id current_gw = Ok (self, fs, Ready) in
  exists plan,
    coverage_reconciliation (PDict squads) manager_ids extend_cache = Ok plan
    /\ (19 * total_count <= 20 * cached_count -> skipped plan)
    /\ (20 * cached_count < 19 * total_count -> lower extend_cache = "n" ->
        skipped plan)
    /\ (20 * cached_count < 19 * total_count -> lower extend_cache <> "n" ->
        skip_fetch plan = false /\ ids_to_fetch plan = missing).
Proof.
  intros Hsq Hids Hbound cached_count total_count missing skipped.
  unfold coverage_reconciliation. cbn [truthy py_len mbind result_bind].
  rewrite bool_decide_eq_false_2 by (by destruct squads). cbn [negb].
  rewrite coverage_ok_exact by exact Hbound.
  fold cached_count total_count.
  destruct (Z.leb_spec (19 * total_count) (20 * cached_count)) as [Hcov|Hcov].
  - rewrite bool_decide_eq_false_2 by (by destruct manager_ids).
    eexists. split; [reflexivity|]. repeat split; try done; lia.
  - destruct (decide (lower extend_cache = "n")) as [Hn|Hn].
    + rewrite bool_decide_eq_true_2 by done.
      eexists. split; [reflexivity|]. repeat split; try done; lia.
    + rewrite bool_decide_eq_false_2 by done. cbn [py_keys mbind result_bind].
      eexists. split; [reflexivity|]. repeat split; try done; lia.
Qed.

Lemma coverage_reconciliation_counts_witness :
  let missing :=
    filter (fun mid => KInt mid ∉ dict_keys nineteen_squads) twenty_ids in
  let skipped plan :=
    skip_fetch plan = true /\ ids_to_fetch plan = []
    /\ forall isoformat self fs now net completion cache_loaded choice
              league_id current_gw,
         fetch_phase isoformat self fs now net completion cache_loaded plan
           choice league_id current_gw = Ok (self, fs, Ready) in
  exists plan,
    coverage_reconciliation (PDict nineteen_squads) twenty_ids "y" = Ok plan
    /\ (19 * 20 <= 20 * 19 -> skipped plan)
    /\ (20 * 19 < 19 * 20 -> lower "y" = "n" -> skipped plan)
    /\ (20 * 19 < 19 * 20 -> lower "y" <> "n" ->
        skip_fetch plan = false /\ ids_to_fetch plan = missing).
Proof.
  apply (coverage_reconciliation_counts nineteen_squads twenty_ids "y").
  - discriminate.
  - discriminate.
  - reflexivity.
Defined.

(** * Further properties *)

(** ** Cache files of different records *)

Lemma numeric_split (s1 s2 t1 t2 : string) :
  all_numeric s1 = true -> all_numeric s2 = true ->
  starts_other t1 = true -> starts_other t2 = true ->
  s1 +:+ t1 = s2 +:+ t2 -> s1 = s2 /\ t1 = t2.
Proof.
  revert s2.
  induction s1 as [|a s1 IH]; intros [|b s2] H1 H2 Ht1 Ht2 Heq;
    simpl in *.
  - done.
  - change (t1 = String b (s2 +:+ t2)) in Heq.
    rewrite Heq in Ht1. simpl in Ht1.
    apply andb_true_iff in H2 as [Hb _]. by rewrite Hb in Ht1.
  - change (String a (s1 +:+ t1) = t2) in Heq.
    rewrite <- Heq in Ht2. simpl in Ht2.
    apply andb_true_iff in H1 as [Ha _]. by rewrite Ha in Ht2.
  - change (String a (s1 +:+ t1) = String b (s2 +:+ t2)) in Heq.
    injection Heq as -> Heq.
    apply andb_true_iff in H1 as [_ H1].
    apply andb_true_iff in H2 as [_ H2].
    by destruct (IH s2 H1 H2 Ht1 Ht2 Heq) as [-> ->].
Qed.

Lemma pretty_N_char_numeric (x : N) : numeric (pretty_N_char x) = true.
Proof. unfold pretty_N_char. by repeat case_match. Qed.

Lemma pretty_N_go_numeric (x : N) (s : string) :
  all_numeric s = true -> all_numeric (pretty_N_go x s) = true.
Proof.
  revert s. induction (N.lt_wf_0 x) as [x _ IH]; intros s Hs.
  assert (x = 0 ∨ 0 < x)%N as [->|?] by lia.
  - by rewrite pretty_N_go_0.
  - rewrite pretty_N_go_step by done. apply IH.
    { by apply N.div_lt. }
    simpl. by rewrite pretty_N_char_numeric.
Qed.

Lemma pretty_Z_numeric (z : Z) : all_numeric (pretty z) = true.
Proof.
  destruct z as [|p|p]; [done| |].
  - unfold pretty, pretty_Z, pretty, pretty_positive, pretty, pretty_N.
    case_decide; [done|]. by apply pretty_N_go_numeric.
  - unfold pretty, pretty_Z. simpl.
    unfold pretty, pretty_positive, pretty, pretty_N.
    case_decide; [done|]. by apply pretty_N_go_numeric.
Qed.

Lemma append_inj_prefix (p s t : string) : p +:+ s = p +:+ t -> s = t.
Proof.
  induction p as [|a p IH]; intros Heq; [done|].
  change (String a (p +:+ s) = String a (p +:+ t)) in Heq.
  injection Heq as Heq. by apply IH.
Qed.

(** The two file names of a record: the league and the gameweek can be
    read back from either, and the extension tells them apart. *)
Lemma cache_path_inj (l g l' g' : Z) (ext ext' : string) :
  starts_other ext = true -> starts_other ext' = true ->
  cache_dir +:+ "/" +:+ "league_" +:+ pretty l +:+ "_gw_" +:+ pretty g +:+ ext
  = cache_dir +:+ "/" +:+ "league_" +:+ pretty l' +:+ "_gw_" +:+ pretty g'
      +:+ ext' ->
  l = l' /\ g = g' /\ ext = ext'.
Proof.
  intros He He' Heq.
  do 3 apply append_inj_prefix in Heq.
  apply numeric_split in Heq as [Hl Heq];
    [|apply pretty_Z_numeric|apply pretty_Z_numeric|reflexivity|reflexivity].
  apply append_inj_prefix in Heq.
  apply numeric_split in Heq as [Hg Heq];
    [|apply pretty_Z_numeric|apply pretty_Z_numeric|done|done].
  split; [by apply (inj pretty)|]. split; [by apply (inj pretty)|done].
Qed.

Lemma cache_filename_inj (self reader : analyzer) (l l' : Z)
    (g g' : option Z) :
  get_cache_filename self l g = get_cache_filename reader l' g' ->
  (l, resolve_gameweek self g) = (l', resolve_gameweek reader g').
Proof.
  intros Heq. apply cache_path_inj in Heq as (-> & -> & _); done.
Qed.

Lemma cache_info_filename_inj (self reader : analyzer) (l l' : Z)
    (g g' : option Z) :
  get_cache_info_filename self l g = get_cache_info_filename reader l' g' ->
  (l, resolve_gameweek self g) = (l', resolve_gameweek reader g').
Proof.
  intros Heq. apply cache_path_inj in Heq as (-> & -> & _); done.
Qed.

Lemma cache_files_never_cross (self reader : analyzer) (l l' : Z)
    (g g' : option Z) :
  get_cache_filename self l g <> get_cache_info_filename reader l' g'.
Proof.
  intros Heq. apply cache_path_inj in Heq as (_ & _ & Hext); done.
Qed.

(** Files of another record are none of the two the record [l], [g]
    lives in. *)
Lemma other_record_paths (self reader : analyzer) (l l' : Z)
    (g g' : option Z) (path : string) :
  (l', resolve_gameweek reader g') <> (l, resolve_gameweek self g) ->
  path = get_cache_filename reader l' g'
  \/ path = get_cache_info_filename reader l' g' ->
  path <> get_cache_filename self l g
  /\ path <> get_cache_info_filename self l g.
Proof.
  intros Hne [->| ->]; split; intros Heq.
  - by apply cache_filename_inj in Heq.
  - by apply cache_files_never_cross in Heq.
  - symmetry in Heq. by apply cache_files_never_cross in Heq.
  - by apply cache_info_filename_inj in Heq.
Qed.

Lemma run_writes_frame (ws : list (string * file)) (fs : store)
    (path : string) :
  path ∉ ws.*1 -> run_writes ws fs !! path = fs !! path.
Proof.
  revert fs. induction ws as [|[p f] ws IH]; intros fs Hp; [done|].
  cbn. rewrite IH.
  - apply lookup_insert_ne. intros ->. apply Hp. cbn. left.
  - intros ?. apply Hp. cbn. by right.
Qed.

Lemma save_writes_paths (isoformat : Z -> string) (self : analyzer)
    (now league_id : Z) (gameweek : option Z) (path : string) :
  path ∈ (save_writes isoformat self now league_id gameweek).1.*1 ->
  path = get_cache_filename self league_id gameweek
  \/ path = get_cache_info_filename self league_id gameweek.
Proof.
  unfold save_writes.
  destruct (cache_info_doc _ _ _ _ _); cbn; set_solver.
Qed.

Lemma save_frame (isoformat : Z -> string) (self : analyzer) (fs : store)
    (now league_id : Z) (gameweek : option Z) (path : string) :
  path <> get_cache_filename self league_id gameweek ->
  path <> get_cache_info_filename self league_id gameweek ->
  (save_manager_squads_cache isoformat self fs now league_id gameweek).1
    !! path = fs !! path.
Proof.
  intros H1 H2. unfold save_manager_squads_cache.
  destruct (save_writes _ _ _ _ _) as [ws ok] eqn:Hws. cbn.
  apply run_writes_frame. intros Hin.
  assert (ws = (save_writes isoformat self now league_id gameweek).1) as ->
    by by rewrite Hws.
  apply save_writes_paths in Hin as [?|?]; done.
Qed.

(** X1.  A save writes to the two files of its own record only: for
    every other league or gameweek, what a reader finds in the cache
    directory and whether the record exists are the same before and
    after the save. *)
Theorem save_leaves_other_records (isoformat : Z -> string)
    (self reader : analyzer) (fs : store) (now league_id league_id' : Z)
    (gameweek gameweek' : option Z) :
  (league_id', resolve_gameweek reader gameweek')
  <> (league_id, resolve_gameweek self gameweek) ->
  let saved :=
    (save_manager_squads_cache isoformat self fs now league_id gameweek).1 in
  visible_record reader saved league_id' gameweek'
  = visible_record reader fs league_id' gameweek'
  /\ cache_exists reader saved league_id' gameweek'
     = cache_exists reader fs league_id' gameweek'.
Proof.
  intros Hne saved.
  destruct (other_record_paths self reader league_id league_id' gameweek
              gameweek' _ Hne (or_introl eq_refl)) as [Hc1 Hc2].
  destruct (other_record_paths self reader league_id league_id' gameweek
              gameweek' _ Hne (or_intror eq_refl)) as [Hi1 Hi2].
  unfold visible_record, cache_exists, path_exists, pickle_load, json_load,
    saved.
  by rewrite !save_frame.
Qed.

Lemma save_leaves_other_records_witness :
  let saved :=
    (save_manager_squads_cache decimal_isoformat two_cached legacy_store 9
       13907 (Some 4)).1 in
  visible_record init saved 13907 (Some 3)
  = visible_record init legacy_store 13907 (Some 3)
  /\ cache_exists init saved 13907 (Some 3)
     = cache_exists init legacy_store 13907 (Some 3).
Proof.
  apply (save_leaves_other_records decimal_isoformat two_cached init
           legacy_store 9 13907 13907 (Some 4) (Some 3)).
  cbn. congruence.
Defined.

(** X2.  When building the metadata raises (the league document is not
    of the expected shape, or the squads have no length), the save
    returns [False], but the payload file already holds the new data
    and the metadata file is left as it was. *)
Theorem failed_save_replaces_payload (isoformat : Z -> string)
    (self : analyzer) (fs : store) (now league_id : Z) (gameweek : option Z)
    (e : exn) :
  cache_info_doc isoformat self now league_id gameweek = Raise e ->
  let saved :=
    save_manager_squads_cache isoformat self fs now league_id gameweek in
  saved.2 = false
  /\ saved.1 !! get_cache_filename self league_id gameweek
     = Some (Pickled (cache_data_doc self))
  /\ saved.1 !! get_cache_info_filename self league_id gameweek
     = fs !! get_cache_info_filename self league_id gameweek.
Proof.
  intros He saved. unfold saved, save_manager_squads_cache, save_writes.
  rewrite He. cbn. split; [done|]. split.
  - by rewrite lookup_insert_eq.
  - rewrite !lookup_insert_ne; [done|..];
      apply cache_files_never_cross.
Qed.

Lemma failed_save_replaces_payload_witness :
  let saved :=
    save_manager_squads_cache decimal_isoformat odd_league legacy_store 9
      13907 (Some 3) in
  saved.2 = false
  /\ saved.1 !! get_cache_filename odd_league 13907 (Some 3)
     = Some (Pickled (cache_data_doc odd_league))
  /\ saved.1 !! get_cache_info_filename odd_league 13907 (Some 3)
     = legacy_store !! get_cache_info_filename odd_league 13907 (Some 3).
Proof.
  apply (failed_save_replaces_payload decimal_isoformat odd_league
           legacy_store 9 13907 (Some 3) KeyError).
  reflexivity.
Defined.

Lemma delete_cache_files_lookup (self : analyzer) (fs : store)
    (league_id : Z) (gameweek : option Z) (path : string) :
  delete_cache_files self fs league_id gameweek !! path
  = if decide (path = get_cache_filename self league_id gameweek
               \/ path = get_cache_info_filename self league_id gameweek)
    then None else fs !! path.
Proof.
  unfold delete_cache_files, path_exists.
  set (c := get_cache_filename _ _ _). set (i := get_cache_info_filename _ _ _).
  assert (Hdel : forall (m : store) p q,
             (if bool_decide (is_Some (m !! p)) then delete p m else m) !! q
             = if decide (q = p) then None else m !! q).
  { intros m p q. case_bool_decide as Hp; case_decide as Hq; subst.
    - apply lookup_delete_eq.
    - by apply lookup_delete_ne.
    - destruct (m !! p) eqn:E; [|done]. destruct Hp. by eexists.
    - done. }
  rewrite !Hdel. repeat case_decide; try done; naive_solver.
Qed.

(** X3.  The removal block of [delete_specific_cache] leaves neither
    file of the selected record, whatever was there before, and every
    record of another league or gameweek reads as before. *)
Theorem delete_removes_that_record (self reader : analyzer) (fs : store)
    (league_id league_id' : Z) (gameweek gameweek' : option Z) :
  let fs' := delete_cache_files self fs league_id gameweek in
  cache_exists self fs' league_id gameweek = false
  /\ visible_record self fs' league_id gameweek = (None, None)
  /\ ((league_id', resolve_gameweek reader gameweek')
      <> (league_id, resolve_gameweek self gameweek) ->
      visible_record reader fs' league_id' gameweek'
      = visible_record reader fs league_id' gameweek'
      /\ cache_exists reader fs' league_id' gameweek'
         = cache_exists reader fs league_id' gameweek').
Proof.
  intros fs'.
  assert (Hc : fs' !! get_cache_filename self league_id gameweek = None).
  { unfold fs'. rewrite delete_cache_files_lookup. by rewrite decide_True by auto. }
  assert (Hi : fs' !! get_cache_info_filename self league_id gameweek = None).
  { unfold fs'. rewrite delete_cache_files_lookup. by rewrite decide_True by auto. }
  split; [|split].
  - unfold cache_exists, path_exists. rewrite Hc.
    rewrite bool_decide_eq_false_2; [done|]. by intros [? ?].
  - unfold visible_record, pickle_load, json_load. by rewrite Hc, Hi.
  - intros Hne.
    destruct (other_record_paths self reader league_id league_id' gameweek
                gameweek' _ Hne (or_introl eq_refl)) as [Hc1 Hc2].
    destruct (other_record_paths self reader league_id league_id' gameweek
                gameweek' _ Hne (or_intror eq_refl)) as [Hi1 Hi2].
    unfold visible_record, cache_exists, path_exists, pickle_load, json_load,
      fs'.
    rewrite !delete_cache_files_lookup.
    rewrite !decide_False by naive_solver. done.
Qed.

(** ** League standings *)

Lemma getitem_py_get (v : pyval) (k : string) (dflt x : pyval) :
  getitem v k = Ok x -> py_get v k dflt = Ok x.
Proof.
  destruct v; try done. cbn. by destruct (dict_get _ _); intros [= ->].
Qed.

Lemma read_page_carries (data standings has_next : pyval)
    (rows : list pyval) :
  getitem data "standings" = Ok standings ->
  getitem standings "results" = Ok (PList rows) ->
  rows <> [] ->
  py_get standings "has_next" (PBool false) = Ok has_next ->
  read_page data = Ok (Some (rows, has_next)).
Proof.
  intros Hs Hr Hne Hn. unfold read_page.
  rewrite (getitem_py_get _ _ _ _ Hs). cbn.
  rewrite (getitem_py_get _ _ _ _ Hr). cbn.
  rewrite bool_decide_eq_false_2 by done. cbn. by rewrite Hn.
Qed.

(** The loop walks through a run of pages that each carry rows and
    announce a next page. *)
Lemma league_pages_run (pages : nat -> http_outcome)
    (chunks : list (list pyval)) (fuel start : nat)
    (all_managers : list pyval) :
  (forall i rows, chunks !! i = Some rows ->
                  page_carries (pages (start + i)%nat) rows true) ->
  league_pages pages (length chunks + fuel) start all_managers
  = league_pages pages fuel (start + length chunks)
      (all_managers ++ concat chunks).
Proof.
  revert start all_managers.
  induction chunks as [|rows chunks IH]; intros start all_managers Hrun.
  - cbn. by rewrite Nat.add_0_r, app_nil_r.
  - destruct (Hrun 0%nat rows eq_refl)
      as (data & standings & has_next & Hp & Hs & Hr & Hne & Hn & Ht).
    rewrite Nat.add_0_r in Hp. cbn [length Nat.add league_pages].
    rewrite Hp, (read_page_carries _ _ _ _ Hs Hr Hne Hn), Ht.
    rewrite IH.
    + cbn. by rewrite Nat.add_succ_r, app_assoc.
    + intros i rows' Hi. specialize (Hrun (S i) rows' Hi).
      by rewrite Nat.add_succ_r in Hrun.
Qed.

Lemma league_pages_shape (pages : nat -> http_outcome) (fuel page : nat)
    (all_managers : list pyval) (v : pyval) :
  league_pages pages fuel page all_managers = Some v ->
  v = PNone \/ exists rows, v = league_doc rows.
Proof.
  revert page all_managers.
  induction fuel as [|fuel IH]; intros page all_managers; [done|].
  cbn. destruct (pages page) as [data|code|].
  - destruct (read_page data) as [[[rows has_next]|]|e].
    + destruct (truthy has_next); [apply IH|].
      intros [= <-]. right. by eexists.
    + intros [= <-]. right. by eexists.
    + intros [= <-]. by left.
  - case_decide; intros [= <-]; [by left|right; by eexists].
  - intros [= <-]. by left.
Qed.

(** X6.  Pagination: when the pages 1 to n each carry rows and announce
    a next page, and page n+1 carries rows and announces none, the
    league document holds the rows of all n+1 pages, in page order,
    after n+1 requests. *)
Theorem league_pages_collected (pages : nat -> http_outcome)
    (chunks : list (list pyval)) (last : list pyval) (fuel : nat) :
  (forall i rows, chunks !! i = Some rows ->
                  page_carries (pages (S i)) rows true) ->
  page_carries (pages (S (length chunks))) last false ->
  (length chunks < fuel)%nat ->
  get_league_data pages fuel = Some (league_doc (concat chunks ++ last)).
Proof.
  intros Hrun Hlast Hfuel. unfold get_league_data.
  replace fuel with (length chunks + S (fuel - S (length chunks)))%nat by lia.
  rewrite league_pages_run by done.
  destruct Hlast
    as (data & standings & has_next & Hp & Hs & Hr & Hne & Hn & Ht).
  cbn [league_pages Nat.add]. cbn in Hp.
  by rewrite Hp, (read_page_carries _ _ _ _ Hs Hr Hne Hn), Ht.
Qed.

Lemma league_pages_collected_witness :
  get_league_data three_pages 5
  = Some (league_doc (concat [(fun i => PDict [(KStr "entry", PInt i)])
                                <$> [1; 2];
                              (fun i => PDict [(KStr "entry", PInt i)])
                                <$> [3; 4]]
                      ++ ((fun i => PDict [(KStr "entry", PInt i)]) <$> [5]))).
Proof.
  apply (league_pages_collected three_pages).
  - intros [|[|i]] rows [= <-];
      repeat eexists; try reflexivity; done.
  - repeat eexists; try reflexivity; done.
  - cbn. lia.
Defined.

(** X7.  How the pagination loop ends after n pages that carried rows.
    An exception of the transport on the next page discards everything
    collected (the result is [None]); a non-200 status keeps what was
    collected, unless it is the first page, where the result is
    [None]; a 200 page with empty or missing results keeps what was
    collected; a 200 page whose body is not an object gives [None]. *)
Theorem league_pages_stop (pages : nat -> http_outcome)
    (chunks : list (list pyval)) (fuel : nat) :
  (forall i rows, chunks !! i = Some rows ->
                  page_carries (pages (S i)) rows true) ->
  (length chunks < fuel)%nat ->
  let stop := pages (S (length chunks)) in
  let so_far := league_doc (concat chunks) in
  (stop = HttpError -> get_league_data pages fuel = Some PNone)
  /\ (forall code, stop = HttpStatus code ->
        get_league_data pages fuel
        = Some (if decide (chunks = []) then PNone else so_far))
  /\ (forall data standings results,
        stop = Http200 data ->
        py_get data "standings" (PDict []) = Ok standings ->
        py_get standings "results" (PList []) = Ok results ->
        truthy results = false ->
        get_league_data pages fuel = Some so_far)
  /\ (forall data,
        stop = Http200 data -> (forall d, data <> PDict d) ->
        get_league_data pages fuel = Some PNone).
Proof.
  intros Hrun Hfuel stop so_far. unfold get_league_data.
  replace fuel with (length chunks + S (fuel - S (length chunks)))%nat by lia.
  rewrite league_pages_run by done.
  cbn [league_pages Nat.add app]. fold stop.
  split; [|split; [|split]].
  - by intros ->.
  - intros code ->. destruct chunks; cbn; [done|].
    by rewrite decide_False by done.
  - intros data standings results -> Hs Hr Ht. unfold read_page.
    rewrite Hs. cbn. rewrite Hr. cbn. by rewrite Ht.
  - intros data -> Hd. destruct data; try done. by destruct (Hd d).
Qed.

Lemma league_pages_stop_witness :
  let stop := third_page_refused 3 in
  let so_far :=
    league_doc (concat [(fun i => PDict [(KStr "entry", PInt i)]) <$> [1; 2];
                        (fun i => PDict [(KStr "entry", PInt i)]) <$> [3; 4]])
  in
  (stop = HttpError -> get_league_data third_page_refused 3 = Some PNone)
  /\ (forall code, stop = HttpStatus code ->
        get_league_data third_page_refused 3
        = Some (if decide ([(fun i => PDict [(KStr "entry", PInt i)])
                              <$> [1; 2];
                            (fun i => PDict [(KStr "entry", PInt i)])
                              <$> [3; 4]] = [])
                then PNone else so_far))
  /\ (forall data standings results,
        stop = Http200 data ->
        py_get data "standings" (PDict []) = Ok standings ->
        py_get standings "results" (PList []) = Ok results ->
        truthy results = false ->
        get_league_data third_page_refused 3 = Some so_far)
  /\ (forall data,
        stop = Http200 data -> (forall d, data <> PDict d) ->
        get_league_data third_page_refused 3 = Some PNone).
Proof.
  apply (league_pages_stop third_page_refused
           [(fun i => PDict [(KStr "entry", PInt i)]) <$> [1; 2];
            (fun i => PDict [(KStr "entry", PInt i)]) <$> [3; 4]] 3).
  - intros [|[|i]] rows [= <-];
      repeat eexists; try reflexivity; done.
  - cbn. lia.
Defined.

(** X8.  [get_league_info] never raises and touches neither the squads
    nor the bootstrap data.  It returns [True] exactly when
    [get_league_data] returned a league document, which may hold no
    row at all; [league_data] is then that document and
    [current_league_id] the requested id.  When it returns [False],
    [league_data] has been overwritten with [None] and
    [current_league_id] is unchanged. *)
Theorem get_league_info_outcome (self : analyzer)
    (pages : nat -> http_outcome) (fuel : nat) (league_id : Z) :
  match get_league_info self pages fuel league_id with
  | None => get_league_data pages fuel = None
  | Some (self', ok) =>
      get_league_data pages fuel = Some (league_data self')
      /\ manager_squads self' = manager_squads self
      /\ bootstrap_data self' = bootstrap_data self
      /\ if ok
         then (exists rows, league_data self' = league_doc rows)
              /\ current_league_id self' = Some league_id
         else league_data self' = PNone
              /\ current_league_id self' = current_league_id self
  end.
Proof.
  unfold get_league_info.
  destruct (get_league_data pages fuel) as [v|] eqn:Hv; [|done]. cbn.
  apply league_pages_shape in Hv as [->|[rows ->]]; cbn; [done|].
  repeat split; by eexists.
Qed.

(** ** Values of the fetched mapping *)

Lemma retry_loop_first_success (net : network) (task : nat) (manager_id : Z)
    (retry_delay : spec_float) (body : pyval) (k remaining attempt : nat) :
  (forall a, (attempt <= a < attempt + k)%nat ->
             attempt_succeeds (net task manager_id a) = false) ->
  net task manager_id (attempt + k)%nat = Http200 body ->
  truthy body = true ->
  (k < remaining)%nat ->
  retry_loop (fun a => get_manager_squad (net task manager_id a)) retry_delay
    attempt remaining
  = (body, replicate k (fmul retry_delay f0_5)).
Proof.
  revert remaining attempt.
  induction k as [|k IH]; intros remaining attempt Hfail Hok Ht Hlt;
    (destruct remaining as [|remaining]; [lia|]); cbn.
  - rewrite Nat.add_0_r in Hok. rewrite Hok. cbn. by rewrite Ht.
  - assert (Hf := Hfail attempt ltac:(lia)). unfold attempt_succeeds in Hf.
    destruct (get_manager_squad_never_raises (net task manager_id attempt))
      as [squad Hs].
    rewrite Hs in Hf |- *. rewrite Hf.
    rewrite (IH remaining (S attempt)); [done|..].
    + intros a Ha. apply Hfail. lia.
    + by rewrite Nat.add_succ_comm.
    + done.
    + lia.
Qed.

Lemma retry_loop_sound (net : network) (task : nat) (manager_id : Z)
    (retry_delay : spec_float) (remaining attempt : nat) :
  let squad :=
    (retry_loop (fun a => get_manager_squad (net task manager_id a))
       retry_delay attempt remaining).1 in
  truthy squad = true ->
  exists a, (attempt <= a < attempt + remaining)%nat
            /\ net task manager_id a = Http200 squad.
Proof.
  revert attempt. induction remaining as [|remaining IH]; intros attempt;
    cbn; [done|].
  destruct (net task manager_id attempt) as [body|code|] eqn:Hn; cbn.
  - destruct (truthy body) eqn:Hb.
    + intros _. exists attempt. split; [lia|done].
    + destruct (retry_loop _ _ _ _) as [r pauses] eqn:Hr. cbn. intros Ht.
      specialize (IH (S attempt)). rewrite Hr in IH.
      destruct (IH Ht) as (a & Ha & Hb'). exists a. split; [lia|done].
  - destruct (retry_loop _ _ _ _) as [r pauses] eqn:Hr. cbn. intros Ht.
    specialize (IH (S attempt)). rewrite Hr in IH.
    destruct (IH Ht) as (a & Ha & Hb'). exists a. split; [lia|done].
  - destruct (retry_loop _ _ _ _) as [r pauses] eqn:Hr. cbn. intros Ht.
    specialize (IH (S attempt)). rewrite Hr in IH.
    destruct (IH Ht) as (a & Ha & Hb'). exists a. split; [lia|done].
Qed.

(** X10.  [get_manager_squad_safe] returns the body of the first
    attempt that brings a truthy answer, when there is one within
    [max_retries], and has paused half the retry delay once for each
    failed attempt before it and not after it. *)
Theorem safe_returns_first_success (net : network) (task : nat)
    (manager_id : Z) (retry_delay : spec_float) (max_retries : Z)
    (body : pyval) (k : nat) :
  (forall a, (a < k)%nat ->
             attempt_succeeds (net task manager_id a) = false) ->
  net task manager_id k = Http200 body ->
  truthy body = true ->
  Z.of_nat k < max_retries ->
  get_manager_squad_safe net task manager_id retry_delay max_retries
  = (body, replicate k (fmul retry_delay f0_5)).
Proof.
  intros Hfail Hok Ht Hlt. unfold get_manager_squad_safe.
  apply retry_loop_first_success; try done; [|lia].
  intros a Ha. apply Hfail. lia.
Qed.

Lemma safe_returns_first_success_witness :
  get_manager_squad_safe net_7_slow 0 7 f1_0 3
  = (squad_of [10], replicate 2 (fmul f1_0 f0_5)).
Proof.
  apply (safe_returns_first_success net_7_slow 0 7 f1_0 3 (squad_of [10]) 2).
  - by intros [|[|a]] Ha; [..|lia].
  - reflexivity.
  - reflexivity.
  - lia.
Defined.

(** What the tasks leave in the mapping: a stored squad was already
    there or is the answer to a task listed for that id. *)
Lemma collect_batch_values (net : network) (retry_delay : spec_float)
    (done : list (nat * Z)) (all_squads : dict) (k : key) (v : pyval) :
  dict_get k (collect_batch net retry_delay done all_squads) = Some v ->
  dict_get k all_squads = Some v
  \/ exists p m, (p, m) ∈ done /\ k = KInt m
                 /\ v = (get_manager_squad_safe net p m retry_delay 3).1
                 /\ truthy v = true.
Proof.
  unfold collect_batch. revert all_squads.
  induction done as [|[p m] done IH]; intros all_squads; simpl; [by left|].
  intros Hv. apply IH in Hv as [Hv|(p' & m' & Hin & -> & -> & Ht)].
  - destruct (truthy (get_manager_squad_safe net p m retry_delay 3).1)
      eqn:Ht.
    + rewrite dict_get_set in Hv. case_decide as Hk.
      * injection Hv as <-. right. exists p, m. split; [left|done].
      * by left.
    + by left.
  - right. exists p', m'. split; [by right|done].
Qed.

Lemma run_batches_values (net : network)
    (completion : list (nat * Z) -> list (nat * Z)) (config : speed_config)
    (manager_ids : list Z) (starts : list nat) (all_squads result : dict)
    (k : key) (v : pyval) :
  (forall l, completion l ≡ₚ l) ->
  run_batches net completion config manager_ids starts all_squads = Ok result ->
  dict_get k result = Some v ->
  dict_get k all_squads = Some v
  \/ exists p m, manager_ids !! p = Some m /\ k = KInt m
                 /\ v = (get_manager_squad_safe net p m
                           (cfg_retry_delay config) 3).1
                 /\ truthy v = true.
Proof.
  intros Hperm. revert all_squads.
  induction starts as [|i starts IH]; intros all_squads; cbn.
  - intros [= ->]. by left.
  - destruct (cfg_max_workers config <=? 0); [done|].
    intros Hrun Hv. destruct (IH _ Hrun Hv) as [Hv'|?]; [|by right].
    apply collect_batch_values in Hv' as [?|(p & m & Hin & ? & ? & ?)];
      [by left|right].
    rewrite Hperm in Hin. apply elem_of_batch_tasks in Hin as [Hp _].
    by exists p, m.
Qed.

(** X11.  Every squad in the mapping a fetch returns is stored under a
    requested member id and is the truthy body of a 200 response to
    one of the three attempts made for that member, at a position
    where the id was requested. *)
Theorem fetch_values_are_responses (self : analyzer) (net : network)
    (completion : list (nat * Z) -> list (nat * Z)) (manager_ids : list Z)
    (batch_size max_workers : Z) (speed_mode : string) (all_squads : dict) :
  (forall l, completion l ≡ₚ l) ->
  (fetch_manager_squads_batch self net completion manager_ids batch_size
     max_workers speed_mode).2 = Ok all_squads ->
  forall k v,
    dict_get k all_squads = Some v ->
    exists p m attempt,
      manager_ids !! p = Some m /\ k = KInt m /\ (attempt < 3)%nat
      /\ net p m attempt = Http200 v /\ truthy v = true.
Proof.
  intros Hperm Hfetch k v Hv. unfold fetch_manager_squads_batch in Hfetch.
  destruct (cfg_batch_size _ =? 0); [done|].
  destruct (run_batches _ _ _ _ _ _) as [result|e] eqn:Hrun; [|done].
  case_bool_decide; [done|]. cbn in Hfetch. injection Hfetch as ->.
  destruct (run_batches_values _ _ _ _ _ _ _ k v Hperm Hrun Hv)
    as [?|(p & m & Hp & -> & Hsafe & Ht)]; [done|].
  subst v. unfold get_manager_squad_safe in *.
  destruct (retry_loop_sound _ _ _ _ _ _ Ht) as (a & Ha & Hn).
  exists p, m, a. repeat split; try done. cbn in Ha. lia.
Qed.

Lemma fetch_values_are_responses_witness :
  exists p m attempt,
    [7; 8] !! p = Some m /\ KInt 8 = KInt m /\ (attempt < 3)%nat
    /\ net_7_down p m attempt = Http200 (squad_of [10])
    /\ truthy (squad_of [10]) = true.
Proof.
  apply (fetch_values_are_responses init net_7_down reverse [7; 8] 200 5
           "moderate" [(KInt 8, squad_of [10])]).
  - apply reverse_completion.
  - reflexivity.
  - reflexivity.
Defined.

(** X12.  When no id is requested twice, the mapping a fetch returns is
    determined by the remote side alone, whatever the order in which
    the futures complete: a requested id maps to the squad its task
    obtained, or is absent when its three attempts failed, and nothing
    else is a key. *)
Theorem fetch_lookup (self : analyzer) (net : network)
    (completion : list (nat * Z) -> list (nat * Z)) (manager_ids : list Z)
    (batch_size max_workers : Z) (speed_mode : string) :
  (forall l, completion l ≡ₚ l) ->
  NoDup manager_ids ->
  manager_ids <> [] ->
  settings_ok batch_size max_workers speed_mode = true ->
  exists all_squads,
    (fetch_manager_squads_batch self net completion manager_ids batch_size
       max_workers speed_mode).2 = Ok all_squads
    /\ (forall p m,
          manager_ids !! p = Some m ->
          dict_get (KInt m) all_squads
          = let squad :=
              (get_manager_squad_safe net p m
                 (cfg_retry_delay (settings batch_size max_workers speed_mode))
                 3).1 in
            if truthy squad then Some squad else None)
    /\ (forall k, (forall m, k = KInt m -> m ∉ manager_ids) ->
                  dict_get k all_squads = None).
Proof.
  intros Hperm Hnd Hne Hok.
  destruct (fetch_returns self net completion manager_ids batch_size
              max_workers speed_mode Hperm Hne Hok)
    as (all_squads & Hfetch & Hkeys).
  exists all_squads. split; [by rewrite Hfetch|].
  assert (Hval : forall k v, dict_get k all_squads = Some v ->
            exists p m, manager_ids !! p = Some m /\ k = KInt m
              /\ v = (get_manager_squad_safe net p m
                        (cfg_retry_delay
                           (settings batch_size max_workers speed_mode)) 3).1
              /\ truthy v = true).
  { intros k v Hv. unfold fetch_manager_squads_batch in Hfetch.
    destruct (cfg_batch_size _ =? 0); [done|].
    destruct (run_batches _ _ _ _ _ _) as [result|e] eqn:Hrun; [|done].
    case_bool_decide; [done|]. injection Hfetch as _ ->.
    by destruct (run_batches_values _ _ _ _ _ _ _ k v Hperm Hrun Hv)
      as [?|?]. }
  split.
  - intros p m Hp. cbn zeta.
    destruct (dict_get (KInt m) all_squads) as [v|] eqn:Hv.
    + destruct (Hval _ _ Hv) as (p' & m' & Hp' & [= <-] & -> & Ht).
      assert (p' = p) as -> by by eapply NoDup_lookup.
      by rewrite Ht.
    + apply dict_get_None in Hv. rewrite Hkeys in Hv.
      destruct (truthy _) eqn:Ht; [|done]. destruct Hv.
      exists p, m. by rewrite <- safe_truthy with (retry_delay :=
        cfg_retry_delay (settings batch_size max_workers speed_mode)).
  - intros k Hk. destruct (dict_get k all_squads) as [v|] eqn:Hv; [|done].
    destruct (Hval _ _ Hv) as (p' & m' & Hp' & -> & _).
    destruct (Hk m' eq_refl). by eapply list_elem_of_lookup_2.
Qed.

Lemma fetch_lookup_witness :
  exists all_squads,
    (fetch_manager_squads_batch init net_7_down reverse [7; 8] 1 1
       "custom").2 = Ok all_squads
    /\ (forall p m,
          [7; 8] !! p = Some m ->
          dict_get (KInt m) all_squads
          = let squad :=
              (get_manager_squad_safe net_7_down p m
                 (cfg_retry_delay (settings 1 1 "custom")) 3).1 in
            if truthy squad then Some squad else None)
    /\ (forall k, (forall m, k = KInt m -> m ∉ [7; 8]) ->
                  dict_get k all_squads = None).
Proof.
  apply (fetch_lookup init net_7_down reverse [7; 8] 1 1 "custom").
  - apply reverse_completion.
  - apply NoDup_cons. split; [set_solver|]. apply NoDup_singleton.
  - done.
  - reflexivity.
Defined.

(** ** Edges of the interactive run *)

Lemma fetch_empty_list (self : analyzer) (net : network)
    (completion : list (nat * Z) -> list (nat * Z))
    (batch_size max_workers : Z) (speed_mode : string) :
  (fetch_manager_squads_batch self net completion [] batch_size max_workers
     speed_mode).2 = Raise ZeroDivisionError.
Proof.
  unfold fetch_manager_squads_batch.
  destruct (cfg_batch_size _ =? 0); [done|].
  simpl. by rewrite range_starts_empty.
Qed.

Lemma coverage_ok_no_ids (cached_count : nat) :
  coverage_ok cached_count 0 = true.
Proof.
  unfold coverage_ok.
  replace (fmul (float_of_int (Z.of_nat 0)) f0_95) with (S754_zero false)
    by by vm_compute.
  cbn [int_ge_float]. apply Z.leb_le. lia.
Qed.

(** X14.  A league without members: with an empty list of member ids
    the interactive run ends in [ZeroDivisionError] on either path,
    in the coverage report when squads are cached, and in the fetch
    when none are. *)
Theorem empty_league_raises (isoformat : Z -> string) (self : analyzer)
    (fs : store) (now : Z) (net : network)
    (completion : list (nat * Z) -> list (nat * Z)) (cache_loaded : bool)
    (choice : speed_choice) (league_id : Z) (current_gw : option Z)
    (squads : dict) (extend_cache : string) :
  match coverage_reconciliation (PDict squads) [] extend_cache with
  | Raise e => e = ZeroDivisionError /\ squads <> []
  | Ok plan =>
      squads = []
      /\ fetch_phase isoformat self fs now net completion cache_loaded plan
           choice league_id current_gw = Raise ZeroDivisionError
  end.
Proof.
  unfold coverage_reconciliation.
  destruct squads as [|kv squads].
  - cbn [truthy length bool_decide negb]. rewrite bool_decide_eq_true_2 by done.
    cbn [negb]. split; [done|].
    unfold fetch_phase. cbn [skip_fetch plan_ids].
    destruct choice as [speed_mode|batch_size max_workers].
    + pose proof (fetch_empty_list self net completion 200 5 speed_mode) as He.
      destruct (fetch_manager_squads_batch _ _ _ _ _ _ _) as [self1 fetched].
      cbn in He. by rewrite He.
    + pose proof (fetch_empty_list self net completion batch_size max_workers
                    "conservative") as He.
      destruct (fetch_manager_squads_batch _ _ _ _ _ _ _) as [self1 fetched].
      cbn in He. by rewrite He.
  - cbn [truthy py_len mbind result_bind length].
    rewrite bool_decide_eq_false_2 by done. cbn [negb].
    rewrite coverage_ok_no_ids.
    by rewrite bool_decide_eq_true_2 by done.
Qed.

(** X15.  The custom speed settings are never used: the interactive
    run passes the mode ['conservative'] together with the custom
    values, and a named mode overrides the values, so the fetch phase
    behaves as with the conservative preset for every batch size and
    worker count typed in.  The values would be used under the mode
    ['custom']. *)
Theorem custom_speed_ignored (isoformat : Z -> string) (self : analyzer)
    (fs : store) (now : Z) (net : network)
    (completion : list (nat * Z) -> list (nat * Z)) (cache_loaded : bool)
    (plan : fetch_plan) (batch_size max_workers league_id : Z)
    (current_gw : option Z) :
  fetch_phase isoformat self fs now net completion cache_loaded plan
    (Custom batch_size max_workers) league_id current_gw
  = fetch_phase isoformat self fs now net completion cache_loaded plan
      (Preset "conservative") league_id current_gw
  /\ settings batch_size max_workers "conservative"
     = {| cfg_batch_size := 200; cfg_max_workers := 3;
          cfg_delay := f1_0; cfg_retry_delay := f1_0 |}
  /\ settings batch_size max_workers "custom"
     = {| cfg_batch_size := batch_size; cfg_max_workers := max_workers;
          cfg_delay := f1_0; cfg_retry_delay := f1_0 |}.
Proof. done. Qed.

Lemma map_result_fmap {A B C} (f : B -> result C) (g : A -> B) (h : A -> C)
    (l : list A) :
  (forall x, f (g x) = Ok (h x)) ->
  map_result f (g <$> l) = Ok (h <$> l).
Proof.
  intros Hf. induction l as [|x l IH]; [done|].
  cbn. rewrite Hf. cbn. by rewrite IH.
Qed.

(** X16.  When the interactive run rebuilds the league document from a
    loaded cache, the member ids it derives are the keys of the cached
    mapping, the coverage is complete by construction and the fetch is
    skipped, whatever the operator would answer: members missing from
    the cache are not looked for. *)
Theorem cache_rebuilt_league_skips_fetch (squads : dict) (ids : list Z)
    (extend_cache : string) :
  dict_keys squads = KInt <$> ids ->
  squads <> [] ->
  Z.of_nat (length squads) < 2 ^ 47 ->
  exists doc,
    league_from_cache (PDict squads) = Ok doc
    /\ manager_ids_of doc = Ok (PInt <$> ids)
    /\ coverage_reconciliation (PDict squads) ids extend_cache
       = Ok {| skip_fetch := true; plan_ids := ids;
               missing_defined := false |}.
Proof.
  intros Hkeys Hne Hlt. eexists. split; [done|]. split.
  - unfold manager_ids_of, league_doc. cbn. rewrite Hkeys.
    rewrite <- list_fmap_compose. by apply map_result_fmap.
  - assert (Hlen : length ids = length squads).
    { unfold dict_keys in Hkeys.
      by rewrite <- (length_fmap fst squads), Hkeys, length_fmap. }
    unfold coverage_reconciliation.
    cbn [truthy py_len mbind result_bind].
    rewrite bool_decide_eq_false_2 by by destruct squads.
    cbn [negb]. rewrite Hlen, coverage_ok_exact by done.
    rewrite (proj2 (Z.leb_le _ _)) by lia.
    rewrite bool_decide_eq_false_2; [done|].
    destruct squads; [done|]. cbn. lia.
Qed.

Lemma cache_rebuilt_league_skips_fetch_witness :
  exists doc,
    league_from_cache (PDict [(KInt 1, squad_of [10; 20])]) = Ok doc
    /\ manager_ids_of doc = Ok (PInt <$> [1])
    /\ coverage_reconciliation (PDict [(KInt 1, squad_of [10; 20])]) [1] "y"
       = Ok {| skip_fetch := true; plan_ids := [1];
               missing_defined := false |}.
Proof.
  apply (cache_rebuilt_league_skips_fetch [(KInt 1, squad_of [10; 20])] [1]
           "y"); [reflexivity|done|cbn; lia].
Defined.

Lemma filter_sublist_impl {A} (P Q : A -> Prop) `{!forall x, Decision (P x)}
    `{!forall x, Decision (Q x)} (l : list A) :
  (forall x, P x -> Q x) -> filter P l `sublist_of` filter Q l.
Proof.
  intros HPQ. induction l as [|x l IH]; [done|].
  rewrite !filter_cons. destruct (decide (P x)) as [HP|HP].
  - rewrite decide_True by auto. by apply sublist_skip.
  - destruct (decide (Q x)); [by apply sublist_cons|done].
Qed.

Lemma has_all_subset (player_ids player_ids' : list Z) (squad : list pyval) :
  (forall pid, pid ∈ player_ids -> pid ∈ player_ids') ->
  has_all player_ids' squad = true -> has_all player_ids squad = true.
Proof.
  rewrite !has_all_spec. intros Hsub H pid Hin. apply H. by apply Hsub.
Qed.

Lemma squad_matches_subset (player_ids player_ids' : list Z)
    (squad_data : pyval) :
  (forall pid, pid ∈ player_ids -> pid ∈ player_ids') ->
  squad_matches player_ids' squad_data = true ->
  squad_matches player_ids squad_data = true.
Proof.
  unfold squad_matches. destruct (squad_player_ids squad_data); [|done].
  apply has_all_subset.
Qed.

(** X17.  The scan of the web query, whose ids are Python ints, never
    raises; its matches are a sub-list of the keys of the mapping, in
    mapping order, so their number is at most the number of squads.
    Asking for more players can only remove matches, and the order and
    the repetitions of the players asked for do not matter. *)
Theorem scan_depends_on_target_set :
  (forall player_ids items,
     exists matching,
       scan_squads player_ids items = Ok matching
       /\ matching `sublist_of` dict_keys items
       /\ (length matching <= length items)%nat)
  /\ (forall player_ids player_ids' items,
        (forall pid, pid ∈ player_ids -> pid ∈ player_ids') ->
        exists matching matching',
          scan_squads player_ids items = Ok matching
          /\ scan_squads player_ids' items = Ok matching'
          /\ matching' `sublist_of` matching)
  /\ (forall player_ids player_ids' items,
        (forall pid, pid ∈ player_ids <-> pid ∈ player_ids') ->
        scan_squads player_ids items = scan_squads player_ids' items).
Proof.
  split; [|split].
  - intros player_ids items. eexists. split; [apply scan_squads_filter|].
    assert (Hsub : filter (fun kv => squad_matches player_ids kv.2 = true)
                     items `sublist_of` items) by apply sublist_filter.
    split.
    + unfold dict_keys. by apply fmap_sublist.
    + rewrite length_fmap. by apply sublist_length.
  - intros player_ids player_ids' items Hsub. do 2 eexists.
    split; [apply scan_squads_filter|]. split; [apply scan_squads_filter|].
    apply fmap_sublist, filter_sublist_impl.
    intros kv. by apply squad_matches_subset.
  - intros player_ids player_ids' items Heq. rewrite !scan_squads_filter.
    f_equal. f_equal. apply list_filter_iff. intros kv. split.
    + apply squad_matches_subset. intros pid. apply Heq.
    + apply squad_matches_subset. intros pid. apply Heq.
Qed.




(** ** Outcomes of a load and of a save *)

(** X4.  A load that returns [True] has found both files complete, a
    metadata document with a readable ['cached_at'] and a
    ['total_managers_in_league'] entry, was not turned down at the
    staleness prompt, and has put the payload in place; the squads it
    holds have a length. *)
Theorem load_success_means (fromisoformat : string -> option Z)
    (self self' : analyzer) (fs : store) (now league_id : Z)
    (gameweek : option Z) (skip_prompt : bool) (answer : string) :
  load_manager_squads_cache fromisoformat self fs now league_id gameweek
    skip_prompt answer = (self', true) ->
  exists payload cache_info t n total,
    fs !! get_cache_filename self league_id gameweek = Some (Pickled payload)
    /\ fs !! get_cache_info_filename self league_id gameweek
       = Some (JsonText cache_info)
    /\ cached_time fromisoformat cache_info = Ok t
    /\ rejected_as_stale now t skip_prompt answer = false
    /\ self' = adopt_cached_data self payload
    /\ py_len (manager_squads self') = Ok n
    /\ getitem cache_info "total_managers_in_league" = Ok total.
Proof.
  unfold load_manager_squads_cache, json_load, pickle_load.
  destruct (negb _ || negb _); [done|].
  destruct (fs !! get_cache_info_filename self league_id gameweek)
    as [[|v|cache_info]|]; try done.
  destruct (cached_time fromisoformat cache_info) as [t|e] eqn:Ht; [|done].
  destruct (rejected_as_stale now t skip_prompt answer) eqn:Hr; [done|].
  destruct (fs !! get_cache_filename self league_id gameweek)
    as [[|payload|v]|]; try done.
  destruct (py_len _) as [n|e] eqn:Hn; [|done].
  destruct (getitem cache_info _) as [total|e] eqn:Hg; [|done].
  intros [= <-]. by exists payload, cache_info, t, n, total.
Qed.

Lemma load_success_means_witness :
  exists payload cache_info t n total,
    legacy_store !! get_cache_filename init 13907 (Some 3)
    = Some (Pickled payload)
    /\ legacy_store !! get_cache_info_filename init 13907 (Some 3)
       = Some (JsonText cache_info)
    /\ cached_time decimal_fromisoformat cache_info = Ok t
    /\ rejected_as_stale 5 t false "n" = false
    /\ set_league_data PNone
         (set_manager_squads (PDict [(KInt 1, squad_of [10; 20])]) init)
       = adopt_cached_data init payload
    /\ py_len
         (manager_squads
            (set_league_data PNone
               (set_manager_squads (PDict [(KInt 1, squad_of [10; 20])])
                  init))) = Ok n
    /\ getitem cache_info "total_managers_in_league" = Ok total.
Proof.
  apply (load_success_means decimal_fromisoformat init _ legacy_store 5 13907
           (Some 3) false "n").
  vm_compute. reflexivity.
Defined.

(** X5.  A load whose metadata lacks ['total_managers_in_league']
    returns [False] only after the cached squads and league document
    have replaced those of the analyzer: the failure is reported, the
    state is changed all the same. *)
Theorem load_adopts_before_failing (fromisoformat : string -> option Z)
    (self : analyzer) (fs : store) (now league_id : Z) (gameweek : option Z)
    (skip_prompt : bool) (answer : string) (payload cache_info : pyval)
    (t : Z) (e : exn) :
  fs !! get_cache_filename self league_id gameweek = Some (Pickled payload) ->
  fs !! get_cache_info_filename self league_id gameweek
    = Some (JsonText cache_info) ->
  cached_time fromisoformat cache_info = Ok t ->
  rejected_as_stale now t skip_prompt answer = false ->
  getitem cache_info "total_managers_in_league" = Raise e ->
  load_manager_squads_cache fromisoformat self fs now league_id gameweek
    skip_prompt answer
  = (adopt_cached_data self payload, false).
Proof.
  intros Hp Hi Ht Hr He.
  rewrite (load_from_files fromisoformat self fs now league_id gameweek
             skip_prompt answer payload cache_info t Hp Hi Ht Hr).
  rewrite He. by destruct (py_len _).
Qed.

Lemma load_adopts_before_failing_witness :
  load_manager_squads_cache decimal_fromisoformat init short_metadata_store
    5 13907 (Some 3) true ""
  = (adopt_cached_data init (PDict [(KInt 1, squad_of [10; 20])]), false).
Proof.
  apply (load_adopts_before_failing decimal_fromisoformat init
           short_metadata_store 5 13907 (Some 3) true ""
           (PDict [(KInt 1, squad_of [10; 20])])
           (PDict [(KStr "cached_at", PStr (decimal_isoformat 0))]) 0
           KeyError);
    vm_compute; reflexivity.
Defined.

(** X9.  After a successful [get_league_info], saving an analyzer whose
    squads are a dict always succeeds, and the record on disk holds
    the squads, the league document, and metadata whose two counts are
    the number of squads and the number of league rows. *)
Theorem league_info_then_save (isoformat : Z -> string)
    (self self0 : analyzer) (pages : nat -> http_outcome) (fuel : nat)
    (fs : store) (now league_id : Z) (gameweek : option Z) (squads : dict) :
  get_league_info self pages fuel league_id = Some (self0, true) ->
  manager_squads self = PDict squads ->
  exists rows,
    league_data self0 = league_doc rows
    /\ let saved :=
         save_manager_squads_cache isoformat self0 fs now league_id gameweek
       in
       saved.2 = true
       /\ visible_record self0 saved.1 league_id gameweek
          = (Some (PDict [(KStr "manager_squads", PDict squads);
                          (KStr "league_data", league_doc rows)]),
             Some (PDict [(KStr "league_id", PInt league_id);
                          (KStr "gameweek", gameweek_val gameweek);
                          (KStr "manager_count",
                           PInt (Z.of_nat (length squads)));
                          (KStr "cached_at", PStr (isoformat now));
                          (KStr "total_managers_in_league",
                           PInt (Z.of_nat (length rows)))])).
Proof.
  intros Hinfo Hsq. unfold get_league_info in Hinfo.
  destruct (get_league_data pages fuel) as [v|] eqn:Hv; [|done].
  cbn in Hinfo.
  apply league_pages_shape in Hv as [->|[rows ->]]; cbn in Hinfo; [done|].
  injection Hinfo as <-. exists rows. split; [done|].
  assert (Hsq' : manager_squads
                   (set_current_league_id (Some league_id)
                      (set_league_data (league_doc rows) self))
                 = PDict squads) by done.
  assert (Hrows : league_data
                    (set_current_league_id (Some league_id)
                       (set_league_data (league_doc rows) self))
                  = league_doc rows) by done.
  set (self' := set_current_league_id _ _) in *.
  destruct (saved_files isoformat self' fs now league_id gameweek
              (PDict [(KStr "league_id", PInt league_id);
                      (KStr "gameweek", gameweek_val gameweek);
                      (KStr "manager_count", PInt (Z.of_nat (length squads)));
                      (KStr "cached_at", PStr (isoformat now));
                      (KStr "total_managers_in_league",
                       PInt (Z.of_nat (length rows)))]))
    as (Hok & Hc & Hi).
  { unfold cache_info_doc, total_managers_in_league.
    by rewrite Hsq', Hrows. }
  cbn zeta. split; [done|].
  unfold visible_record, pickle_load, json_load. rewrite Hc, Hi.
  unfold cache_data_doc. by rewrite Hsq', Hrows.
Qed.

Lemma league_info_then_save_witness :
  exists rows,
    league_data
      (set_current_league_id (Some 13907)
         (set_league_data (entries_of [1; 2; 3; 4; 5]) one_cached))
    = league_doc rows
    /\ let saved :=
         save_manager_squads_cache decimal_isoformat
           (set_current_league_id (Some 13907)
              (set_league_data (entries_of [1; 2; 3; 4; 5]) one_cached))
           ∅ 9 13907 (Some 3) in
       saved.2 = true
       /\ visible_record
            (set_current_league_id (Some 13907)
               (set_league_data (entries_of [1; 2; 3; 4; 5]) one_cached))
            saved.1 13907 (Some 3)
          = (Some (PDict [(KStr "manager_squads",
                           PDict [(KInt 1, squad_of [10; 20])]);
                          (KStr "league_data", league_doc rows)]),
             Some (PDict [(KStr "league_id", PInt 13907);
                          (KStr "gameweek", gameweek_val (Some 3));
                          (KStr "manager_count",
                           PInt (Z.of_nat
                                   (length [(KInt 1, squad_of [10; 20])])));
                          (KStr "cached_at", PStr (decimal_isoformat 9));
                          (KStr "total_managers_in_league",
                           PInt (Z.of_nat (length rows)))])).
Proof.
  apply (league_info_then_save decimal_isoformat one_cached _ three_pages 5
           ∅ 9 13907 (Some 3) [(KInt 1, squad_of [10; 20])]);
    reflexivity.
Defined.

(** X13.  A fresh load of the web application (no cache) fetches with
    the conservative settings, saves what it fetched and answers
    success with the number of squads fetched, which are the members
    whose task succeeded; the record on disk then holds these squads,
    the league document and matching counts. *)
Theorem fresh_load_persists (isoformat : Z -> string) (self : analyzer)
    (fs : store) (now : Z) (net : network)
    (completion : list (nat * Z) -> list (nat * Z)) (manager_ids : list Z)
    (league_id : Z) (current_gw : option Z) (rows : list pyval) :
  (forall l, completion l ≡ₚ l) ->
  manager_ids <> [] ->
  league_data self = league_doc rows ->
  let loaded :=
    load_league_fresh isoformat self fs now net completion manager_ids
      league_id current_gw in
  exists all_squads,
    loaded.1.1 = set_manager_squads (PDict all_squads) self
    /\ loaded.2 = LoadSuccess (length all_squads) false
    /\ visible_record self loaded.1.2 league_id current_gw
       = (Some (PDict [(KStr "manager_squads", PDict all_squads);
                       (KStr "league_data", league_doc rows)]),
          Some (PDict [(KStr "league_id", PInt league_id);
                       (KStr "gameweek", gameweek_val current_gw);
                       (KStr "manager_count",
                        PInt (Z.of_nat (length all_squads)));
                       (KStr "cached_at", PStr (isoformat now));
                       (KStr "total_managers_in_league",
                        PInt (Z.of_nat (length rows)))]))
    /\ forall k,
         k ∈ dict_keys all_squads
         <-> exists p m, manager_ids !! p = Some m /\ k = KInt m
                         /\ task_succeeds net p m = true.
Proof.
  intros Hperm Hne Hrows loaded.
  destruct (fetch_returns self net completion manager_ids 200 5
              "conservative" Hperm Hne (preset_settings_ok "conservative"))
    as (all_squads & Hfetch & Hkeys).
  exists all_squads. subst loaded. unfold load_league_fresh.
  rewrite Hfetch. cbn [manager_squads set_manager_squads py_len fst snd].
  set (self1 := set_manager_squads (PDict all_squads) self).
  destruct (saved_files isoformat self1 fs now league_id current_gw
              (PDict [(KStr "league_id", PInt league_id);
                      (KStr "gameweek", gameweek_val current_gw);
                      (KStr "manager_count",
                       PInt (Z.of_nat (length all_squads)));
                      (KStr "cached_at", PStr (isoformat now));
                      (KStr "total_managers_in_league",
                       PInt (Z.of_nat (length rows)))]))
    as (Hok & Hc & Hi).
  { unfold cache_info_doc, total_managers_in_league. cbn. by rewrite Hrows. }
  split; [done|]. split; [done|]. split; [|done].
  unfold visible_record, pickle_load, json_load.
  change (get_cache_filename self) with (get_cache_filename self1).
  change (get_cache_info_filename self) with (get_cache_info_filename self1).
  rewrite Hc, Hi. unfold cache_data_doc. cbn. by rewrite Hrows.
Qed.

Lemma fresh_load_persists_witness :
  let loaded :=
    load_league_fresh decimal_isoformat one_cached ∅ 9 net_7_down reverse
      [7; 8] 13907 (Some 3) in
  exists all_squads,
    loaded.1.1 = set_manager_squads (PDict all_squads) one_cached
    /\ loaded.2 = LoadSuccess (length all_squads) false
    /\ visible_record one_cached loaded.1.2 13907 (Some 3)
       = (Some (PDict [(KStr "manager_squads", PDict all_squads);
                       (KStr "league_data",
                        league_doc [PDict [(KStr "entry", PInt 1)]])]),
          Some (PDict [(KStr "league_id", PInt 13907);
                       (KStr "gameweek", gameweek_val (Some 3));
                       (KStr "manager_count",
                        PInt (Z.of_nat (length all_squads)));
                       (KStr "cached_at", PStr (decimal_isoformat 9));
                       (KStr "total_managers_in_league",
                        PInt (Z.of_nat
                                (length [PDict [(KStr "entry", PInt 1)]])))]))
    /\ forall k,
         k ∈ dict_keys all_squads
         <-> exists p m, [7; 8] !! p = Some m /\ k = KInt m
                         /\ task_succeeds net_7_down p m = true.
Proof.
  apply (fresh_load_persists decimal_isoformat one_cached ∅ 9 net_7_down
           reverse [7; 8] 13907 (Some 3) [PDict [(KStr "entry", PInt 1)]]).
  - apply reverse_completion.
  - done.
  - reflexivity.
Defined.

(** ** In-memory standings cache *)

Lemma fmap_fst_filter {A} (keys : list string) (d : list (string * A)) :
  (filter (fun kv => kv.1 ∉ keys) d).*1 = filter (fun k => k ∉ keys) d.*1.
Proof.
  induction d as [|[k v] d IH]; [done|].
  rewrite filter_cons. cbn [fst fmap list_fmap]. rewrite filter_cons.
  destruct (decide (k ∉ keys)); cbn; by rewrite IH.
Qed.

Lemma filter_all {A} (P : A -> Prop) `{!forall x, Decision (P x)}
    (l : list A) :
  Forall P l -> filter P l = l.
Proof.
  induction 1 as [|x l Hx Hl IH]; [done|].
  by rewrite filter_cons_True, IH.
Qed.

Lemma pop_all (keys : list string) (c : web_cache) :
  foldl (fun acc key => pop_entry key acc) c keys
  = {| league_standings_cache :=
         filter (fun kv => kv.1 ∉ keys) (league_standings_cache c);
       cache_timestamps :=
         filter (fun kv => kv.1 ∉ keys) (cache_timestamps c) |}.
Proof.
  revert c. induction keys as [|k keys IH]; intros [st ts].
  - cbn. f_equal; symmetry; apply filter_all, Forall_forall; set_solver.
  - cbn [foldl]. rewrite IH. unfold pop_entry, entry_pop. cbn.
    rewrite !list_filter_filter.
    f_equal; apply list_filter_iff; intros [k' v]; cbn; set_solver.
Qed.

Lemma entry_get_elem_of {A} (k : string) (v : A) (d : list (string * A)) :
  entry_get k d = Some v -> (k, v) ∈ d.
Proof.
  induction d as [|[k' v'] d IH]; [done|]. cbn.
  case_decide as Hk.
  - intros [= ->]. subst. apply list_elem_of_here.
  - intros H. apply list_elem_of_further. by apply IH.
Qed.

Lemma entry_get_is_Some {A} (k : string) (d : list (string * A)) :
  k ∈ d.*1 -> is_Some (entry_get k d).
Proof.
  induction d as [|[k' v'] d IH]; cbn; [by intros ?%elem_of_nil|].
  case_decide; [by eexists|].
  intros [?|?]%elem_of_cons; [done|by apply IH].
Qed.

Lemma entry_set_keys {A} (k : string) (v : A) (d : list (string * A)) :
  (entry_set k v d).*1 = if decide (k ∈ d.*1) then d.*1 else d.*1 ++ [k].
Proof.
  induction d as [|[k' v'] d IH]; [done|]. cbn.
  destruct (decide (k = k')) as [->|Hk].
  - cbn. rewrite decide_True by apply list_elem_of_here. done.
  - cbn. rewrite IH. destruct (decide (k ∈ d.*1)).
    + by rewrite decide_True by by apply list_elem_of_further.
    + rewrite decide_False; [done|]. by intros [?|?]%elem_of_cons.
Qed.

Lemma insert_newest_first_perm (x : string * Z) (l : list (string * Z)) :
  insert_newest_first x l ≡ₚ x :: l.
Proof.
  induction l as [|y l IH]; [done|]. cbn.
  destruct (x.2 <? y.2); [|done]. rewrite IH. apply Permutation_swap.
Qed.

Lemma sorted_newest_first_perm (items : list (string * Z)) :
  sorted_newest_first items ≡ₚ items.
Proof.
  induction items as [|x items IH]; [done|]. cbn.
  by rewrite insert_newest_first_perm, IH.
Qed.

Lemma insert_newest_first_sorted (x : string * Z) (l : list (string * Z)) :
  StronglySorted (fun a b => b.2 <= a.2) l ->
  StronglySorted (fun a b => b.2 <= a.2) (insert_newest_first x l).
Proof.
  induction l as [|y l IH]; intros Hs; cbn.
  - repeat constructor.
  - apply StronglySorted_inv in Hs as [Hs Hy].
    destruct (x.2 <? y.2) eqn:Hxy.
    + apply Z.ltb_lt in Hxy. constructor; [by apply IH|].
      rewrite insert_newest_first_perm. constructor; [lia|done].
    + apply Z.ltb_ge in Hxy. constructor; [by constructor|].
      constructor; [done|].
      eapply Forall_impl; [exact Hy|]. cbn. intros; lia.
Qed.

Lemma sorted_newest_first_sorted (items : list (string * Z)) :
  StronglySorted (fun a b => b.2 <= a.2) (sorted_newest_first items).
Proof.
  induction items as [|x items IH]; [constructor|].
  by apply insert_newest_first_sorted.
Qed.

Lemma StronglySorted_app_le (l1 l2 : list (string * Z)) (a b : string * Z) :
  StronglySorted (fun a b => b.2 <= a.2) (l1 ++ l2) ->
  a ∈ l1 -> b ∈ l2 -> b.2 <= a.2.
Proof.
  induction l1 as [|x l1 IH]; [by intros _ ?%elem_of_nil|].
  cbn. intros [Hs Hx]%StronglySorted_inv [->|Ha]%elem_of_cons Hb.
  - rewrite Forall_forall in Hx. apply Hx. apply elem_of_app. by right.
  - by apply IH.
Qed.

(** What is left after the first loop and after the whole clean-up. *)
Lemma cleanup_unfold (current_time : Z) (c : web_cache) :
  let expired_keys :=
    (filter (fun kt => expired current_time kt.2 = true)
       (cache_timestamps c)).*1 in
  let st1 := filter (fun kv => kv.1 ∉ expired_keys) (league_standings_cache c) in
  let ts1 := filter (fun kv => kv.1 ∉ expired_keys) (cache_timestamps c) in
  let keys_to_keep :=
    (take MAX_CACHED_LEAGUES (sorted_newest_first ts1)).*1 in
  let keys_to_remove := filter (fun key => key ∉ keys_to_keep) st1.*1 in
  cleanup_expired_cache current_time c
  = if (MAX_CACHED_LEAGUES <? length st1)%nat then
      {| league_standings_cache :=
           filter (fun kv => kv.1 ∉ keys_to_remove) st1;
         cache_timestamps := filter (fun kv => kv.1 ∉ keys_to_remove) ts1 |}
    else {| league_standings_cache := st1; cache_timestamps := ts1 |}.
Proof.
  cbn zeta. unfold cleanup_expired_cache. by rewrite !pop_all.
Qed.

Lemma cleanup_timestamps_sub (current_time : Z) (c : web_cache)
    (kt : string * Z) :
  kt ∈ cache_timestamps (cleanup_expired_cache current_time c) ->
  kt ∈ cache_timestamps c /\ expired current_time kt.2 = false.
Proof.
  rewrite cleanup_unfold. cbn zeta.
  assert (forall kt : string * Z,
    kt ∈ filter (fun kv : string * Z => kv.1 ∉
           (filter (fun kt => expired current_time kt.2 = true)
              (cache_timestamps c)).*1) (cache_timestamps c) ->
    kt ∈ cache_timestamps c /\ expired current_time kt.2 = false) as H1.
  { intros [k t] [Hn Hin]%list_elem_of_filter. split; [done|].
    destruct (expired current_time t) eqn:He; [|done]. destruct Hn.
    apply list_elem_of_fmap. exists (k, t). split; [done|].
    by apply list_elem_of_filter. }
  destruct (_ <? _)%nat; cbn.
  - intros [_ Hin]%list_elem_of_filter. by apply H1.
  - apply H1.
Qed.

Lemma shr_record_of_loc_m (m : Z) (l : location) :
  shr_m (shr_record_of_loc m l) = m.
Proof. by destruct l as [|[]]. Qed.

Lemma shr_fexp_nonneg (m e : Z) (l : location) :
  0 <= m -> 0 <= shr_m (shr_fexp 53 1024 m e l).1.
Proof.
  intros Hm. unfold shr_fexp, shr.
  destruct (fexp 53 1024 (Zdigits2 m + e) - e) as [|p|p]; cbn [fst];
    rewrite ?shr_record_of_loc_m; try done.
  apply iter_shr_1_m. by rewrite shr_record_of_loc_m.
Qed.

Lemma binary_round_aux_not_nan (sx : bool) (mx ex : Z) (lx : location) :
  0 <= mx -> binary_round_aux 53 1024 sx mx ex lx <> S754_nan.
Proof.
  intros Hm. unfold binary_round_aux.
  pose proof (shr_fexp_nonneg mx ex lx Hm) as H1.
  destruct (shr_fexp 53 1024 mx ex lx) as [mrs' e'].
  cbn [fst] in H1.
  pose proof (round_nearest_even_bounds (shr_m mrs') (loc_of_shr_record mrs'))
    as [Hr _].
  pose proof (shr_fexp_nonneg
                (round_nearest_even (shr_m mrs') (loc_of_shr_record mrs'))
                e' loc_Exact ltac:(lia)) as H2.
  destruct (shr_fexp 53 1024 _ e' loc_Exact) as [mrs'' e''].
  cbn [fst] in H2.
  destruct (shr_m mrs'') as [|m|m]; [done| |lia].
  by destruct (e'' <=? 1024 - 53).
Qed.

Lemma float_of_int_not_nan (n : Z) : float_of_int n <> S754_nan.
Proof.
  unfold float_of_int, binary_normalize, binary_round.
  destruct n as [|p|p]; [done|..];
    destruct (shl_align _ _ _) as [mz ez];
    by apply binary_round_aux_not_nan.
Qed.

Lemma fdiv_finite_not_nan (x : spec_float) (sy : bool) (my : positive)
    (ey : Z) :
  x <> S754_nan -> fdiv x (S754_finite sy my ey) <> S754_nan.
Proof.
  intros Hx. unfold fdiv, SFdiv. destruct x as [sx|sx| |sx mx ex]; try done.
  unfold SFdiv_core_binary.
  set (m' := match _ with Z0 => _ | Z.pos _ => _ | Z.neg _ => _ end).
  assert (0 <= m') as Hm'.
  { subst m'. destruct (_ - _ - _) as [|p|p]; try lia.
    rewrite Z.shiftl_mul_pow2 by lia.
    apply Z.mul_nonneg_nonneg; [lia|]. apply Z.pow_nonneg. lia. }
  pose proof (Z.div_pos m' (Z.pos my) Hm' ltac:(lia)) as Hq.
  unfold Z.div in Hq. destruct (Z.div_eucl m' (Z.pos my)) as [q r].
  by apply binary_round_aux_not_nan.
Qed.

Lemma total_seconds_not_nan (us : Z) : total_seconds us <> S754_nan.
Proof.
  unfold total_seconds.
  replace (float_of_int 1000000)
    with (S754_finite false 8589934592000000 (-33)) by by vm_compute.
  apply fdiv_finite_not_nan, float_of_int_not_nan.
Qed.

Lemma valid_iff_not_expired (current_time timestamp : Z) :
  float_le_int (total_seconds (current_time - timestamp))
    (CACHE_EXPIRY_MINUTES * 60)
  = negb (expired current_time timestamp).
Proof.
  unfold expired, float_le_int, float_gt_int.
  pose proof (total_seconds_not_nan (current_time - timestamp)) as Hn.
  destruct (total_seconds _); try done; by rewrite negb_involutive.
Qed.

(** X19.  After [cleanup_expired_cache] no remembered timestamp is
    expired, and [is_cache_valid] holds, at the same clock, for every
    key that still has a timestamp. *)
Theorem cleanup_leaves_valid_entries (current_time : Z) (c : web_cache) :
  let c' := cleanup_expired_cache current_time c in
  Forall (fun kt => expired current_time kt.2 = false
                    /\ is_cache_valid current_time c' kt.1 = true)
    (cache_timestamps c').
Proof.
  intros c'. apply Forall_forall. intros [k t] Hin.
  split; [by apply cleanup_timestamps_sub in Hin as [_ ?]|].
  unfold is_cache_valid. cbn [fst].
  destruct (entry_get_is_Some k (cache_timestamps c')) as [t' Ht'].
  { apply list_elem_of_fmap. by exists (k, t). }
  rewrite Ht'. apply entry_get_elem_of, cleanup_timestamps_sub in Ht'.
  rewrite valid_iff_not_expired. cbn in Ht'. by rewrite (proj2 Ht').
Qed.

Lemma cleanup_same_keys (current_time : Z) (c : web_cache) :
  same_keys c -> same_keys (cleanup_expired_cache current_time c).
Proof.
  intros [Hk Hnd]. rewrite cleanup_unfold. cbn zeta. unfold same_keys.
  destruct (_ <? _)%nat; cbn; rewrite !fmap_fst_filter, ?Hk;
    (split; [done|]); repeat apply NoDup_filter; done.
Qed.

Lemma remember_same_keys (current_time : Z) (cache_key : string)
    (league_standings : pyval) (c : web_cache) :
  same_keys c ->
  same_keys (remember_standings current_time cache_key league_standings c).
Proof.
  intros [Hk Hnd]. unfold same_keys. cbn. rewrite !entry_set_keys, Hk.
  split; [done|]. case_decide; [done|].
  apply NoDup_app. split; [done|]. split; [|apply NoDup_singleton].
  intros k Hin ->%list_elem_of_singleton. done.
Qed.

Lemma cleanup_size (current_time : Z) (c : web_cache) :
  same_keys c ->
  (length (league_standings_cache (cleanup_expired_cache current_time c))
   <= MAX_CACHED_LEAGUES)%nat.
Proof.
  intros Hc. destruct (cleanup_same_keys current_time c Hc) as [Hk' Hnd'].
  rewrite <- Hk' in Hnd'. clear Hk'. revert Hnd'.
  rewrite cleanup_unfold. cbn zeta.
  set (st1 := filter _ (league_standings_cache c)).
  set (keep := (take MAX_CACHED_LEAGUES _).*1).
  destruct (_ <? _)%nat eqn:Hlt; cbn [league_standings_cache].
  - set (st2 := filter _ st1). intros Hnd'.
    rewrite <- (length_fmap fst st2). trans (length keep).
    + apply submseteq_length, NoDup_submseteq; [done|].
      intros k Hin. unfold st2 in Hin. rewrite fmap_fst_filter in Hin.
      apply list_elem_of_filter in Hin as [Hn Hin].
      destruct (decide (k ∈ keep)) as [?|Hnk]; [done|].
      destruct Hn. by apply list_elem_of_filter.
    + unfold keep. rewrite length_fmap, length_take. lia.
  - intros _. by apply Nat.ltb_ge in Hlt.
Qed.

(** X20.  On two dicts that hold the same keys, the clean-up leaves at
    most [MAX_CACHED_LEAGUES] entries in each, still under the same
    keys. *)
Theorem cleanup_bounds_size (current_time : Z) (c : web_cache) :
  same_keys c ->
  let c' := cleanup_expired_cache current_time c in
  same_keys c'
  /\ (length (league_standings_cache c') <= MAX_CACHED_LEAGUES)%nat
  /\ (length (cache_timestamps c') <= MAX_CACHED_LEAGUES)%nat.
Proof.
  intros Hc c'. pose proof (cleanup_same_keys current_time c Hc) as Hc'.
  pose proof (cleanup_size current_time c Hc) as Hlen.
  fold c' in Hc', Hlen. split; [done|]. split; [done|].
  destruct Hc' as [Hk' _].
  by rewrite <- (length_fmap fst (cache_timestamps c')), <- Hk', length_fmap.
Qed.

Lemma cleanup_bounds_size_witness :
  let c' := cleanup_expired_cache (26 * one_hour) seven_leagues in
  same_keys c'
  /\ (length (league_standings_cache c') <= MAX_CACHED_LEAGUES)%nat
  /\ (length (cache_timestamps c') <= MAX_CACHED_LEAGUES)%nat.
Proof.
  apply (cleanup_bounds_size (26 * one_hour) seven_leagues).
  split; [reflexivity|]. apply (bool_decide_unpack _). vm_compute. exact I.
Defined.

Lemma same_keys_lookup (c : web_cache) (k : string) (t t' : Z) :
  NoDup (cache_timestamps c).*1 ->
  (k, t) ∈ cache_timestamps c -> (k, t') ∈ cache_timestamps c -> t = t'.
Proof.
  intros Hnd H1 H2.
  apply list_elem_of_lookup in H1 as [i Hi].
  apply list_elem_of_lookup in H2 as [j Hj].
  assert (i = j) as ->.
  { eapply NoDup_lookup; [exact Hnd|..].
    - by rewrite list_lookup_fmap, Hi.
    - by rewrite list_lookup_fmap, Hj. }
  congruence.
Qed.

(** X21.  The clean-up keeps the newest entries: an entry that is
    dropped was expired or is no newer than every entry that is
    kept. *)
Theorem cleanup_keeps_newest (current_time : Z) (c : web_cache)
    (k k' : string) (t t' : Z) :
  same_keys c ->
  let c' := cleanup_expired_cache current_time c in
  (k, t) ∈ cache_timestamps c' ->
  (k', t') ∈ cache_timestamps c ->
  k' ∉ (cache_timestamps c').*1 ->
  expired current_time t' = true \/ t' <= t.
Proof.
  intros [Hk Hnd] c' Hin Hin' Hout.
  destruct (expired current_time t') eqn:He; [by left|right].
  revert Hin Hout. subst c'. rewrite cleanup_unfold. cbn zeta.
  set (expired_keys := (filter _ (cache_timestamps c)).*1).
  set (st1 := filter _ (league_standings_cache c)).
  set (ts1 := filter _ (cache_timestamps c)).
  assert (Hk1 : st1.*1 = ts1.*1).
  { unfold st1, ts1. by rewrite !fmap_fst_filter, Hk. }
  assert (Hin1 : (k', t') ∈ ts1).
  { apply list_elem_of_filter. split; [|done]. cbn.
    intros ([k0 t0] & Hk0 & [He0 Hin0]%list_elem_of_filter)%list_elem_of_fmap.
    cbn in Hk0, He0. subst k0.
    assert (t0 = t') as -> by by eapply same_keys_lookup.
    congruence. }
  destruct (_ <? _)%nat; cbn.
  2:{ intros _ Hout. destruct Hout. apply list_elem_of_fmap.
      by exists (k', t'). }
  set (sorted_items := sorted_newest_first ts1).
  set (keep := (take MAX_CACHED_LEAGUES sorted_items).*1).
  intros [Hkeep Hin]%list_elem_of_filter Hout. cbn in Hkeep.
  assert (Hk_keep : k ∈ keep).
  { destruct (decide (k ∈ keep)) as [?|Hn]; [done|]. destruct Hkeep.
    apply list_elem_of_filter. split; [done|]. rewrite Hk1.
    apply list_elem_of_fmap. by exists (k, t). }
  assert (Hk'_keep : k' ∉ keep).
  { intros Hin_keep. destruct Hout. apply list_elem_of_fmap.
    exists (k', t'). split; [done|]. apply list_elem_of_filter.
    split; [|done]. cbn. intros [Hn _]%list_elem_of_filter. done. }
  assert (Hnd1 : NoDup ts1.*1).
  { unfold ts1. rewrite fmap_fst_filter. by apply NoDup_filter. }
  apply list_elem_of_fmap in Hk_keep as ([k0 t0] & Hk0 & Hin0).
  cbn in Hk0. subst k0.
  assert (Hsorted : (k, t0) ∈ ts1).
  { rewrite <- (sorted_newest_first_perm ts1). fold sorted_items.
    rewrite <- (take_drop MAX_CACHED_LEAGUES sorted_items).
    apply elem_of_app. by left. }
  assert (t0 = t) as ->.
  { apply list_elem_of_lookup in Hsorted as [i Hi].
    apply list_elem_of_lookup in Hin as [j Hj].
    assert (i = j) as ->.
    { eapply NoDup_lookup; [exact Hnd1|..].
      - by rewrite list_lookup_fmap, Hi.
      - by rewrite list_lookup_fmap, Hj. }
    congruence. }
  assert (Hdrop : (k', t') ∈ drop MAX_CACHED_LEAGUES sorted_items).
  { assert ((k', t') ∈ sorted_items) as Hs
      by by (unfold sorted_items; rewrite sorted_newest_first_perm).
    rewrite <- (take_drop MAX_CACHED_LEAGUES sorted_items) in Hs.
    apply elem_of_app in Hs as [Hs|Hs]; [|done].
    destruct Hk'_keep. apply list_elem_of_fmap. by exists (k', t'). }
  pose proof (sorted_newest_first_sorted ts1) as Hss. fold sorted_items in Hss.
  rewrite <- (take_drop MAX_CACHED_LEAGUES sorted_items) in Hss.
  apply (StronglySorted_app_le _ _ (k, t) (k', t') Hss Hin0 Hdrop).
Qed.

Lemma cleanup_keeps_newest_witness :
  expired (26 * one_hour) (2 * one_hour) = true
  \/ 2 * one_hour <= 3 * one_hour.
Proof.
  apply (cleanup_keeps_newest (26 * one_hour) seven_leagues "3_3" "2_3").
  - split; [reflexivity|]. apply (bool_decide_unpack _). vm_compute. exact I.
  - apply (bool_decide_unpack _). vm_compute. exact I.
  - apply (bool_decide_unpack _). vm_compute. exact I.
  - apply (bool_decide_unpack _). vm_compute. exact I.
Defined.

(** X22.  Cleaning up twice at the same clock is cleaning up once. *)
Theorem cleanup_idempotent (current_time : Z) (c : web_cache) :
  same_keys c ->
  let c' := cleanup_expired_cache current_time c in
  cleanup_expired_cache current_time c' = c'.
Proof.
  intros Hc c'. pose proof (cleanup_size current_time c Hc) as Hlen.
  fold c' in Hlen.
  assert (Hv : Forall (fun kt => expired current_time kt.2 = false)
                 (cache_timestamps c')).
  { apply Forall_forall. intros kt Hin.
    by apply cleanup_timestamps_sub in Hin as [_ ?]. }
  unfold cleanup_expired_cache at 1.
  replace (filter (fun kt => expired current_time kt.2 = true)
             (cache_timestamps c')) with (@nil (string * Z)).
  - cbn [fmap list_fmap foldl].
    by rewrite (proj2 (Nat.ltb_ge _ _)) by done.
  - symmetry. induction (cache_timestamps c') as [|kt l IH]; [done|].
    apply Forall_cons in Hv as [He Hv].
    rewrite filter_cons_False by congruence. by apply IH.
Qed.

Lemma cleanup_idempotent_witness :
  let c' := cleanup_expired_cache (26 * one_hour) seven_leagues in
  cleanup_expired_cache (26 * one_hour) c' = c'.
Proof.
  apply (cleanup_idempotent (26 * one_hour) seven_leagues).
  split; [reflexivity|]. apply (bool_decide_unpack _). vm_compute. exact I.
Defined.

(** X23.  The standings and the timestamps stay keyed alike: the two
    dicts start empty, every load of standings assigns both under the
    same key, and the clean-up pops from both. *)
Theorem web_cache_same_keys :
  same_keys empty_web_cache
  /\ (forall current_time cache_key league_standings c,
        same_keys c ->
        same_keys
          (remember_standings current_time cache_key league_standings c))
  /\ (forall current_time c,
        same_keys c -> same_keys (cleanup_expired_cache current_time c)).
Proof.
  split; [split; [done|constructor]|].
  split; [apply remember_same_keys|apply cleanup_same_keys].
Qed.

(** ** The expiry threshold in doubles *)

(** Rounding a mantissa of at least 53 digits, whatever is known of the
    digits already dropped: the result is finite, its exponent is that
    of the truncation or one more, and its mantissa, brought to the
    exponent of the truncation, is the truncated mantissa or its
    successor. *)
Lemma binary_round_aux_bounds (M : positive) (e : Z) (l : location) :
  let D := Z.pos (digits2_pos M) in
  let s := D - 53 in
  let E := e + s in
  53 <= D -> -1021 <= D + e -> E < 970 ->
  exists mf ef,
    binary_round_aux 53 1024 false (Z.pos M) e l = S754_finite false mf ef
    /\ E <= ef <= E + 1
    /\ Z.pos M / 2 ^ s <= Z.pos mf * 2 ^ (ef - E) <= Z.pos M / 2 ^ s + 1.
Proof.
  intros D s E HD Hlo Hhi.
  unfold binary_round_aux, shr_fexp. cbn [Zdigits2].
  fold D. rewrite fexp_normal by lia.
  replace (D + e - 53 - e) with s by lia.
  assert (exists mrs,
    shr (shr_record_of_loc (Z.pos M) l) e s = (mrs, E)
    /\ shr_m mrs = Z.pos M / 2 ^ s) as (mrs & -> & Hm').
  { subst E. destruct s as [|sp|sp] eqn:Hs; try lia; cbn [shr].
    - eexists. split; [by rewrite Z.add_0_r|].
      rewrite shr_record_of_loc_m. change (2 ^ 0) with 1.
      by rewrite Z.div_1_r.
    - eexists. split; [done|].
      destruct (iter_shr_1_m sp (shr_record_of_loc (Z.pos M) l)) as [_ ->];
        rewrite shr_record_of_loc_m; [lia|done]. }
  set (m' := Z.pos M / 2 ^ s) in *.
  pose proof (digits2_pos_bounds M) as [Mlo Mhi]. fold D in Mlo, Mhi.
  assert (0 < 2 ^ s) as Hpow by (apply Z.pow_pos_nonneg; lia).
  assert (2 ^ 52 <= m' < 2 ^ 53) as [Hm'lo Hm'hi].
  { subst m'. split.
    - apply Z.div_le_lower_bound; [lia|].
      rewrite <- Z.pow_add_r by lia.
      replace (s + 52) with (D - 1) by lia. lia.
    - apply Z.div_lt_upper_bound; [lia|].
      rewrite <- Z.pow_add_r by lia.
      replace (s + 53) with D by lia. lia. }
  pose proof (round_nearest_even_bounds (shr_m mrs) (loc_of_shr_record mrs))
    as Hr.
  destruct (round_nearest_even (shr_m mrs) (loc_of_shr_record mrs))
    as [|q|q] eqn:Hq; try lia.
  cbn [Zdigits2 shr_record_of_loc].
  pose proof (digits2_pos_bounds q) as [qlo qhi].
  set (D2 := Z.pos (digits2_pos q)) in *.
  assert (52 < D2) by (apply (Z.pow_lt_mono_r_iff 2); lia).
  assert (D2 - 1 < 54).
  { apply (Z.pow_lt_mono_r_iff 2); change (2 ^ 54) with (2 * 2 ^ 53); lia. }
  rewrite fexp_normal by lia.
  assert (D2 = 53 \/ D2 = 54) as [HD2 | HD2] by lia.
  - replace (D2 + E - 53 - E) with 0 by lia.
    cbn [shr shr_m].
    replace (E <=? 1024 - 53) with true by (symmetry; lia).
    exists q, E. split; [done|]. split; [lia|].
    replace (E - E) with 0 by lia. lia.
  - replace (D2 + E - 53 - E) with 1 by lia.
    cbn [shr SpecFloat.iter_pos].
    assert (Z.pos q = 2 ^ 53) as Hq53.
    { rewrite HD2 in qlo. change (2 ^ (54 - 1)) with (2 ^ 53) in qlo. lia. }
    injection Hq53 as ->. cbn [shr_1 shr_m].
    replace (E + 1 <=? 1024 - 53) with true by (symmetry; lia).
    eexists _, (E + 1). split; [done|]. split; [lia|].
    replace (E + 1 - E) with 1 by lia.
    change (2 ^ 53) with 9007199254740992 in *. lia.
Qed.

(** The quotient [us / 10**6] of an interval below 2^53 microseconds,
    compared with a whole number of seconds below 2^17: the comparison
    in doubles agrees with the exact one. *)
Lemma total_seconds_le (us limit : Z) :
  0 <= us < 2 ^ 53 -> 0 <= limit < 2 ^ 17 ->
  us <> limit * 1000000 ->
  float_le_int (total_seconds us) limit = (us <=? limit * 1000000).
Proof.
  intros [Hus0 Hus] [Hl0 Hl] Hne. destruct us as [|n|n]; try lia.
  { vm_compute total_seconds. cbn.
    by rewrite !(proj2 (Z.leb_le _ _)) by lia. }
  pose proof (digits2_pos_le n 53 Hus ltac:(lia)) as Hd.
  destruct (float_of_int_exact n ltac:(lia)) as (mz & Hfl & Hmz & Hdig).
  set (d := Z.pos (digits2_pos n)) in *.
  assert (0 < d) by (subst d; lia).
  unfold total_seconds. rewrite Hfl.
  replace (float_of_int 1000000)
    with (S754_finite false 8589934592000000 (-33)) by by vm_compute.
  unfold fdiv, SFdiv, SFdiv_core_binary. cbn [Zdigits2 xorb].
  rewrite Hdig.
  change (Z.pos (digits2_pos 8589934592000000)) with 53.
  rewrite fexp_normal by lia.
  replace (Z.min (53 + (d - 53) - (53 + -33) - 53) (d - 53 - -33))
    with (d - 73) by lia.
  replace (d - 53 - -33 - (d - 73)) with 53 by lia.
  rewrite Z.shiftl_mul_pow2 by lia.
  pose proof (digits2_pos_bounds mz) as [zlo zhi]. rewrite Hdig in zlo, zhi.
  change (2 ^ (53 - 1)) with 4503599627370496 in zlo.
  change (2 ^ 53) with 9007199254740992 in *.
  set (A := Z.pos mz * 9007199254740992).
  set (B := 8589934592000000).
  pose proof (Z_div_mod A B ltac:(subst B; lia)) as Hdm.
  fold B. change (Z.pos 8589934592000000) with B.
  destruct (Z.div_eucl A B) as [q r]. destruct Hdm as [HA Hr].
  assert (4503599627370496 <= q < 18014398509481984) as [Hqlo Hqhi]
    by (subst A B; nia).
  destruct q as [|Q|Q]; try lia.
  pose proof (digits2_pos_bounds Q) as [Qlo Qhi].
  set (D := Z.pos (digits2_pos Q)) in *.
  assert (52 < D).
  { apply (Z.pow_lt_mono_r_iff 2); [lia|lia|].
    change (2 ^ 52) with 4503599627370496. lia. }
  assert (D - 1 < 54).
  { apply (Z.pow_lt_mono_r_iff 2); [lia|lia|].
    change (2 ^ 54) with 18014398509481984. lia. }
  destruct (binary_round_aux_bounds Q (d - 73) (new_location B r))
    as (mf & ef & Hres & Hef & Hmr); fold D; try lia.
  unfold prec, emax. rewrite Hres. clear Hres. fold D in Hef, Hmr.
  set (s := D - 53) in *. set (E := d - 73 + s) in *.
  unfold float_le_int. cbn [int_ge_float].
  replace (0 <=? ef) with false by (symmetry; lia).
  set (T := 2 ^ (53 - d)) in *.
  assert (1 <= T).
  { subst T. change 1 with (2 ^ 0). apply Z.pow_le_mono_r; lia. }
  set (P := 2 ^ (- E)).
  assert (0 < P) by (apply Z.pow_pos_nonneg; lia).
  assert (0 < 2 ^ s) as Hs by (apply Z.pow_pos_nonneg; lia).
  assert (2 ^ s <= 2) as Hs2.
  { change 2 with (2 ^ 1) at 2. apply Z.pow_le_mono_r; lia. }
  assert (2 ^ s * P = 1048576 * T) as HQ.
  { subst P T. rewrite <- Z.pow_add_r by lia.
    change 1048576 with (2 ^ 20).
    rewrite <- Z.pow_add_r by lia. f_equal. lia. }
  set (a := ef - E) in *.
  assert (0 < 2 ^ a) as Ha by (apply Z.pow_pos_nonneg; lia).
  assert (2 ^ (- ef) * 2 ^ a = P) as HP.
  { subst P a. rewrite <- Z.pow_add_r by lia. f_equal. lia. }
  set (mr := Z.pos mf * 2 ^ a) in *.
  set (m' := Z.pos Q / 2 ^ s) in *.
  assert ((Z.pos mf <=? limit * 2 ^ (- ef)) = (mr <=? limit * P)) as ->.
  { apply eq_true_iff_eq. rewrite !Z.leb_le. subst mr. rewrite <- HP.
    rewrite Z.mul_assoc. split.
    - intros Hle. by apply Z.mul_le_mono_nonneg_r; [lia|].
    - intros Hle. by apply Z.mul_le_mono_pos_r in Hle. }
  set (x := Z.pos n * T) in *. set (y := limit * T).
  assert (0 < x) by (subst x; lia).
  assert (A = x * 9007199254740992) as HAx by (subst A; lia).
  assert (4503599627370496 <= m') as Hm'lo.
  { subst m'. apply Z.div_le_lower_bound; [lia|].
    replace (2 ^ s * 4503599627370496) with (2 ^ (D - 1)); [lia|].
    change 4503599627370496 with (2 ^ 52).
    rewrite <- Z.pow_add_r by lia. f_equal. lia. }
  destruct (Z.leb_spec (Z.pos n) (limit * 1000000)) as [Hcov | Hcov].
  - apply Z.leb_le.
    assert (x + T <= 1000000 * y).
    { subst x y. replace (Z.pos n * T + T) with ((Z.pos n + 1) * T) by lia.
      replace (1000000 * (limit * T)) with (limit * 1000000 * T) by lia.
      apply Z.mul_le_mono_nonneg_r; lia. }
    assert (m' < limit * P); [|lia].
    subst m'. apply Z.div_lt_upper_bound; [lia|].
    replace (2 ^ s * (limit * P)) with (limit * (2 ^ s * P)) by lia.
    rewrite HQ.
    replace (limit * (1048576 * T)) with (y * 1048576) by (subst y; lia).
    subst B. lia.
  - apply Z.leb_gt.
    assert (1000000 * y + T <= x).
    { subst x y.
      replace (1000000 * (limit * T) + T) with ((limit * 1000000 + 1) * T)
        by lia.
      apply Z.mul_le_mono_nonneg_r; lia. }
    assert (limit * P + 1 <= m'); [|lia].
    destruct (Z_lt_le_dec (- E) 36) as [HE | HE].
    + assert (P <= 2 ^ 35) by (subst P; apply Z.pow_le_mono_r; lia).
      change (2 ^ 35) with 34359738368 in *.
      change (2 ^ 17) with 131072 in Hl.
      assert (limit * P <= 131071 * 34359738368)
        by (apply Z.mul_le_mono_nonneg; lia).
      lia.
    + assert (2 ^ 36 <= P) by (subst P; apply Z.pow_le_mono_r; lia).
      change (2 ^ 36) with 68719476736 in *.
      subst m'. apply Z.div_le_lower_bound; [lia|].
      replace (2 ^ s * (limit * P + 1)) with (limit * (2 ^ s * P) + 2 ^ s)
        by lia.
      rewrite HQ.
      replace (limit * (1048576 * T)) with (y * 1048576) by (subst y; lia).
      assert (1 * P <= 2 ^ s * P)
        by (apply Z.mul_le_mono_nonneg_r; lia).
      subst B. lia.
Qed.

(** X24.  An entry is valid for exactly a day: for an age below 2^53
    microseconds, the comparison of [total_seconds()] with 86400 in
    doubles agrees with the exact one, so an entry is expired when it
    is more than 86 400 000 000 microseconds old and valid
    otherwise. *)
Theorem cache_entry_valid_for_a_day (current_time cache_time : Z) :
  0 <= current_time - cache_time < 2 ^ 53 ->
  expired current_time cache_time
  = (CACHE_EXPIRY_MINUTES * 60 * 1000000 <? current_time - cache_time)
  /\ forall c cache_key,
       entry_get cache_key (cache_timestamps c) = Some cache_time ->
       is_cache_valid current_time c cache_key
       = (current_time - cache_time <=? CACHE_EXPIRY_MINUTES * 60 * 1000000).
Proof.
  intros Hus.
  assert (float_le_int (total_seconds (current_time - cache_time))
            (CACHE_EXPIRY_MINUTES * 60)
          = (current_time - cache_time
             <=? CACHE_EXPIRY_MINUTES * 60 * 1000000)) as Hle.
  { destruct (decide (current_time - cache_time
                      = CACHE_EXPIRY_MINUTES * 60 * 1000000)) as [->|Hne].
    - by vm_compute.
    - apply total_seconds_le; [done| |done]. by vm_compute. }
  split.
  - rewrite Z.ltb_antisym, <- Hle, valid_iff_not_expired.
    by rewrite negb_involutive.
  - intros c cache_key Hget. unfold is_cache_valid. by rewrite Hget.
Qed.

Lemma cache_entry_valid_for_a_day_witness :
  expired (26 * one_hour) (2 * one_hour)
  = (CACHE_EXPIRY_MINUTES * 60 * 1000000 <? 26 * one_hour - 2 * one_hour)
  /\ forall c cache_key,
       entry_get cache_key (cache_timestamps c) = Some (2 * one_hour) ->
       is_cache_valid (26 * one_hour) c cache_key
       = (26 * one_hour - 2 * one_hour
          <=? CACHE_EXPIRY_MINUTES * 60 * 1000000).
Proof.
  apply (cache_entry_valid_for_a_day (26 * one_hour) (2 * one_hour)).
  by vm_compute.
Defined.

(** ** Cached load of the web application *)







